(** * Mojo analytics pipeline: normalizer, vendor client and date filter

    A shallow embedding of [process_data.py], [ingest_data.py],
    [Constants.py] and the filter of [dashboard.py].

    The Python code is effectful: it reads and writes files, appends to a
    logger, sends HTTP requests and copies dictionaries.  Every effect is
    written out as explicit state passing over a small world record, and
    Python exceptions are values of type [exn] carried by [result].

    What pandas computes inside a call (the decoding of a column by
    [pd.read_excel], [pd.to_datetime], [pd.to_numeric], [str()] of a
    number, what [astype(str)] makes of a missing value,
    [DataFrame.to_csv]) is library code, not code of this repository,
    and so is Python's [str.isdigit].  Those functions are Section
    variables: every theorem holds for whatever they compute. *)

From stdpp Require Import gmap strings list fin_maps pretty.
From Stdlib Require Import ZArith Ascii.

Local Open Scope Z_scope.
Set Warnings "-register-all".

(** ** Python strings *)

Module PyStr.

(** [s.split(".")[0]]: the part of [s] before its first dot. *)
Fixpoint before_dot (s : string) : string :=
  match s with
  | EmptyString => EmptyString
  | String c s' => if decide (c = "."%char) then EmptyString
                   else String c (before_dot s')
  end.

Fixpoint has_dot (s : string) : bool :=
  match s with
  | EmptyString => false
  | String c s' => if decide (c = "."%char) then true else has_dot s'
  end.

Definition is_digit (c : ascii) : bool :=
  let n := nat_of_ascii c in
  (Nat.leb 48 n && Nat.leb n 57)%bool.

Fixpoint all_digits (s : string) : bool :=
  match s with
  | EmptyString => true
  | String c s' => (is_digit c && all_digits s')%bool
  end.

(** [s.startswith(p)] *)
Fixpoint startswith (p s : string) : bool :=
  match p, s with
  | EmptyString, _ => true
  | String a p', String b s' =>
      if decide (a = b) then startswith p' s' else false
  | String _ _, EmptyString => false
  end.

Fixpoint endswith_slash (s : string) : bool :=
  match s with
  | EmptyString => false
  | String c EmptyString => if decide (c = "/"%char) then true else false
  | String _ s' => endswith_slash s'
  end.

(** [p in s] for strings: [p] occurs in [s] as a contiguous piece. *)
Fixpoint contains (p s : string) : bool :=
  if startswith p s then true
  else match s with
       | EmptyString => false
       | String _ s' => contains p s'
       end.

Definition lower_char (c : ascii) : ascii :=
  let n := nat_of_ascii c in
  if (Nat.leb 65 n && Nat.leb n 90)%bool then ascii_of_nat (n + 32) else c.

Fixpoint lower (s : string) : string :=
  match s with
  | EmptyString => EmptyString
  | String c s' => String (lower_char c) (lower s')
  end.

(** The last character, if any. *)
Fixpoint last_char (s : string) : option ascii :=
  match s with
  | EmptyString => None
  | String c EmptyString => Some c
  | String _ s' => last_char s'
  end.

End PyStr.

(** [os.path.join(a, b)] on POSIX paths. *)
Definition os_path_join (a b : string) : string :=
  if PyStr.startswith "/" b then b
  else if decide (a = "") then b
  else if PyStr.endswith_slash a then a +:+ b
  else a +:+ "/" +:+ b.

(** ** Exceptions *)

Inductive exn : Type :=
  | FileNotFoundError
  | FileExistsError
  | NotADirectoryError
  | IsADirectoryError
  | BadZipFile
  | ParserError
  | ValueError
  | KeyError
  | AttributeError
  | DateParseError
  | JSONDecodeError
  | ConnectionError.

Inductive result (A : Type) : Type :=
  | Ok (a : A)
  | Raise (e : exn).
Arguments Ok {A} a.
Arguments Raise {A} e.

Global Instance result_ret : MRet result := λ A a, Ok a.
Global Instance result_bind : MBind result := λ A B f r,
  match r with
  | Ok a => f a
  | Raise e => Raise e
  end.

Global Instance exn_eq_dec : EqDecision exn.
Proof. solve_decision. Defined.

(** ** Cells and data frames *)

(** One value of a sheet or of a data frame.  [NaN] is the missing value
    of numeric and object columns (an empty spreadsheet cell), [NaT] the
    missing value of [datetime64] columns.  A [Float m e] is the finite
    binary float [m * 2^e], a [Timestamp ns] counts nanoseconds since the
    epoch. *)
Inductive cell : Type :=
  | NaN
  | NaT
  | Int (z : Z)
  | Float (m e : Z)
  | Str (s : string)
  | Timestamp (ns : Z).

Global Instance cell_eq_dec : EqDecision cell.
Proof. solve_decision. Defined.

Global Instance cell_inhabited : Inhabited cell := populate NaN.

(** [pd.isna] on one value. *)
Definition isna (c : cell) : bool :=
  match c with
  | NaN | NaT => true
  | _ => false
  end.

(** A frame is kept row by row; [columns] are the labels, in order. *)
Record dataframe : Type := DataFrame {
  columns : list string;
  rows : list (list cell)
}.

Global Instance dataframe_eq_dec : EqDecision dataframe.
Proof. solve_decision. Defined.

Module Pd.

(** [df.shape] *)
Definition shape (df : dataframe) : nat * nat :=
  (length (rows df), length (columns df)).

(** [df.empty]: some axis has length 0. *)
Definition empty (df : dataframe) : bool :=
  bool_decide (rows df = []) || bool_decide (columns df = []).

(** Position of label [name]. *)
Fixpoint col_index (name : string) (cols : list string) : option nat :=
  match cols with
  | [] => None
  | c :: cols' => if decide (c = name) then Some 0%nat
                  else S <$> col_index name cols'
  end.

(** The value of a row in column [j]. *)
Definition at_col (j : nat) (r : list cell) : cell := default NaN (r !! j).

(** [df[name]] *)
Definition getitem (df : dataframe) (name : string) : result (list cell) :=
  match col_index name (columns df) with
  | None => Raise KeyError
  | Some j => Ok (at_col j <$> rows df)
  end.

(** [df[name] = vals] for a series [vals] on the index of [df]: the
    value of row [i] becomes [vals[i]]; a label that is not there yet
    is appended as a new column. *)
Definition setitem (df : dataframe) (name : string) (vals : list cell) : dataframe :=
  match col_index name (columns df) with
  | Some j =>
      DataFrame (columns df)
        (imap (λ i r, <[j := default NaN (vals !! i)]> r) (rows df))
  | None =>
      DataFrame (columns df ++ [name])
        (imap (λ i r, r ++ [default NaN (vals !! i)]) (rows df))
  end.

(** [df.columns = names] *)
Definition set_columns (df : dataframe) (names : list string) : result dataframe :=
  if decide (length names = length (columns df))
  then Ok (DataFrame names (rows df))
  else Raise ValueError.

(** [df.iloc[:-k]] *)
Definition iloc_drop_last (k : nat) (df : dataframe) : dataframe :=
  DataFrame (columns df) (take (length (rows df) - k) (rows df)).

Definition row_complete (r : list cell) : bool := forallb (λ c, negb (isna c)) r.

(** [df.dropna()] *)
Definition dropna (df : dataframe) : dataframe :=
  DataFrame (columns df) (List.filter row_complete (rows df)).

(** [df.dropna(subset=[name])] *)
Definition dropna_subset (df : dataframe) (name : string) : result dataframe :=
  match col_index name (columns df) with
  | None => Raise KeyError
  | Some j =>
      Ok (DataFrame (columns df)
            (List.filter (λ r, negb (isna (at_col j r))) (rows df)))
  end.

(** [df.loc[mask]] for a boolean mask on the index of [df]. *)
Fixpoint select {A} (mask : list bool) (l : list A) : list A :=
  match mask, l with
  | b :: mask', x :: l' => if b then x :: select mask' l' else select mask' l'
  | _, _ => []
  end.

Definition loc (df : dataframe) (mask : list bool) : dataframe :=
  DataFrame (columns df) (select mask (rows df)).

End Pd.

(** ** The normalizer: [process_data.py] *)

Module ProcessData.

(** *** The world the normalizer runs in *)

(** What a path names on disk: a directory, a spreadsheet that
    [pd.read_excel] can open (its first sheet, row by row, cell by cell
    as stored), or any other file. *)
Inductive node : Type :=
  | Dir
  | Workbook (sheet : list (list cell))
  | Blob (bytes : string).

Global Instance node_eq_dec : EqDecision node.
Proof. solve_decision. Defined.

Inductive level : Type := INFO | WARNING | ERROR.

Inductive message : Type :=
  | Loading (what : string)
  | Loaded (what : string) (shape : nat * nat)
  | NotFound (file : string)
  | ErrorLoading (what : string) (e : exn)
  | DirectoryNotFound (path : string)
  | RunFetchFirst
  | LoadingFrom (path : string)
  | Banner
  | SummaryTitle
  | Status (what : string) (loaded : bool).

Record world : Type := World {
  fs : gmap string node;
  log : list (level * message)
}.

(** *** Directories

    Paths are compared as they are written.  The directories above a
    path are what is written before each of its ["/"], when that is not
    empty and does not end with ["/"] itself: [data] and [data/clean]
    for [data/clean/20251227]. *)
Fixpoint prefixes_at_slash (before rest : string) : list string :=
  match rest with
  | EmptyString => []
  | String c rest' =>
      (if decide (c = "/"%char)
       then if bool_decide (before = "") || PyStr.endswith_slash before
            then [] else [before]
       else [])
      ++ prefixes_at_slash (before +:+ String c "") rest'
  end.

Definition ancestors (path : string) : list string := prefixes_at_slash "" path.

(** The directories [os.makedirs(path)] goes through, outermost first. *)
Definition chain (path : string) : list string := ancestors path ++ [path].

(** Something that is not a directory is at [p]. *)
Definition blocked (f : gmap string node) (p : string) : bool :=
  match f !! p with
  | Some Dir | None => false
  | Some _ => true
  end.

Definition make_dirs (dirs : list string) (f : gmap string node) : gmap string node :=
  foldr (λ p acc, <[p := Dir]> acc) f dirs.

Definition makedirs_on (path : string) (f : gmap string node)
  : result (gmap string node) :=
  if decide (path = "") then Raise FileNotFoundError
  else if existsb (blocked f) (ancestors path) then Raise NotADirectoryError
  else if blocked f path then Raise FileExistsError
  else Ok (make_dirs (chain path) f).

(** A computation that may raise and that changes the world; what it
    did to the world before raising stays done. *)
Definition M (A : Type) : Type := world → result A * world.

Global Instance M_ret : MRet M := λ A a w, (Ok a, w).
Global Instance M_bind : MBind M := λ A B f m w,
  match m w with
  | (Ok a, w') => f a w'
  | (Raise e, w') => (Raise e, w')
  end.

Definition lift {A} (r : result A) : M A := λ w, (r, w).

(** Calling a function that returns and never raises. *)
Definition call {A} (f : world → A * world) : M A :=
  λ w, (Ok (f w).1, (f w).2).

(** [try: body  except ...: handler] where the handler returns. *)
Definition try_except {A} (body : M A) (handler : exn → world → A * world)
  : world → A * world :=
  λ w, match body w with
       | (Ok a, w') => (a, w')
       | (Raise e, w') => handler e w'
       end.

Definition emit (l : level) (m : message) (w : world) : world :=
  World (fs w) (log w ++ [(l, m)]).

Definition logger_info (m : message) : M unit := λ w, (Ok (), emit INFO m w).
Definition logger_error (m : message) : M unit := λ w, (Ok (), emit ERROR m w).

(** *** Files *)

Definition sheet_width (sheet : list (list cell)) : nat :=
  foldr Nat.max 0%nat (length <$> sheet).

(** The columns at the positions [usecols], row by row. *)
Definition selected (usecols : list nat) (body : list (list cell)) : list (list cell) :=
  (λ r, (λ j, Pd.at_col j r) <$> usecols) <$> body.

Section Reading.

(** What [pd.read_excel] makes of the stored values of one column of
    the data rows: its type inference and its reading of NA-like text.
    A column of numbers written as text comes back as numbers, an empty
    or ["n/a"] cell as a missing value, and so on; this is pandas' code,
    so it is a parameter, and every theorem holds for whatever it
    returns. *)
Variable pd_infer : list cell → list cell.

(** The rows with every column passed through [pd_infer]: the value of
    row [i] in column [j] is the [i]-th value of what [pd_infer] returns
    for column [j]. *)
Definition decode (body : list (list cell)) : list (list cell) :=
  imap (λ i r, imap (λ j c, default c (pd_infer (Pd.at_col j <$> body) !! i)) r) body.

(** The data rows as [pd.read_excel] hands them over: the used columns,
    decoded. *)
Definition read_rows (usecols : list nat) (body : list (list cell)) : list (list cell) :=
  decode (selected usecols body).

(** The parsing half of [pd.read_excel(path, skiprows=, header=,
    usecols=)].  Rows are padded to the width of the sheet; a sheet with
    nothing left after the skipped rows gives the empty frame; a
    position of [usecols] outside the sheet is refused.  With a header
    row ([header=0], the default) the first row that is left names the
    columns and is not data.  The labels of the frame are replaced by
    the caller on its next line, so only their number matters here. *)
Definition parse_sheet (sheet : list (list cell)) (skiprows : nat)
    (header : bool) (usecols : list nat) : result dataframe :=
  match drop skiprows sheet with
  | [] => Ok (DataFrame [] [])
  | body =>
      if forallb (λ j, Nat.ltb j (sheet_width sheet)) usecols
      then Ok (DataFrame (pretty <$> usecols)
                 (read_rows usecols (if header then drop 1 body else body)))
      else Raise ParserError
  end.

Definition read_excel (path : string) (skiprows : nat) (header : bool)
    (usecols : list nat) : M dataframe :=
  λ w, match fs w !! path with
       | None => (Raise FileNotFoundError, w)
       | Some Dir => (Raise IsADirectoryError, w)
       | Some (Blob _) => (Raise BadZipFile, w)
       | Some (Workbook sheet) => (parse_sheet sheet skiprows header usecols, w)
       end.

End Reading.

(** [os.makedirs(path, exist_ok=True)] creates the directories that
    are missing on the way to [path], and [path] itself last.  A file on
    the way makes it raise [NotADirectoryError], a file at [path]
    [FileExistsError]; on a file system, where what is above an entry is
    a directory, nothing has been created then. *)
Definition os_makedirs (path : string) : M unit :=
  λ w, match makedirs_on path (fs w) with
       | Ok f => (Ok (), World f (log w))
       | Raise e => (Raise e, w)
       end.

(** Writing [bytes] at [path], replacing what file was there.  The
    callers have made the directory of [path] just before. *)
Definition write_file (path : string) (bytes : string) : M unit :=
  λ w, match fs w !! path with
       | Some Dir => (Raise IsADirectoryError, w)
       | _ => (Ok (), World (<[path := Blob bytes]> (fs w)) (log w))
       end.

(** [os.path.exists(path)] *)
Definition os_path_exists (path : string) : M bool :=
  λ w, (Ok (bool_decide (is_Some (fs w !! path))), w).

(** The report types that have a cleaning operation. *)
Inductive report : Type := Clients | Pets | Services | Revenue.

Global Instance report_eq_dec : EqDecision report.
Proof. solve_decision. Defined.

(** File stem and log title of a report. *)
Definition key (r : report) : string :=
  match r with
  | Clients => "clients"
  | Pets => "pets"
  | Services => "services"
  | Revenue => "revenue"
  end.

Definition title (r : report) : string :=
  match r with
  | Clients => "Clients"
  | Pets => "Pets"
  | Services => "Services"
  | Revenue => "Revenue"
  end.

Definition raw_path (raw_data_dir : string) (r : report) : string :=
  os_path_join raw_data_dir (key r +:+ ".xlsx").

Definition clean_path (clean_data_dir : string) (r : report) : string :=
  os_path_join clean_data_dir (key r +:+ ".csv").

Section Cleaners.

(** *** What pandas computes *)

(** The decoding of [pd.read_excel], column by column. *)
Variable pd_infer : list cell → list cell.
(** [pd.to_datetime(series)]: raises ([None]) or gives a series on
    the same index. *)
Variable pd_to_datetime : list cell → option (list cell).
(** [pd.to_numeric(series, errors='coerce')]: never raises; what it
    cannot read as a number becomes [NaN]. *)
Variable pd_to_numeric : list cell → list cell.
(** What [series.astype(str)] makes of a missing value: the text
    ["nan"] ([true], pandas before 3) or the missing value itself
    ([false], pandas 3). *)
Variable na_as_text : bool.
(** [str(x)] for a value that is not a string already. *)
Variable repr : cell → string.
(** The text [df.to_csv(path, index=False)] writes. *)
Variable csv_text : dataframe → string.

Definition to_datetime (s : list cell) : M (list cell) :=
  lift (match pd_to_datetime s with
        | Some d => Ok d
        | None => Raise DateParseError
        end).

(** [str(x)] *)
Definition py_str (c : cell) : string :=
  match c with
  | Str s => s
  | _ => repr c
  end.

(** [series.astype(str).str.split(".").str[0]] on one value: the text
    of the value up to its first dot; a missing value that [astype(str)]
    keeps missing stays so through [.str]. *)
Definition strip_decimal (c : cell) : cell :=
  if isna c && negb na_as_text then c else Str (PyStr.before_dot (py_str c)).

Local Abbreviation read_excel := (read_excel pd_infer).
Local Abbreviation parse_sheet := (parse_sheet pd_infer).

Definition to_csv (df : dataframe) (path : string) : M unit :=
  write_file path (csv_text df).

(** *** The four cleaning operations *)

Definition clean_clients_data (raw_data_dir clean_data_dir : string)
  : world → option dataframe * world :=
  try_except
    (logger_info (Loading "Clients");;
     clients_df ← read_excel (os_path_join raw_data_dir "clients.xlsx") 5 true
                    [1; 2; 3; 4; 5]%nat;
     clients_df ← lift (Pd.set_columns clients_df
                    ["name"; "id"; "phone"; "creation_date"; "status"]);
     c ← lift (Pd.getitem clients_df "creation_date");
     d ← to_datetime c;
     let clients_df := Pd.setitem clients_df "creation_date" d in
     p ← lift (Pd.getitem clients_df "phone");
     let clients_df := Pd.setitem clients_df "phone" (strip_decimal <$> p) in
     os_makedirs clean_data_dir;;
     to_csv clients_df (os_path_join clean_data_dir "clients.csv");;
     logger_info (Loaded "Clients" (Pd.shape clients_df));;
     mret (Some clients_df))
    (λ e w, match e with
            | FileNotFoundError => (None, emit WARNING (NotFound "clients.xlsx") w)
            | _ => (None, emit ERROR (ErrorLoading "clients" e) w)
            end).

Definition clean_pets_data (raw_data_dir clean_data_dir : string)
  : world → option dataframe * world :=
  try_except
    (logger_info (Loading "Pets");;
     pets_df ← read_excel (os_path_join raw_data_dir "pets.xlsx") 4 false
                 [1; 2; 3; 4; 5; 7]%nat;
     pets_df ← lift (Pd.set_columns pets_df
                 ["pet_name"; "code"; "creation_date"; "status"; "type"; "client_phone"]);
     c ← lift (Pd.getitem pets_df "creation_date");
     d ← to_datetime c;
     let pets_df := Pd.setitem pets_df "creation_date" d in
     p ← lift (Pd.getitem pets_df "client_phone");
     let pets_df := Pd.setitem pets_df "client_phone" (strip_decimal <$> p) in
     os_makedirs clean_data_dir;;
     to_csv pets_df (os_path_join clean_data_dir "pets.csv");;
     logger_info (Loaded "Pets" (Pd.shape pets_df));;
     mret (Some pets_df))
    (λ e w, match e with
            | FileNotFoundError => (None, emit WARNING (NotFound "pets.xlsx") w)
            | _ => (None, emit ERROR (ErrorLoading "pets" e) w)
            end).

Definition clean_services_data (raw_data_dir clean_data_dir : string)
  : world → option dataframe * world :=
  try_except
    (logger_info (Loading "Services");;
     services_df ← read_excel (os_path_join raw_data_dir "services.xlsx") 5 false
                     [1; 2; 3; 4; 5; 7]%nat;
     services_df ← lift (Pd.set_columns services_df
                     ["category"; "service"; "quantity"; "cost"; "sale_price";
                      "creation_date"]);
     c ← lift (Pd.getitem services_df "creation_date");
     d ← to_datetime c;
     let services_df := Pd.setitem services_df "creation_date" d in
     q ← lift (Pd.getitem services_df "quantity");
     let services_df := Pd.setitem services_df "quantity" (pd_to_numeric q) in
     k ← lift (Pd.getitem services_df "cost");
     let services_df := Pd.setitem services_df "cost" (pd_to_numeric k) in
     s ← lift (Pd.getitem services_df "sale_price");
     let services_df := Pd.setitem services_df "sale_price" (pd_to_numeric s) in
     services_df ← lift (Pd.dropna_subset services_df "sale_price");
     os_makedirs clean_data_dir;;
     to_csv services_df (os_path_join clean_data_dir "services.csv");;
     logger_info (Loaded "Services" (Pd.shape services_df));;
     mret (Some services_df))
    (λ e w, match e with
            | FileNotFoundError => (None, emit WARNING (NotFound "services.xlsx") w)
            | _ => (None, emit ERROR (ErrorLoading "services" e) w)
            end).

Definition clean_revenue_data (raw_data_dir clean_data_dir : string)
  : world → option dataframe * world :=
  try_except
    (logger_info (Loading "Revenue");;
     revenue_df ← read_excel (os_path_join raw_data_dir "revenue.xlsx") 5 false
                    [1; 2; 3; 4; 5; 6; 7; 8; 10; 11]%nat;
     revenue_df ← lift (Pd.set_columns revenue_df
                    ["creation_date"; "category"; "client"; "client_phone"; "pet_name";
                     "invoice_code"; "amount"; "discount"; "paid"; "debit"]);
     let revenue_df := Pd.iloc_drop_last 2 revenue_df in
     p ← lift (Pd.getitem revenue_df "client_phone");
     let revenue_df := Pd.setitem revenue_df "client_phone" (strip_decimal <$> p) in
     c ← lift (Pd.getitem revenue_df "creation_date");
     d ← to_datetime c;
     let revenue_df := Pd.setitem revenue_df "creation_date" d in
     let revenue_df := Pd.dropna revenue_df in
     os_makedirs clean_data_dir;;
     to_csv revenue_df (os_path_join clean_data_dir "revenue.csv");;
     logger_info (Loaded "Revenue" (Pd.shape revenue_df));;
     mret (Some revenue_df))
    (λ e w, match e with
            | FileNotFoundError => (None, emit WARNING (NotFound "revenue.xlsx") w)
            | _ => (None, emit ERROR (ErrorLoading "revenue" e) w)
            end).

(** *** The batch *)

Definition print_loading_summary
    (clients_df pets_df services_df revenue_df inventory_df expenses_df : option dataframe)
  : M unit :=
  logger_info Banner;;
  logger_info SummaryTitle;;
  logger_info Banner;;
  logger_info (Status "Clients" (bool_decide (clients_df ≠ None)));;
  logger_info (Status "Pets" (bool_decide (pets_df ≠ None)));;
  logger_info (Status "Services" (bool_decide (services_df ≠ None)));;
  logger_info (Status "Revenue" (bool_decide (revenue_df ≠ None)));;
  logger_info (Status "Inventory" (negb (bool_decide (inventory_df = None))));;
  logger_info (Status "Expenses" (negb (bool_decide (expenses_df = None))));;
  logger_info Banner.

(** [main()], with the data directory of [Constants.py] and the
    [%Y%m%d] stamp of the day as arguments. *)
Definition main (DATASETS_DIR timestamp : string)
  : M (option dataframe * option dataframe * option dataframe
       * option dataframe * option dataframe * option dataframe) :=
  let raw_data_dir := os_path_join DATASETS_DIR ("raw/" +:+ timestamp) in
  let clean_data_dir := os_path_join DATASETS_DIR ("clean/" +:+ timestamp) in
  there ← os_path_exists raw_data_dir;
  (if negb there
   then logger_error (DirectoryNotFound raw_data_dir);;
        logger_info RunFetchFirst;;
        lift (Raise FileNotFoundError)
   else mret ());;
  logger_info (LoadingFrom raw_data_dir);;
  clients_df ← call (clean_clients_data raw_data_dir clean_data_dir);
  pets_df ← call (clean_pets_data raw_data_dir clean_data_dir);
  services_df ← call (clean_services_data raw_data_dir clean_data_dir);
  revenue_df ← call (clean_revenue_data raw_data_dir clean_data_dir);
  let inventory_df := None in
  let expenses_df := None in
  print_loading_summary clients_df pets_df services_df revenue_df
    inventory_df expenses_df;;
  mret (clients_df, pets_df, services_df, revenue_df, inventory_df, expenses_df).

(** *** The shape the four operations share

    Each operation is: announce, read and type one sheet, create the
    clean directory, write the CSV, report, return; with the two
    handlers around all of it.  [run_cleaner] is that shape with the
    typing step as an argument; the four operations are proved equal
    to it below. *)

Definition run_cleaner (what key : string)
    (typed : list (list cell) → result dataframe)
    (raw_data_dir clean_data_dir : string) : world → option dataframe * world :=
  try_except
    (logger_info (Loading what);;
     df ← (λ w, match fs w !! os_path_join raw_data_dir (key +:+ ".xlsx") with
                | None => (Raise FileNotFoundError, w)
                | Some Dir => (Raise IsADirectoryError, w)
                | Some (Blob _) => (Raise BadZipFile, w)
                | Some (Workbook sheet) => (typed sheet, w)
                end);
     os_makedirs clean_data_dir;;
     to_csv df (os_path_join clean_data_dir (key +:+ ".csv"));;
     logger_info (Loaded what (Pd.shape df));;
     mret (Some df))
    (λ e w, match e with
            | FileNotFoundError => (None, emit WARNING (NotFound (key +:+ ".xlsx")) w)
            | _ => (None, emit ERROR (ErrorLoading key e) w)
            end).

(** The frame each operation builds from the rows of its sheet. *)

Definition with_dates (name : string) (df : dataframe) : result dataframe :=
  c ← Pd.getitem df name;
  match pd_to_datetime c with
  | Some d => Ok (Pd.setitem df name d)
  | None => Raise DateParseError
  end.

Definition with_phone (name : string) (df : dataframe) : result dataframe :=
  p ← Pd.getitem df name;
  Ok (Pd.setitem df name (strip_decimal <$> p)).

Definition with_numeric (name : string) (df : dataframe) : result dataframe :=
  q ← Pd.getitem df name;
  Ok (Pd.setitem df name (pd_to_numeric q)).

Definition typed_clients (sheet : list (list cell)) : result dataframe :=
  df ← parse_sheet sheet 5 true [1; 2; 3; 4; 5]%nat;
  df ← Pd.set_columns df ["name"; "id"; "phone"; "creation_date"; "status"];
  df ← with_dates "creation_date" df;
  with_phone "phone" df.

Definition typed_pets (sheet : list (list cell)) : result dataframe :=
  df ← parse_sheet sheet 4 false [1; 2; 3; 4; 5; 7]%nat;
  df ← Pd.set_columns df
         ["pet_name"; "code"; "creation_date"; "status"; "type"; "client_phone"];
  df ← with_dates "creation_date" df;
  with_phone "client_phone" df.

Definition typed_services (sheet : list (list cell)) : result dataframe :=
  df ← parse_sheet sheet 5 false [1; 2; 3; 4; 5; 7]%nat;
  df ← Pd.set_columns df
         ["category"; "service"; "quantity"; "cost"; "sale_price"; "creation_date"];
  df ← with_dates "creation_date" df;
  df ← with_numeric "quantity" df;
  df ← with_numeric "cost" df;
  df ← with_numeric "sale_price" df;
  Pd.dropna_subset df "sale_price".

Definition typed_revenue (sheet : list (list cell)) : result dataframe :=
  df ← parse_sheet sheet 5 false [1; 2; 3; 4; 5; 6; 7; 8; 10; 11]%nat;
  df ← Pd.set_columns df
         ["creation_date"; "category"; "client"; "client_phone"; "pet_name";
          "invoice_code"; "amount"; "discount"; "paid"; "debit"];
  df ← with_phone "client_phone" (Pd.iloc_drop_last 2 df);
  df ← with_dates "creation_date" df;
  Ok (Pd.dropna df).

(** *** The operations by report type *)

Definition cleaner (r : report) : string → string → world → option dataframe * world :=
  match r with
  | Clients => clean_clients_data
  | Pets => clean_pets_data
  | Services => clean_services_data
  | Revenue => clean_revenue_data
  end.

Definition typed (r : report) : list (list cell) → result dataframe :=
  match r with
  | Clients => typed_clients
  | Pets => typed_pets
  | Services => typed_services
  | Revenue => typed_revenue
  end.

End Cleaners.

(** The component of the tuple [main] returns that belongs to a report. *)
Definition component (r : report)
    (t : option dataframe * option dataframe * option dataframe
         * option dataframe * option dataframe * option dataframe)
  : option dataframe :=
  let '(clients_df, pets_df, services_df, revenue_df, _, _) := t in
  match r with
  | Clients => clients_df
  | Pets => pets_df
  | Services => services_df
  | Revenue => revenue_df
  end.

(** The data rows of a report's sheet as [pd.read_excel] hands them
    over, and the position of its phone column once named. *)
Definition input_rows (pd_infer : list cell → list cell) (r : report)
    (sheet : list (list cell)) : list (list cell) :=
  match r with
  | Clients => read_rows pd_infer [1; 2; 3; 4; 5]%nat (drop 1 (drop 5 sheet))
  | Pets => read_rows pd_infer [1; 2; 3; 4; 5; 7]%nat (drop 4 sheet)
  | Services => read_rows pd_infer [1; 2; 3; 4; 5; 7]%nat (drop 5 sheet)
  | Revenue => read_rows pd_infer [1; 2; 3; 4; 5; 6; 7; 8; 10; 11]%nat (drop 5 sheet)
  end.

(** The same rows as they are stored, before [pd.read_excel] decodes
    them. *)
Definition stored_rows (r : report) (sheet : list (list cell)) : list (list cell) :=
  match r with
  | Clients => selected [1; 2; 3; 4; 5]%nat (drop 1 (drop 5 sheet))
  | Pets => selected [1; 2; 3; 4; 5; 7]%nat (drop 4 sheet)
  | Services => selected [1; 2; 3; 4; 5; 7]%nat (drop 5 sheet)
  | Revenue => selected [1; 2; 3; 4; 5; 6; 7; 8; 10; 11]%nat (drop 5 sheet)
  end.

Definition phone_column (r : report) : option nat :=
  match r with
  | Clients => Some 2%nat
  | Pets => Some 5%nat
  | Services => None
  | Revenue => Some 3%nat
  end.

(** What [main] gives for one report: its component, or the exception. *)
Definition main_result (r : report)
    (res : result (option dataframe * option dataframe * option dataframe
                   * option dataframe * option dataframe * option dataframe))
  : result (option dataframe) :=
  match res with
  | Ok t => Ok (component r t)
  | Raise e => Raise e
  end.

(** Two states of a directory that [os.makedirs] cannot tell
    apart: equal, or absent in one and a directory in the other. *)
Definition dir_compat (o1 o2 : option node) : Prop :=
  o1 = o2 ∨ (o1 = None ∧ o2 = Some Dir) ∨ (o1 = Some Dir ∧ o2 = None).

(** Two file systems that differ at most at the paths [P] and [C], and
    on the way to [clean] only as far as [dir_compat] allows. *)
Definition similar (clean P C : string) (f1 f2 : gmap string node) : Prop :=
  (∀ p, p ≠ P → p ≠ C → p ∉ chain clean → f1 !! p = f2 !! p)
  ∧ (∀ p, p ∈ chain clean → dir_compat (f1 !! p) (f2 !! p)).

End ProcessData.

(** ** The vendor client: [ingest_data.py] and [Constants.py] *)

Module IngestData.

(** *** Python dictionaries with string keys and values

    A dictionary keeps its keys in insertion order; the order is what
    [requests] writes into the query string. *)
Definition pydict : Type := list (string * string).

(** [d.get(k)] *)
Fixpoint dict_get (k : string) (d : pydict) : option string :=
  match d with
  | [] => None
  | (k', v) :: d' => if decide (k' = k) then Some v else dict_get k d'
  end.

(** [d[k] = v]: an existing key keeps its place. *)
Fixpoint dict_set (k v : string) (d : pydict) : pydict :=
  match d with
  | [] => [(k, v)]
  | (k', v') :: d' => if decide (k' = k) then (k, v) :: d'
                      else (k', v') :: dict_set k v d'
  end.

(** [d.update(e)] *)
Definition dict_update (d e : pydict) : pydict :=
  foldl (λ acc kv, dict_set kv.1 kv.2 acc) d e.

(** [d.pop(k, None)] *)
Fixpoint dict_pop (k : string) (d : pydict) : pydict :=
  match d with
  | [] => []
  | (k', v') :: d' => if decide (k' = k) then d' else (k', v') :: dict_pop k d'
  end.

(** *** [Constants.py] *)

(** Dictionaries are objects on a heap; a configuration entry holds the
    address of its ["params"] dictionary, when it has one. *)
Record endpoint_config : Type := EndpointConfig {
  endpoint : string;
  params : option nat
}.

Definition BASE_URL : string := "https://vicapipro.veticareapp.com/v1/api".

Definition ENDPOINTS : list (string * endpoint_config) :=
  [ ("signin", EndpointConfig (BASE_URL +:+ "/signin") None);
    ("clients", EndpointConfig (BASE_URL +:+ "/exportreports/clientsreport") (Some 0%nat));
    ("services", EndpointConfig (BASE_URL +:+ "/exportreports/servicesReport") (Some 1%nat));
    ("pets", EndpointConfig (BASE_URL +:+ "/exportreports/petReport") (Some 2%nat));
    ("revenue", EndpointConfig (BASE_URL +:+ "/exportreports/revenue") (Some 3%nat));
    ("expenses", EndpointConfig (BASE_URL +:+ "/exportreports/expenses") (Some 4%nat)) ].

(** Address of the [HEADERS] dictionary. *)
Definition HEADERS : nat := 5%nat.

(** The heap once [Constants.py] is imported. *)
Definition constants_heap : gmap nat pydict :=
  list_to_map
    [ (0%nat, [("CreatedAtFrom", "2025-12-27"); ("CreatedAtTo", "2025-12-27");
               ("IsActive", "true")]);
      (1%nat, [("CreatedAtFrom", "2025-12-27"); ("CreatedAtTo", "2025-12-27");
               ("IsActive", "true"); ("userId", ""); ("ServiceId", "");
               ("ServiceCategoryId", "")]);
      (2%nat, [("CreatedAtFrom", "2025-12-27"); ("CreatedAtTo", "2025-12-27");
               ("IsActive", "true"); ("SpecieId", "")]);
      (3%nat, [("CreatedAtFrom", "2025-12-27"); ("CreatedAtTo", "2025-12-27");
               ("Type", "")]);
      (4%nat, [("CreatedAtFrom", "2025-12-27"); ("CreatedAtTo", "2025-12-27")]);
      (5%nat, [("Content-Type", "application/json");
               ("Accept", "application/json, application/vnd.openxmlformats-officedocument.spreadsheetml.sheet")]) ].

Fixpoint lookup_endpoint (key : string) (table : list (string * endpoint_config))
  : option endpoint_config :=
  match table with
  | [] => None
  | (k, c) :: table' => if decide (k = key) then Some c else lookup_endpoint key table'
  end.

(** *** Requests and responses *)

Record request : Type := Request {
  url : string;
  req_headers : pydict;
  req_params : pydict
}.

Inductive json : Type :=
  | JNull
  | JBool (b : bool)
  | JNumber (z : Z)
  | JString (s : string)
  | JArray (items : list json)
  | JObject (members : list (string * json)).

(** A response as [requests] hands it over.  [json_body] is what
    [response.json()] returns, [None] when the body does not decode and
    the call raises. *)
Record response : Type := Response {
  status_code : Z;
  headers : list (string * string);
  content : string;
  json_body : option json
}.

(** [response.headers.get(name, dflt)]: header names compare without
    regard to case. *)
Fixpoint headers_get (name dflt : string) (hs : list (string * string)) : string :=
  match hs with
  | [] => dflt
  | (k, v) :: hs' => if decide (PyStr.lower k = PyStr.lower name) then v
                     else headers_get name dflt hs'
  end.

(** What [fetch_data] returns when it returns something:
    [{"type": "file", "content": ...}] or [{"type": "json", "data": ...}]. *)
Inductive package : Type :=
  | FilePackage (bytes : string)
  | JsonPackage (data : json).

Inductive level : Type := INFO | ERROR.

Inductive message : Type :=
  | EndpointNotFound (key : string)
  | Fetching (key : string)
  | Params (p : pydict)
  | Fetched (key : string)
  | FetchFailed (key : string) (code : Z)
  | ErrorBody (text : string)
  | ConnectionErrorMsg (e : exn).

Record store : Type := Store {
  heap : gmap nat pydict;
  sent : list request;
  log : list (level * message)
}.

Definition emit (l : level) (m : message) (s : store) : store :=
  Store (heap s) (sent s) (log s ++ [(l, m)]).

(** The dictionary at an address. *)
Definition deref (l : nat) (s : store) : pydict := default [] (heap s !! l).

(** A new dictionary object. *)
Definition alloc (d : pydict) (s : store) : nat * store :=
  let l := fresh (dom (heap s)) in
  (l, Store (<[l := d]> (heap s)) (sent s) (log s)).

(** [d.copy()] *)
Definition dict_copy (l : nat) (s : store) : nat * store := alloc (deref l s) s.

(** In-place change of the dictionary at [l]. *)
Definition mutate (l : nat) (f : pydict → pydict) (s : store) : store :=
  Store (<[l := f (deref l s)]> (heap s)) (sent s) (log s).

Section Client.

(** The network and the vendor: what [requests.get] gives for a
    request, a response or a raised transport error. *)
Variable requests_get : request → result response.

Definition send (r : request) (s : store) : result response * store :=
  (requests_get r, Store (heap s) (sent s ++ [r]) (log s)).

Definition fetch_data (token endpoint_key : string) (dynamic_params : pydict)
    (s : store) : option package * store :=
  match lookup_endpoint endpoint_key ENDPOINTS with
  | None => (None, emit ERROR (EndpointNotFound endpoint_key) s)
  | Some config =>
      let url := endpoint config in
      let '(params, s) :=
        match IngestData.params config with
        | Some l => dict_copy l s
        | None => alloc [] s
        end in
      let s := mutate params (λ d, dict_update d dynamic_params) s in
      let s := emit INFO (Fetching endpoint_key) s in
      let s := emit INFO (Params (deref params s)) s in
      let '(auth_headers, s) := dict_copy HEADERS s in
      let s := mutate auth_headers (dict_set "Authorization" ("Bearer " +:+ token)) s in
      let s := mutate auth_headers (dict_pop "Content-Type") s in
      match send (Request url (deref auth_headers s) (deref params s)) s with
      | (Raise e, s) => (None, emit ERROR (ConnectionErrorMsg e) s)
      | (Ok response, s) =>
          if decide (status_code response = 200) then
            let s := emit INFO (Fetched endpoint_key) s in
            let content_type := headers_get "Content-Type" "" (headers response) in
            if PyStr.startswith "PK" (content response)
            then (Some (FilePackage (content response)), s)
            else if PyStr.contains "json" content_type
            then match json_body response with
                 | Some data => (Some (JsonPackage data), s)
                 | None => (None, emit ERROR (ConnectionErrorMsg JSONDecodeError) s)
                 end
            else (Some (FilePackage (content response)), s)
          else
            let s := emit ERROR (FetchFailed endpoint_key (status_code response)) s in
            let s := emit ERROR (ErrorBody (content response)) s in
            (None, s)
      end
  end.

End Client.

End IngestData.

(** ** The date filter of [dashboard.py] *)

Module Dashboard.

Definition ns_per_day : Z := 86400000000000.

(** [timestamp.date()] as a day number; a missing value has no date. *)
Definition date_of (c : cell) : option Z :=
  match c with
  | Timestamp ns => Some (ns / ns_per_day)
  | _ => None
  end.

Definition datetimelike (c : cell) : bool :=
  match c with
  | NaT | Timestamp _ => true
  | _ => false
  end.

(** [series.dt.date]: the accessor exists on [datetime64] columns only. *)
Definition dt_date (s : list cell) : result (list (option Z)) :=
  if forallb datetimelike s then Ok (date_of <$> s) else Raise AttributeError.

(** [series >= d] and [series <= d]: a missing value compares false. *)
Definition ge_date (d : Z) (x : option Z) : bool :=
  match x with Some y => Z.leb d y | None => false end.
Definition le_date (d : Z) (x : option Z) : bool :=
  match x with Some y => Z.leb y d | None => false end.

Section Filter.

(** The two dates picked in the sidebar. *)
Variables from_date to_date : Z.

Definition filter_df (df : dataframe) (date_col : string) : result dataframe :=
  if Pd.empty df || negb (bool_decide (date_col ∈ columns df)) then Ok df
  else
    c ← Pd.getitem df date_col;
    d ← dt_date c;
    let mask := zip_with andb (ge_date from_date <$> d) (le_date to_date <$> d) in
    Ok (Pd.loc df mask).

(** A row is in range when it has a date [d] with
    [from_date <= d <= to_date]. *)
Definition in_range (c : cell) : bool :=
  match date_of c with
  | Some d => Z.leb from_date d && Z.leb d to_date
  | None => false
  end.

End Filter.

End Dashboard.

(** ** One concrete pandas

    A simple choice for the library functions the normalizer is
    parametrised by, to run the model on concrete sheets. *)

Module Sample.

Definition to_datetime1 (c : cell) : option cell :=
  match c with
  | NaN | NaT => Some NaT
  | Timestamp ns => Some (Timestamp ns)
  | Int z => Some (Timestamp z)
  | _ => None
  end.

Definition pd_to_datetime (s : list cell) : option (list cell) := mapM to_datetime1 s.

Fixpoint digits_value (acc : Z) (s : string) : Z :=
  match s with
  | EmptyString => acc
  | String c s' => digits_value (10 * acc + (Z.of_nat (nat_of_ascii c) - 48)) s'
  end.

(** A stand-in for the decoding of [pd.read_excel]: a column whose
    values are all numbers, missing, or digits written as text is
    returned as numbers; any other column as it is stored. *)
Definition numeric_like (c : cell) : bool :=
  match c with
  | Int _ | Float _ _ | NaN => true
  | Str s => negb (bool_decide (s = "")) && PyStr.all_digits s
  | _ => false
  end.

Definition as_number (c : cell) : cell :=
  match c with
  | Str s => Int (digits_value 0 s)
  | _ => c
  end.

Definition pd_infer (col : list cell) : list cell :=
  if forallb numeric_like col then as_number <$> col else col.

(** [astype(str)] as pandas before 3 has it. *)
Definition na_as_text : bool := true.

Definition to_numeric1 (c : cell) : cell :=
  match c with
  | Int z => Int z
  | Float m e => Float m e
  | Str s => if PyStr.all_digits s && negb (bool_decide (s = ""))
             then Int (digits_value 0 s) else NaN
  | _ => NaN
  end.

Definition pd_to_numeric (s : list cell) : list cell := to_numeric1 <$> s.

Definition repr (c : cell) : string :=
  match c with
  | NaN => "nan"
  | NaT => "NaT"
  | Int z => pretty z
  | Float m 0 => pretty m +:+ ".0"
  | Float m e => pretty m +:+ "p" +:+ pretty e
  | Str s => s
  | Timestamp ns => pretty ns
  end.

Fixpoint join (sep : string) (l : list string) : string :=
  match l with
  | [] => ""
  | [x] => x
  | x :: l' => x +:+ sep +:+ join sep l'
  end.

Definition csv_field (c : cell) : string :=
  match c with
  | NaN | NaT => ""
  | _ => repr c
  end.

Definition csv_text (df : dataframe) : string :=
  join "," (columns df) +:+ String "010" ""
  +:+ foldr (λ r acc, join "," (csv_field <$> r) +:+ String "010" acc) "" (rows df).

(** A day as a timestamp at midnight. *)
Definition day (n : Z) : cell := Timestamp (n * Dashboard.ns_per_day).

Definition title_rows (n : nat) : list (list cell) :=
  [Str "Mojo Vet"] :: replicate (n - 1) [].

Definition clients_sheet : list (list cell) :=
  title_rows 5 ++
  [ [NaN; Str "Name"; Str "ID"; Str "Phone"; Str "Created"; Str "Status"];
    [NaN; Str "Mona"; Str "C-1"; Float 201234567 0; day 20449; Str "Active"];
    [NaN; Str "Omar"; Str "C-2"; Str "+20 100 200 3000"; day 20450; Str "Inactive"];
    [NaN; Str "Hala"; Str "C-3"; Str "201234567.0"; day 20451; Str "Active"] ].

Definition pets_sheet : list (list cell) :=
  title_rows 4 ++
  [ [NaN; Str "Rex"; Str "P-1"; day 20449; Str "Active"; Str "Dog"; NaN; Float 201234567 0];
    [NaN; Str "Mimi"; Str "P-2"; day 20450; Str "Active"; Str "Cat"; NaN; Str "201234567.0"] ].

Definition services_sheet : list (list cell) :=
  title_rows 5 ++
  [ [NaN; Str "Clinic"; Str "Checkup"; Int 2; Int 40; Int 150; NaN; day 20449];
    [NaN; Str "Clinic"; Str "Vaccine"; Str "two"; Str "-"; Str "90"; NaN; day 20449];
    [NaN; Str "Shop"; Str "Collar"; Int 1; Int 10; Str "n/a"; NaN; day 20450] ].

Definition revenue_sheet : list (list cell) :=
  title_rows 5 ++
  [ [NaN; day 20449; Str "Clinic"; Str "Mona"; Float 201234567 0; Str "Rex"; Str "INV-1";
     Int 150; Int 0; NaN; Int 150; Int 0];
    [NaN; day 20450; Str "Shop"; Str "Omar"; Str "+20 100 200 3000"; Str "Mimi"; Str "INV-2";
     NaN; Int 0; NaN; Int 90; Int 0];
    [NaN; Str "Total"; NaN; NaN; NaN; NaN; NaN; Int 240; Int 0; NaN; Int 240; Int 0];
    [NaN; Str "Printed by"; Str "admin"; NaN; NaN; NaN; NaN; NaN; NaN; NaN; NaN; NaN] ].

Definition raw_dir : string := "data/raw/20251227".
Definition clean_dir : string := "data/clean/20251227".

(** A day's raw store with the four exports. *)
Definition world : ProcessData.world :=
  ProcessData.World
    (list_to_map
       [ (raw_dir, ProcessData.Dir);
         ("data/raw/20251227/clients.xlsx", ProcessData.Workbook clients_sheet);
         ("data/raw/20251227/pets.xlsx", ProcessData.Workbook pets_sheet);
         ("data/raw/20251227/services.xlsx", ProcessData.Workbook services_sheet);
         ("data/raw/20251227/revenue.xlsx", ProcessData.Workbook revenue_sheet) ])
    [].

(** The same store without the pets export. *)
Definition world_without_pets : ProcessData.world :=
  ProcessData.World (delete "data/raw/20251227/pets.xlsx" (ProcessData.fs world)) [].

(** The same store where a plain file sits at the clean directory's path. *)
Definition world_clean_is_file : ProcessData.world :=
  ProcessData.World (<[clean_dir := ProcessData.Blob "x"]> (ProcessData.fs world)) [].

(** The store once [Constants.py] is imported, nothing sent yet. *)
Definition store : IngestData.store := IngestData.Store IngestData.constants_heap [] [].

(** A vendor that answers every request with a workbook labelled as
    JSON, and one that labels an HTML error page as JSON. *)
Definition vendor_workbook (_ : IngestData.request) : result IngestData.response :=
  Ok (IngestData.Response 200 [("content-type", "application/json")] "PK-workbook" None).

Definition vendor_error_page (_ : IngestData.request) : result IngestData.response :=
  Ok (IngestData.Response 200 [("Content-Type", "application/json; charset=utf-8")]
        "<html>Service unavailable</html>" None).

(** Three clean rows, dated 2025-12-09, 2025-12-10 and 2025-12-20. *)
Definition clean_clients : dataframe :=
  DataFrame ["name"; "id"; "phone"; "creation_date"; "status"]
    [ [Str "Mona"; Str "C-1"; Str "201234567"; day 20431; Str "Active"];
      [Str "Omar"; Str "C-2"; Str "201234568"; day 20432; Str "Inactive"];
      [Str "Hala"; Str "C-3"; Str "201234569";
       Timestamp (20442 * Dashboard.ns_per_day + 86399999999999); Str "Active"] ].

Definition clean_clients_data :=
  ProcessData.clean_clients_data pd_infer pd_to_datetime na_as_text repr csv_text.
Definition clean_pets_data :=
  ProcessData.clean_pets_data pd_infer pd_to_datetime na_as_text repr csv_text.
Definition clean_services_data :=
  ProcessData.clean_services_data pd_infer pd_to_datetime pd_to_numeric csv_text.
Definition clean_revenue_data :=
  ProcessData.clean_revenue_data pd_infer pd_to_datetime na_as_text repr csv_text.

End Sample.

(** ** The layout of the four sheets

    The constants the four cleaning operations pass to [pd.read_excel]
    and assign to [columns], by report type. *)

Module Layout.

Import ProcessData.

Definition skiprows (r : report) : nat :=
  match r with
  | Pets => 4%nat
  | _ => 5%nat
  end.

(** [header=0] (the default) for clients, [header=None] for the others. *)
Definition header (r : report) : bool :=
  match r with
  | Clients => true
  | _ => false
  end.

Definition usecols (r : report) : list nat :=
  match r with
  | Clients => [1; 2; 3; 4; 5]%nat
  | Pets => [1; 2; 3; 4; 5; 7]%nat
  | Services => [1; 2; 3; 4; 5; 7]%nat
  | Revenue => [1; 2; 3; 4; 5; 6; 7; 8; 10; 11]%nat
  end.

Definition schema (r : report) : list string :=
  match r with
  | Clients => ["name"; "id"; "phone"; "creation_date"; "status"]
  | Pets => ["pet_name"; "code"; "creation_date"; "status"; "type"; "client_phone"]
  | Services => ["category"; "service"; "quantity"; "cost"; "sale_price"; "creation_date"]
  | Revenue => ["creation_date"; "category"; "client"; "client_phone"; "pet_name";
                "invoice_code"; "amount"; "discount"; "paid"; "debit"]
  end.

(** Position of [creation_date] in the schema. *)
Definition date_position (r : report) : nat :=
  match r with
  | Clients => 3%nat
  | Pets => 2%nat
  | Services => 5%nat
  | Revenue => 0%nat
  end.

(** The rows whose dates are handed to [pd.to_datetime]: all the data
    rows, but for revenue the data rows without the last two. *)
Definition dated_rows (pd_infer : list cell → list cell) (r : report)
    (sheet : list (list cell)) : list (list cell) :=
  match r with
  | Revenue => take (length (input_rows pd_infer r sheet) - 2) (input_rows pd_infer r sheet)
  | _ => input_rows pd_infer r sheet
  end.

(** A sheet [pd.read_excel] gets the used columns from: something is left
    after the skipped rows and every used position is inside the sheet. *)
Definition readable (r : report) (sheet : list (list cell)) : bool :=
  negb (bool_decide (drop (skiprows r) sheet = []))
  && forallb (λ j, Nat.ltb j (sheet_width sheet)) (usecols r).

(** The ten records of [print_loading_summary]. *)
Definition summary (clients pets services revenue : option dataframe)
  : list (level * message) :=
  [ (INFO, Banner); (INFO, SummaryTitle); (INFO, Banner);
    (INFO, Status "Clients" (bool_decide (is_Some clients)));
    (INFO, Status "Pets" (bool_decide (is_Some pets)));
    (INFO, Status "Services" (bool_decide (is_Some services)));
    (INFO, Status "Revenue" (bool_decide (is_Some revenue)));
    (INFO, Status "Inventory" false);
    (INFO, Status "Expenses" false);
    (INFO, Banner) ].

End Layout.

(** ** The fetch step: [sign_in], [save_data] and [ingest_data] *)

Module IngestRun.

Import IngestData.

(** A part of a date as [strftime] writes it: digits [0] to [9], at
    least one. *)
Definition numeral (s : string) : bool :=
  negb (bool_decide (s = "")) && PyStr.all_digits s.

(** [os.path.join(a, p1, p2, ...)] *)
Definition os_path_join_all (a : string) (parts : list string) : string :=
  foldl os_path_join a parts.

(** *** Decoded JSON as Python sees it *)

(** [bool(x)] *)
Definition truthy (j : json) : bool :=
  match j with
  | JNull => false
  | JBool b => b
  | JNumber z => negb (Z.eqb z 0)
  | JString s => negb (bool_decide (s = ""))
  | JArray items => negb (bool_decide (items = []))
  | JObject members => negb (bool_decide (members = []))
  end.

(** [d.get(k)] on a decoded object; [None] when the key is absent. *)
Fixpoint members_get (k : string) (members : list (string * json)) : option json :=
  match members with
  | [] => None
  | (k', v) :: members' => if decide (k' = k) then Some v else members_get k members'
  end.

(** The loop of [save_data] over the wrapper keys: the value of the
    first key that is there with a list, the empty list when none is. *)
Fixpoint first_list (keys : list string) (members : list (string * json)) : list json :=
  match keys with
  | [] => []
  | k :: keys' =>
      match members_get k members with
      | Some (JArray items) => items
      | _ => first_list keys' members
      end
  end.

(** The records [save_data] makes a frame of. *)
Definition records_of (data : json) : list json :=
  match data with
  | JArray items => items
  | JObject members =>
      match first_list ["data"; "result"; "records"] members with
      | [] => [data]
      | records => records
      end
  | _ => []
  end.

(** *** The world of a run *)

Record post : Type := Post {
  post_url : string;
  post_json : list (string * option string);
  post_headers : pydict
}.

Inductive note : Type :=
  | Attempting (url : string)
  | LoginSuccessful
  | LoginFailedCode (code : Z)
  | LoginResponse (text : string)
  | LoginConnectionError (e : exn)
  | Saved (path : string)
  | JsonSaved (path : string)
  | ErrorSaving (e : exn)
  | Separator
  | TokenNotFound
  | LoginFailed.

(** The client's store, the disk, the logins tried, and the records
    that [sign_in], [save_data] and [ingest_data] log, kept in their own
    list. *)
Record run : Type := Run {
  store : IngestData.store;
  disk : gmap string ProcessData.node;
  posted : list post;
  notes : list (IngestData.level * note)
}.

Definition jot (l : IngestData.level) (n : note) (w : run) : run :=
  Run (store w) (disk w) (posted w) (notes w ++ [(l, n)]).

Section Run.

(** The network for the login, the environment after [load_dotenv],
    what [pd.DataFrame(records).to_excel] stores, [str()] of a token that
    is not a string, and the clock: the three parts of today's date and
    the two dates of the last seven days. *)
Variable requests_get : request → result response.
Variable requests_post : post → result response.
Variable getenv : string → option string.
Variable records_sheet : list json → result (list (list cell)).
Variable str_of_json : json → string.
Variables year month day : string.
Variables date_from_str date_to_str : string.

(** [Constants.DATASETS_DIR] *)
Variable DATASETS_DIR : string.

Definition sign_in (w : run) : option json * run :=
  let url := match lookup_endpoint "signin" ENDPOINTS with
             | Some config => endpoint config
             | None => ""
             end in
  let w := jot INFO (Attempting url) w in
  let payload := [("emailOrUsername", getenv "EMAIL_OR_USERNAME");
                  ("password", getenv "PASSWORD");
                  ("clinicCode", getenv "CLINIC_CODE")] in
  let p := Post url payload (deref HEADERS (store w)) in
  let w := Run (store w) (disk w) (posted w ++ [p]) (notes w) in
  match requests_post p with
  | Raise e => (None, jot ERROR (LoginConnectionError e) w)
  | Ok response =>
      if decide (status_code response = 200) then
        let w := jot INFO LoginSuccessful w in
        match json_body response with
        | Some data => (Some data, w)
        | None => (None, jot ERROR (LoginConnectionError JSONDecodeError) w)
        end
      else
        let w := jot ERROR (LoginFailedCode (status_code response)) w in
        let w := jot ERROR (LoginResponse (content response)) w in
        (None, w)
  end.

(** [os.makedirs(path, exist_ok=True)] and writing a file, on the disk
    of a run; directories are made as for the normalizer. *)
Definition makedirs (path : string) (w : run) : result unit * run :=
  match ProcessData.makedirs_on path (disk w) with
  | Ok d => (Ok (), Run (store w) d (posted w) (notes w))
  | Raise e => (Raise e, w)
  end.

Definition write (path : string) (n : ProcessData.node) (w : run) : result unit * run :=
  match disk w !! path with
  | Some ProcessData.Dir => (Raise IsADirectoryError, w)
  | _ => (Ok (), Run (store w) (<[path := n]> (disk w)) (posted w) (notes w))
  end.

Definition target_dir : string := os_path_join_all DATASETS_DIR ["raw"; year; month; day].

Definition save_data (data_package : option package) (filename_base : string)
    (w : run) : option string * run :=
  match data_package with
  | None => (None, w)
  | Some pkg =>
      match makedirs target_dir w with
      | (Raise e, w) => (None, jot ERROR (ErrorSaving e) w)
      | (Ok _, w) =>
          let filepath := os_path_join target_dir (filename_base +:+ ".xlsx") in
          match pkg with
          | FilePackage bytes =>
              match write filepath (ProcessData.Blob bytes) w with
              | (Raise e, w) => (None, jot ERROR (ErrorSaving e) w)
              | (Ok _, w) => (Some filepath, jot INFO (Saved filepath) w)
              end
          | JsonPackage data =>
              match records_sheet (records_of data) with
              | Raise e => (None, jot ERROR (ErrorSaving e) w)
              | Ok sheet =>
                  match write filepath (ProcessData.Workbook sheet) w with
                  | (Raise e, w) => (None, jot ERROR (ErrorSaving e) w)
                  | (Ok _, w) => (Some filepath, jot INFO (JsonSaved filepath) w)
                  end
              end
          end
      end
  end.

(** [fetch_data] on the store of a run. *)
Definition fetch (token endpoint_key : string) (dynamic_params : pydict) (w : run)
  : option package * run :=
  let out := IngestData.fetch_data requests_get token endpoint_key dynamic_params (store w) in
  (out.1, Run out.2 (disk w) (posted w) (notes w)).

(** One report of the batch: fetch, then save under the same name. *)
Definition fetch_and_save (token : string) (common_params : pydict) (name : string)
    (w : run) : run :=
  let '(package, w) := fetch token name common_params w in
  (save_data package name w).2.

(** [f"{token}"] *)
Definition token_text (token : json) : string :=
  match token with
  | JString s => s
  | _ => str_of_json token
  end.

Definition truthy_opt (x : option json) : bool :=
  match x with
  | Some j => truthy j
  | None => false
  end.

(** [ingest_data()]; it returns nothing, or raises what [.get] raises on
    a login answer that is not shaped as expected. *)
Definition ingest_data (w : run) : result unit * run :=
  let '(auth_data, w) := sign_in w in
  match auth_data with
  | None => (Ok (), jot ERROR LoginFailed w)
  | Some auth =>
      if negb (truthy auth) then (Ok (), jot ERROR LoginFailed w)
      else
        match auth with
        | JObject members =>
            if negb (truthy_opt (members_get "success" members))
            then (Ok (), jot ERROR LoginFailed w)
            else
              match default (JObject []) (members_get "data" members) with
              | JObject data =>
                  let token := members_get "token" data in
                  if truthy_opt token then
                    let token := token_text (default JNull token) in
                    let w := jot INFO Separator w in
                    let common_params := [("CreatedAtFrom", date_from_str);
                                          ("CreatedAtTo", date_to_str)] in
                    let w := fetch_and_save token common_params "clients" w in
                    let w := fetch_and_save token common_params "services" w in
                    let w := fetch_and_save token common_params "pets" w in
                    let w := fetch_and_save token common_params "revenue" w in
                    let w := fetch_and_save token common_params "expenses" w in
                    (Ok (), w)
                  else (Ok (), jot ERROR TokenNotFound w)
              | _ => (Raise AttributeError, w)
              end
        | _ => (Raise AttributeError, w)
        end
  end.

End Run.

End IngestRun.

(** ** Loading and locating the clean tables: [dashboard.py] *)

Module DashboardData.

(** [a < b] on strings: character by character, a proper prefix first.
    A name is the bytes of its UTF-8 encoding, on which this order is the
    order of the code points that Python compares. *)
Fixpoint str_lt (a b : string) : bool :=
  match a, b with
  | _, EmptyString => false
  | EmptyString, String _ _ => true
  | String x a', String y b' =>
      if Nat.ltb (nat_of_ascii x) (nat_of_ascii y) then true
      else if Nat.ltb (nat_of_ascii y) (nat_of_ascii x) then false
      else str_lt a' b'
  end.

(** [max(names)]: the first of the greatest; no value on an empty list. *)
Definition py_max (names : list string) : option string :=
  match names with
  | [] => None
  | x :: names' => Some (foldl (λ best n, if str_lt best n then n else best) x names')
  end.

(** The number a string of digits writes. *)
Fixpoint digits_value (acc : Z) (s : string) : Z :=
  match s with
  | EmptyString => acc
  | String c s' => digits_value (10 * acc + (Z.of_nat (nat_of_ascii c) - 48)) s'
  end.

Definition int_of_digits (s : string) : Z := digits_value 0 s.

Section Latest.

(** [os.path.exists] and [os.listdir] on the disk of the dashboard. *)
Variable exists_ : string → bool.
Variable listdir : string → result (list string).

(** [s.isdigit()], Python's own: true of a name that is not empty and
    whose characters are all digits, of any script. *)
Variable isdigit : string → bool.

(** [x] is what [max] picks among the names that [isdigit] accepts: it
    is one of them, none of them is greater as a string, and of the
    names written with the digits [0] to [9], as [x], none of the same
    length writes a greater number. *)
Definition chosen (names : list string) (x : string) : Prop :=
  x ∈ names ∧ isdigit x = true
  ∧ ∀ n, n ∈ names → isdigit n = true →
         str_lt x n = false
         ∧ (PyStr.all_digits n = true → PyStr.all_digits x = true →
            String.length n = String.length x → int_of_digits n ≤ int_of_digits x).

(** [CLEAN_DATA_ROOT] *)
Variable CLEAN_DATA_ROOT : string.

Definition get_latest_data_dir : result (option string) :=
  let base_dir := CLEAN_DATA_ROOT in
  if negb (exists_ base_dir) then Ok None
  else
    names ← listdir base_dir;
    match py_max (List.filter isdigit names) with
    | None => Ok None
    | Some y =>
        let year_path := os_path_join base_dir y in
        names ← listdir year_path;
        match py_max (List.filter isdigit names) with
        | None => Ok None
        | Some m =>
            let month_path := os_path_join year_path m in
            names ← listdir month_path;
            match py_max (List.filter isdigit names) with
            | None => Ok None
            | Some d => Ok (Some (os_path_join month_path d))
            end
        end
    end.

End Latest.

Section Load.

Variable pd_to_datetime : list cell → option (list cell).

(** One turn of the loop of [load_data]: [file] is the frame
    [pd.read_csv] gives when the CSV exists. *)
Definition load_table (key : string) (file : option dataframe) : result dataframe :=
  match file with
  | None => Ok (DataFrame [] [])
  | Some df =>
      if bool_decide ("creation_date" ∈ columns df)
      then ProcessData.with_dates pd_to_datetime "creation_date" df
      else if bool_decide (key = "expenses") && bool_decide ("date" ∈ columns df)
           then ProcessData.with_dates pd_to_datetime "date" df
           else Ok df
  end.

End Load.

(** The date column the expenses are filtered on. *)
Definition exp_date_col (expenses_df : dataframe) : string :=
  if negb (Pd.empty expenses_df) && bool_decide ("date" ∈ columns expenses_df)
  then "date" else "creation_date".

(** [expenses_filtered] *)
Definition expenses_filtered (from_date to_date : Z) (expenses_df : dataframe)
  : result dataframe :=
  Dashboard.filter_df from_date to_date expenses_df (exp_date_col expenses_df).

End DashboardData.

(** ** More concrete inputs

    Stores, vendors and directory listings for the fetch step and the
    dashboard, next to those of [Sample]. *)

Module Examples.

(** A clients export in which one date is a text that is no date. *)
Definition clients_sheet_bad_date : list (list cell) :=
  Sample.title_rows 5 ++
  [ [NaN; Str "Name"; Str "ID"; Str "Phone"; Str "Created"; Str "Status"];
    [NaN; Str "Mona"; Str "C-1"; Float 201234567 0; Sample.day 20449; Str "Active"];
    [NaN; Str "Omar"; Str "C-2"; Str "+20 100 200 3000"; Str "yesterday"; Str "Inactive"] ].

Definition world_bad_date : ProcessData.world :=
  ProcessData.World
    (<["data/raw/20251227/clients.xlsx" := ProcessData.Workbook clients_sheet_bad_date]>
       (ProcessData.fs Sample.world)) [].

(** A revenue export of a day without sales: the two footer rows only. *)
Definition revenue_sheet_footer_only : list (list cell) :=
  Sample.title_rows 5 ++
  [ [NaN; Str "Total"; NaN; NaN; NaN; NaN; NaN; Int 0; Int 0; NaN; Int 0; Int 0];
    [NaN; Str "Printed by"; Str "admin"; NaN; NaN; NaN; NaN; NaN; NaN; NaN; NaN; NaN] ].

Definition world_footer_only : ProcessData.world :=
  ProcessData.World
    (<["data/raw/20251227/revenue.xlsx" := ProcessData.Workbook revenue_sheet_footer_only]>
       (ProcessData.fs Sample.world)) [].

(** A pets export whose phones are all digits typed as text; the first
    one starts with a zero. *)
Definition pets_sheet_text_phones : list (list cell) :=
  Sample.title_rows 4 ++
  [ [NaN; Str "Rex"; Str "P-1"; Sample.day 20449; Str "Active"; Str "Dog"; NaN;
     Str "01001234567"];
    [NaN; Str "Mimi"; Str "P-2"; Sample.day 20450; Str "Active"; Str "Cat"; NaN;
     Str "201234567"] ].

Definition world_text_phones : ProcessData.world :=
  ProcessData.World
    (<["data/raw/20251227/pets.xlsx" := ProcessData.Workbook pets_sheet_text_phones]>
       (ProcessData.fs Sample.world)) [].

(** The sample store with a plain file where the directory [data/clean]
    should be. *)
Definition world_file_above_clean : ProcessData.world :=
  ProcessData.World
    (<["data/clean" := ProcessData.Blob "not a directory"]> (ProcessData.fs Sample.world))
    [].

(** A store where only a note sits in the raw directory. *)
Definition world_no_exports : ProcessData.world :=
  ProcessData.World
    (list_to_map [ (Sample.raw_dir, ProcessData.Dir);
                   ("data/raw/20251227/readme.txt", ProcessData.Blob "see the wiki") ])
    [].

(** The login answers of three vendors: one with a token, one that
    says success with a null under ["data"], one that refuses. *)
Definition login_with_token : IngestData.json :=
  IngestData.JObject
    [ ("success", IngestData.JBool true);
      ("data", IngestData.JObject [("token", IngestData.JString "t0k3n")]) ].

Definition login_null_data : IngestData.json :=
  IngestData.JObject
    [ ("success", IngestData.JBool true); ("data", IngestData.JNull) ].

Definition post_token (_ : IngestRun.post) : result IngestData.response :=
  Ok (IngestData.Response 200 [] "" (Some login_with_token)).

Definition post_null_data (_ : IngestRun.post) : result IngestData.response :=
  Ok (IngestData.Response 200 [] "" (Some login_null_data)).

Definition post_refused (_ : IngestRun.post) : result IngestData.response :=
  Ok (IngestData.Response 401 [] "Unauthorized" None).

Definition getenv (name : string) : option string :=
  if decide (name = "EMAIL_OR_USERNAME") then Some "vet@example.org"
  else if decide (name = "PASSWORD") then Some "secret"
  else None.

(** One row for each record, one cell wide. *)
Definition records_sheet (records : list IngestData.json) : result (list (list cell)) :=
  Ok ((λ _, [Str "record"]) <$> records).

Definition str_of_json (_ : IngestData.json) : string := "?".

(** A run that starts on an empty disk, [Constants.py] imported. *)
Definition run : IngestRun.run := IngestRun.Run Sample.store ∅ [] [].

(** A run on a disk where [data/raw] is a plain file. *)
Definition run_file_at_raw : IngestRun.run :=
  IngestRun.Run Sample.store {["data/raw" := ProcessData.Blob "x"]} [] [].

(** A structured payload whose records sit under ["data"], with a count
    under ["records"]. *)
Definition payload_members : list (string * IngestData.json) :=
  [ ("records", IngestData.JNumber 2);
    ("data", IngestData.JArray [IngestData.JString "a"; IngestData.JString "b"]) ].

(** [str.isdigit] on names written in ASCII. *)
Definition isdigit (s : string) : bool := IngestRun.numeral s.

(** The clean tree: two years, and in the last year's last month two
    days. *)
Definition exists_ (_ : string) : bool := true.

Definition listdir (path : string) : result (list string) :=
  if decide (path = "clean") then Ok ["2024"; "2025"; "tmp"]
  else if decide (path = "clean/2025") then Ok ["09"; "12"; ".DS_Store"]
  else if decide (path = "clean/2025/12") then Ok ["05"; "27"]
  else Raise FileNotFoundError.

(** An expenses table as [pd.read_csv] gives it, with the two date
    columns. *)
Definition expenses_csv : dataframe :=
  DataFrame ["creation_date"; "date"; "amount"]
    [ [Int 1766793600000000000; Str "2025-12-27"; Int 120];
      [Int 1766880000000000000; Str "2025-12-28"; Int 80] ].

(** The clients table as [pd.read_csv] gives it. *)
Definition clients_csv : dataframe :=
  DataFrame ["name"; "creation_date"]
    [ [Str "Mona"; Int 1766793600000000000];
      [Str "Omar"; NaN] ].

(** The normalizer, the fetch step and the dashboard on the libraries of
    [Sample] and the vendors above, on 2025-12-27. *)
Definition cleaner :=
  ProcessData.cleaner Sample.pd_infer Sample.pd_to_datetime Sample.pd_to_numeric
    Sample.na_as_text Sample.repr Sample.csv_text.

Definition main :=
  ProcessData.main Sample.pd_infer Sample.pd_to_datetime Sample.pd_to_numeric
    Sample.na_as_text Sample.repr Sample.csv_text.

Definition save_data := IngestRun.save_data records_sheet "2025" "12" "27" "data".

Definition ingest_data (requests_post : IngestRun.post → result IngestData.response) :=
  IngestRun.ingest_data Sample.vendor_workbook requests_post getenv records_sheet
    str_of_json "2025" "12" "27" "2025-12-20" "2025-12-27" "data".

Definition load_table := DashboardData.load_table Sample.pd_to_datetime.

End Examples.

(** * Facts *)

(** ** Strings and paths *)

Section Paths.
Import PyStr.

Lemma string_app_assoc (a b c : string) : (a +:+ b) +:+ c = a +:+ (b +:+ c).
Proof.
  induction a as [|x a IH]; [done|].
  change (String x ((a +:+ b) +:+ c) = String x (a +:+ (b +:+ c))). by rewrite IH.
Qed.

Lemma string_app_length (a b : string) :
  String.length (a +:+ b) = (String.length a + String.length b)%nat.
Proof.
  induction a as [|x a IH]; [done|].
  change (S (String.length (a +:+ b)) = S (String.length a + String.length b)).
  by rewrite IH.
Qed.

Lemma last_char_app (a b : string) : b ≠ "" → last_char (a +:+ b) = last_char b.
Proof.
  intros Hb. induction a as [|x a IH]; [done|].
  change (last_char (String x (a +:+ b)) = last_char b).
  rewrite <- IH. simpl. destruct (a +:+ b) eqn:E; [|done].
  destruct a; [by destruct b | discriminate].
Qed.

(** Joining puts a separator that depends on the directory only. *)
Lemma os_path_join_sep (a : string) :
  ∃ sep, ∀ b, startswith "/" b = false → os_path_join a b = a +:+ sep +:+ b.
Proof.
  destruct (decide (a = "")) as [->|Ha].
  - exists "". intros b Hb. unfold os_path_join. by rewrite Hb.
  - destruct (endswith_slash a) eqn:E.
    + exists "". intros b Hb. unfold os_path_join.
      rewrite Hb, E. by destruct (decide (a = "")).
    + exists "/". intros b Hb. unfold os_path_join.
      rewrite Hb, E. by destruct (decide (a = "")).
Qed.

Lemma os_path_join_last (a b : string) :
  b ≠ "" → last_char (os_path_join a b) = last_char b.
Proof.
  intros Hb. unfold os_path_join.
  destruct (startswith "/" b); [done|].
  destruct (decide (a = "")); [done|].
  destruct (endswith_slash a); [by apply last_char_app|].
  rewrite last_char_app by done. by apply (last_char_app "/").
Qed.

Lemma os_path_join_longer (a b : string) :
  startswith "/" b = false → b ≠ "" → os_path_join a b ≠ a.
Proof.
  intros Hs Hb E. destruct (os_path_join_sep a) as [sep Hsep].
  rewrite Hsep in E by done.
  apply (f_equal String.length) in E.
  rewrite !string_app_length in E.
  destruct b; [done|]. simpl in E. lia.
Qed.

Lemma os_path_join_inj (a b b' : string) :
  startswith "/" b = false → startswith "/" b' = false →
  os_path_join a b = os_path_join a b' → b = b'.
Proof.
  intros Hb Hb' E. destruct (os_path_join_sep a) as [sep Hsep].
  rewrite !Hsep in E by done.
  by do 2 apply String.app_inj in E.
Qed.
End Paths.

Section ReportPaths.
Import ProcessData.

Lemma raw_path_inj raw r r' : raw_path raw r = raw_path raw r' → r = r'.
Proof.
  intros E. apply os_path_join_inj in E; [|by destruct r|by destruct r'].
  by destruct r, r'.
Qed.

Lemma clean_path_inj clean r r' : clean_path clean r = clean_path clean r' → r = r'.
Proof.
  intros E. apply os_path_join_inj in E; [|by destruct r|by destruct r'].
  by destruct r, r'.
Qed.

Lemma raw_path_not_clean_path raw clean r r' : raw_path raw r ≠ clean_path clean r'.
Proof.
  intros E. apply (f_equal PyStr.last_char) in E. unfold raw_path, clean_path in E.
  rewrite !os_path_join_last in E by (by destruct r, r').
  by destruct r, r'.
Qed.

Lemma clean_path_not_dir clean r : clean_path clean r ≠ clean.
Proof. apply os_path_join_longer; by destruct r. Qed.

Lemma raw_path_not_dir raw r : raw_path raw r ≠ raw.
Proof. apply os_path_join_longer; by destruct r. Qed.

(** The layout [main] uses keeps the raw files away from the clean
    directory. *)
Lemma main_raw_path_not_clean_dir D ts r :
  raw_path (os_path_join D ("raw/" +:+ ts)) r ≠ os_path_join D ("clean/" +:+ ts).
Proof.
  intros E. unfold raw_path in E.
  destruct (os_path_join_sep D) as [sep Hsep].
  destruct (os_path_join_sep (os_path_join D ("raw/" +:+ ts))) as [sep' Hsep'].
  rewrite Hsep' in E by (by destruct r).
  rewrite !Hsep in E by done.
  rewrite !string_app_assoc in E.
  do 2 apply String.app_inj in E.
  cbv [String.append] in E. discriminate.
Qed.
End ReportPaths.

(** ** Directories *)

Section Directories.
Import ProcessData.

Local Abbreviation free f p := (f !! p = None ∨ f !! p = Some Dir).

Lemma prefixes_at_slash_prefix before rest q :
  q ∈ prefixes_at_slash before rest →
  ∃ a b, rest = a +:+ b ∧ b ≠ "" ∧ q = before +:+ a.
Proof.
  revert before. induction rest as [|c rest IH]; intros before; simpl.
  { by intros ?%elem_of_nil. }
  intros [Hq|Hq]%elem_of_app.
  - exists "", (String c rest). split; [done|]. split; [done|].
    assert (q = before) as ->.
    { destruct (decide (c = "/"%char)); [|by apply elem_of_nil in Hq].
      destruct (bool_decide (before = "") || PyStr.endswith_slash before);
        [by apply elem_of_nil in Hq|by apply list_elem_of_singleton in Hq]. }
    clear. induction before as [|x before IH]; [done|].
    change (String x before = String x (before +:+ "")). by rewrite <- IH.
  - apply IH in Hq as (a & b & -> & Hb & ->).
    exists (String c a), b. split; [done|]. split; [done|].
    by rewrite string_app_assoc.
Qed.

Lemma ancestors_prefix path q :
  q ∈ ancestors path → ∃ b, path = q +:+ b ∧ b ≠ "".
Proof.
  intros (a & b & -> & Hb & ->)%prefixes_at_slash_prefix. by exists b.
Qed.

Lemma ancestors_shorter path q :
  q ∈ ancestors path → (String.length q < String.length path)%nat.
Proof.
  intros (b & -> & Hb)%ancestors_prefix. rewrite string_app_length.
  destruct b; [done|]. simpl. lia.
Qed.

Lemma chain_not_longer path q :
  q ∈ chain path → (String.length q ≤ String.length path)%nat.
Proof.
  intros [Hq%ancestors_shorter | ->%list_elem_of_singleton]%elem_of_app; lia.
Qed.

Lemma path_in_chain path : path ∈ chain path.
Proof. apply elem_of_app. right. by apply list_elem_of_singleton. Qed.

Lemma os_path_join_length a b :
  PyStr.startswith "/" b = false → b ≠ "" →
  (String.length a < String.length (os_path_join a b))%nat.
Proof.
  intros Hs Hb. destruct (os_path_join_sep a) as [sep Hsep].
  rewrite Hsep, !string_app_length by done. destruct b; [done|]. simpl. lia.
Qed.

(** What is joined to a directory is not on the way to it. *)
Lemma joined_not_in_chain a b :
  PyStr.startswith "/" b = false → b ≠ "" → os_path_join a b ∉ chain a.
Proof.
  intros Hs Hb Hin%chain_not_longer.
  pose proof (os_path_join_length a b Hs Hb). lia.
Qed.

Lemma clean_path_not_in_chain clean r : clean_path clean r ∉ chain clean.
Proof. apply joined_not_in_chain; by destruct r. Qed.

(** The layout [main] uses keeps the raw files off the way to the clean
    directory. *)
Lemma main_raw_path_not_in_clean_chain D ts r :
  raw_path (os_path_join D ("raw/" +:+ ts)) r ∉ chain (os_path_join D ("clean/" +:+ ts)).
Proof.
  intros [Hin | E%list_elem_of_singleton]%elem_of_app;
    [|by apply main_raw_path_not_clean_dir in E].
  apply ancestors_prefix in Hin as (b & E & _). unfold raw_path in E.
  destruct (os_path_join_sep D) as [sep Hsep].
  destruct (os_path_join_sep (os_path_join D ("raw/" +:+ ts))) as [sep' Hsep'].
  rewrite Hsep' in E by (by destruct r).
  rewrite !Hsep in E by done.
  rewrite !string_app_assoc in E.
  do 2 apply String.app_inj in E.
  cbv [String.append] in E. discriminate.
Qed.

Lemma blocked_false f p : blocked f p = false ↔ free f p.
Proof.
  unfold blocked. destruct (f !! p) as [[]|]; split; try done; auto.
  all: by intros [?|?].
Qed.

Lemma lookup_make_dirs dirs f p :
  make_dirs dirs f !! p = if decide (p ∈ dirs) then Some Dir else f !! p.
Proof.
  induction dirs as [|d dirs IH]; simpl.
  { destruct (decide (p ∈ [])) as [H|]; [by apply elem_of_nil in H|done]. }
  destruct (decide (d = p)) as [->|Hne].
  - rewrite lookup_insert_eq. destruct (decide (p ∈ p :: dirs)) as [|H]; [done|].
    destruct H. left.
  - rewrite lookup_insert_ne, IH by done.
    destruct (decide (p ∈ dirs)) as [Hin|Hin], (decide (p ∈ d :: dirs)) as [Hin'|Hin'];
      try done.
    + destruct Hin'. by right.
    + apply elem_of_cons in Hin' as [->|?]; done.
Qed.

Lemma lookup_make_dirs_in dirs f p : p ∈ dirs → make_dirs dirs f !! p = Some Dir.
Proof. intros H. rewrite lookup_make_dirs. by destruct (decide (p ∈ dirs)). Qed.

Lemma lookup_make_dirs_notin dirs f p : p ∉ dirs → make_dirs dirs f !! p = f !! p.
Proof. intros H. rewrite lookup_make_dirs. by destruct (decide (p ∈ dirs)). Qed.

Lemma make_dirs_twice dirs f : make_dirs dirs (make_dirs dirs f) = make_dirs dirs f.
Proof.
  apply map_eq. intros p. rewrite !lookup_make_dirs.
  by destruct (decide (p ∈ dirs)).
Qed.

Lemma make_dirs_insert dirs f k v :
  k ∉ dirs → make_dirs dirs (<[k := v]> f) = <[k := v]> (make_dirs dirs f).
Proof.
  intros Hk. apply map_eq. intros p. rewrite lookup_make_dirs.
  destruct (decide (k = p)) as [->|Hne].
  - rewrite !lookup_insert_eq. by destruct (decide (p ∈ dirs)).
  - rewrite !lookup_insert_ne, lookup_make_dirs by done. done.
Qed.

Lemma existsb_blocked_false f dirs :
  existsb (blocked f) dirs = false ↔ ∀ p, p ∈ dirs → free f p.
Proof.
  induction dirs as [|d dirs IH]; simpl.
  { split; [by intros _ p ?%elem_of_nil|done]. }
  rewrite orb_false_iff, IH, blocked_false. split.
  - intros [Hd Hr] p [->|Hp]%elem_of_cons; auto.
  - intros H. split; [apply H; left|]. intros p Hp. apply H. by right.
Qed.

Lemma makedirs_on_Ok path f :
  path ≠ "" → (∀ p, p ∈ chain path → free f p) →
  makedirs_on path f = Ok (make_dirs (chain path) f).
Proof.
  intros Hne Hfree. unfold makedirs_on.
  destruct (decide (path = "")); [done|].
  rewrite (proj2 (existsb_blocked_false f (ancestors path))).
  - rewrite (proj2 (blocked_false f path)); [done|]. apply Hfree, path_in_chain.
  - intros p Hp. apply Hfree, elem_of_app. by left.
Qed.

Lemma makedirs_on_inv path f f' :
  makedirs_on path f = Ok f' →
  path ≠ "" ∧ (∀ p, p ∈ chain path → free f p) ∧ f' = make_dirs (chain path) f.
Proof.
  unfold makedirs_on. destruct (decide (path = "")); [done|].
  destruct (existsb (blocked f) (ancestors path)) eqn:Ha; [done|].
  destruct (blocked f path) eqn:Hb; [done|]. intros [= <-].
  split; [done|]. split; [|done].
  intros p [Hp | ->%list_elem_of_singleton]%elem_of_app.
  - by apply (proj1 (existsb_blocked_false f (ancestors path))).
  - by apply blocked_false.
Qed.

(** A refusal is for the empty path, or for something on the way that
    is not a directory. *)
Lemma makedirs_on_Raise path f e :
  makedirs_on path f = Raise e →
  (e = FileNotFoundError ∧ path = "")
  ∨ (path ≠ "" ∧ (e = NotADirectoryError ∨ e = FileExistsError)
     ∧ ∃ p, p ∈ chain path ∧ blocked f p = true).
Proof.
  unfold makedirs_on. destruct (decide (path = "")) as [->|Hne].
  { intros [= <-]. by left. }
  destruct (existsb (blocked f) (ancestors path)) eqn:Ha.
  { intros [= <-]. right. split; [done|]. split; [by left|].
    apply existsb_exists in Ha as (p & Hp%list_elem_of_In & Hb).
    exists p. split; [|done]. apply elem_of_app. by left. }
  destruct (blocked f path) eqn:Hb; [|done].
  intros [= <-]. right. split; [done|]. split; [by right|].
  exists path. split; [apply path_in_chain|done].
Qed.

Lemma makedirs_on_blocked path f p :
  path ≠ "" → p ∈ chain path → blocked f p = true →
  ∃ e, makedirs_on path f = Raise e ∧ (e = NotADirectoryError ∨ e = FileExistsError).
Proof.
  intros Hne Hp Hb. destruct (makedirs_on path f) as [f'|e] eqn:E.
  - apply makedirs_on_inv in E as (_ & Hfree & _).
    apply Hfree, blocked_false in Hp. congruence.
  - exists e. split; [done|].
    apply makedirs_on_Raise in E as [[_ ?]|(_ & ? & _)]; done.
Qed.

End Directories.

(** ** Frames *)

Section Frames.

Lemma imap_imap {A B C} (f : nat → B → C) (g : nat → A → B) (l : list A) :
  imap f (imap g l) = imap (λ i x, f i (g i x)) l.
Proof.
  apply list_eq. intros i. rewrite !list_lookup_imap.
  by destruct (l !! i).
Qed.

(** A column that a row-wise change leaves alone reads the same. *)
Lemma column_unchanged j (F : nat → list cell → list cell) (l : list (list cell)) :
  (∀ i r, Pd.at_col j (F i r) = Pd.at_col j r) →
  Pd.at_col j <$> imap F l = Pd.at_col j <$> l.
Proof.
  intros H. apply list_eq. intros i.
  rewrite !list_lookup_fmap, list_lookup_imap.
  destruct (l !! i); simpl; [by rewrite H|done].
Qed.

Lemma at_col_insert_ne j j' v r : j ≠ j' → Pd.at_col j (<[j' := v]> r) = Pd.at_col j r.
Proof. intros H. unfold Pd.at_col. by rewrite list_lookup_insert_ne. Qed.

Lemma at_col_insert_eq j v r : (j < length r)%nat → Pd.at_col j (<[j := v]> r) = v.
Proof. intros H. unfold Pd.at_col. by rewrite list_lookup_insert_eq. Qed.

(** Assigning [f] of a column to a column, value by value. *)
Lemma imap_column_fmap j j' (f : cell → cell) (l : list (list cell)) :
  imap (λ i r, <[j := default NaN ((f <$> (Pd.at_col j' <$> l)) !! i)]> r) l
  = imap (λ _ r, <[j := f (Pd.at_col j' r)]> r) l.
Proof.
  apply list_eq. intros i. rewrite !list_lookup_imap, !list_lookup_fmap.
  by destruct (l !! i).
Qed.

Lemma selected_length usecols body r :
  r ∈ ProcessData.selected usecols body → length r = length usecols.
Proof.
  unfold ProcessData.selected. intros (r0 & -> & _)%list_elem_of_fmap.
  by rewrite length_fmap.
Qed.

(** Decoding keeps the rows in place and as long as they were. *)
Lemma decode_lookup infer body i r :
  ProcessData.decode infer body !! i = Some r →
  ∃ r0, body !! i = Some r0
        ∧ length r = length r0
        ∧ ∀ j, (j < length r0)%nat →
               Pd.at_col j r = default (Pd.at_col j r0) (infer (Pd.at_col j <$> body) !! i).
Proof.
  unfold ProcessData.decode. rewrite list_lookup_imap.
  destruct (body !! i) as [r0|]; [|done]. simpl. intros [= <-].
  exists r0. split; [done|]. split; [by rewrite length_imap|].
  intros j [c Hc]%lookup_lt_is_Some. unfold Pd.at_col.
  by rewrite list_lookup_imap, Hc.
Qed.

Lemma decode_lookup_Some infer body i r0 :
  body !! i = Some r0 →
  ∃ r, ProcessData.decode infer body !! i = Some r
       ∧ length r = length r0
       ∧ ∀ j, (j < length r0)%nat →
              Pd.at_col j r = default (Pd.at_col j r0) (infer (Pd.at_col j <$> body) !! i).
Proof.
  intros H. destruct (ProcessData.decode infer body !! i) as [r|] eqn:E.
  - exists r. split; [done|].
    apply decode_lookup in E as (r0' & Hr0 & Hlen & Hat). by simplify_eq.
  - apply lookup_ge_None in E. unfold ProcessData.decode in E.
    rewrite length_imap in E. apply lookup_lt_Some in H. lia.
Qed.

Lemma read_rows_count infer usecols body :
  length (ProcessData.read_rows infer usecols body) = length body.
Proof.
  unfold ProcessData.read_rows, ProcessData.decode, ProcessData.selected.
  by rewrite length_imap, length_fmap.
Qed.

Lemma read_rows_length infer usecols body r :
  r ∈ ProcessData.read_rows infer usecols body → length r = length usecols.
Proof.
  intros [i Hi]%list_elem_of_lookup_1.
  apply decode_lookup in Hi as (r0 & Hr0 & -> & _).
  eapply selected_length, list_elem_of_lookup_2, Hr0.
Qed.

Lemma select_filter {A} (f : A → bool) (l : list A) :
  Pd.select (f <$> l) l = List.filter f l.
Proof.
  induction l as [|x l IH]; [done|].
  rewrite fmap_cons. cbn [Pd.select List.filter]. rewrite IH. by destruct (f x).
Qed.

Lemma filter_length_le {A} (f : A → bool) (l : list A) :
  (length (List.filter f l) ≤ length l)%nat.
Proof. induction l as [|x l IH]; simpl; [lia|]. destruct (f x); simpl; lia. Qed.

End Frames.

(** ** The normalizer *)

Section Normalizer.
Import ProcessData.
Context (pd_infer : list cell → list cell)
        (pd_to_datetime : list cell → option (list cell))
        (pd_to_numeric : list cell → list cell)
        (na_as_text : bool)
        (repr : cell → string)
        (csv_text : dataframe → string).

Local Abbreviation cleaner :=
  (cleaner pd_infer pd_to_datetime pd_to_numeric na_as_text repr csv_text).
Local Abbreviation typed := (typed pd_infer pd_to_datetime pd_to_numeric na_as_text repr).
Local Abbreviation run_cleaner := (run_cleaner csv_text).
Local Abbreviation main :=
  (main pd_infer pd_to_datetime pd_to_numeric na_as_text repr csv_text).
Local Abbreviation parse_sheet := (parse_sheet pd_infer).
Local Abbreviation read_rows := (read_rows pd_infer).
Local Abbreviation input_rows := (input_rows pd_infer).
Local Abbreviation strip_decimal := (strip_decimal na_as_text repr).

(** The handlers, as one function of the exception. *)
Local Abbreviation failed k e w :=
  (match e with
   | FileNotFoundError => (None, emit WARNING (NotFound (k +:+ ".xlsx")) w)
   | _ => (None, emit ERROR (ErrorLoading k e) w)
   end).

Ltac step_result :=
  match goal with
  | |- context [parse_sheet ?a ?b ?c ?d] => destruct (parse_sheet a b c d)
  | |- context [Pd.set_columns ?a ?b] => destruct (Pd.set_columns a b)
  | |- context [Pd.getitem ?a ?b] => destruct (Pd.getitem a b)
  | |- context [pd_to_datetime ?c] => destruct (pd_to_datetime c)
  | |- context [Pd.dropna_subset ?a ?b] => destruct (Pd.dropna_subset a b)
  end; simpl; try reflexivity.

Ltac open_cleaner :=
  unfold run_cleaner, try_except, mbind, M_bind, result_bind, read_excel,
    logger_info, lift, to_datetime, with_dates, with_phone, with_numeric;
  cbv [String.append]; simpl;
  match goal with
  | |- context [fs ?w !! ?p] => destruct (fs w !! p) as [[]|]; try reflexivity
  end;
  unfold mbind, result_bind; simpl.

Lemma clean_clients_data_shape raw clean w :
  clean_clients_data pd_infer pd_to_datetime na_as_text repr csv_text raw clean w
  = run_cleaner "Clients" "clients"
      (typed_clients pd_infer pd_to_datetime na_as_text repr) raw clean w.
Proof. unfold clean_clients_data, typed_clients. open_cleaner. repeat step_result. Qed.

Lemma clean_pets_data_shape raw clean w :
  clean_pets_data pd_infer pd_to_datetime na_as_text repr csv_text raw clean w
  = run_cleaner "Pets" "pets" (typed_pets pd_infer pd_to_datetime na_as_text repr) raw clean w.
Proof. unfold clean_pets_data, typed_pets. open_cleaner. repeat step_result. Qed.

Lemma clean_services_data_shape raw clean w :
  clean_services_data pd_infer pd_to_datetime pd_to_numeric csv_text raw clean w
  = run_cleaner "Services" "services" (typed_services pd_infer pd_to_datetime pd_to_numeric)
      raw clean w.
Proof. unfold clean_services_data, typed_services. open_cleaner. repeat step_result. Qed.

Lemma clean_revenue_data_shape raw clean w :
  clean_revenue_data pd_infer pd_to_datetime na_as_text repr csv_text raw clean w
  = run_cleaner "Revenue" "revenue"
      (typed_revenue pd_infer pd_to_datetime na_as_text repr) raw clean w.
Proof. unfold clean_revenue_data, typed_revenue. open_cleaner. repeat step_result. Qed.

Lemma cleaner_shape r raw clean w :
  cleaner r raw clean w = run_cleaner (title r) (key r) (typed r) raw clean w.
Proof.
  destruct r; simpl.
  - apply clean_clients_data_shape.
  - apply clean_pets_data_shape.
  - apply clean_services_data_shape.
  - apply clean_revenue_data_shape.
Qed.

Local Abbreviation free f p := (f !! p = None ∨ f !! p = Some Dir).

(** All the ways one operation can go. *)
Lemma run_cleaner_eq what k ty raw clean w :
  run_cleaner what k ty raw clean w =
  let w0 := emit INFO (Loading what) w in
  match fs w !! os_path_join raw (k +:+ ".xlsx") with
  | None => failed k FileNotFoundError w0
  | Some Dir => failed k IsADirectoryError w0
  | Some (Blob _) => failed k BadZipFile w0
  | Some (Workbook sheet) =>
      match ty sheet with
      | Raise e => failed k e w0
      | Ok df =>
          match makedirs_on clean (fs w) with
          | Raise e => failed k e w0
          | Ok f1 =>
              match f1 !! os_path_join clean (k +:+ ".csv") with
              | Some Dir => failed k IsADirectoryError (World f1 (log w0))
              | _ => (Some df,
                      emit INFO (Loaded what (Pd.shape df))
                        (World (<[os_path_join clean (k +:+ ".csv")
                                  := Blob (csv_text df)]> f1) (log w0)))
              end
          end
      end
  end.
Proof.
  unfold run_cleaner, try_except, mbind, M_bind, logger_info, os_makedirs, to_csv,
    write_file, emit; simpl.
  destruct (fs w !! os_path_join raw _) as [[| sheet |]|]; try reflexivity.
  destruct (ty sheet) as [df|e]; [|reflexivity]. cbn [fs log].
  destruct (makedirs_on clean (fs w)) as [f1|e]; simpl; [|reflexivity].
  destruct (f1 !! os_path_join clean _) as [[]|]; reflexivity.
Qed.

(** The same for a report type, on its two paths. *)
Lemma cleaner_eq r raw clean w :
  cleaner r raw clean w =
  let w0 := emit INFO (Loading (title r)) w in
  match fs w !! raw_path raw r with
  | None => failed (key r) FileNotFoundError w0
  | Some Dir => failed (key r) IsADirectoryError w0
  | Some (Blob _) => failed (key r) BadZipFile w0
  | Some (Workbook sheet) =>
      match typed r sheet with
      | Raise e => failed (key r) e w0
      | Ok df =>
          match makedirs_on clean (fs w) with
          | Raise e => failed (key r) e w0
          | Ok f1 =>
              match f1 !! clean_path clean r with
              | Some Dir => failed (key r) IsADirectoryError (World f1 (log w0))
              | _ => (Some df,
                      emit INFO (Loaded (title r) (Pd.shape df))
                        (World (<[clean_path clean r := Blob (csv_text df)]> f1)
                           (log w0)))
              end
          end
      end
  end.
Proof. rewrite cleaner_shape. apply run_cleaner_eq. Qed.

(** What a run that returns a table has done. *)
Lemma cleaner_returns_inv r raw clean w df w' :
  cleaner r raw clean w = (Some df, w') →
  ∃ sheet,
    fs w !! raw_path raw r = Some (Workbook sheet)
    ∧ typed r sheet = Ok df
    ∧ fs w' = <[clean_path clean r := Blob (csv_text df)]> (make_dirs (chain clean) (fs w))
    ∧ log w' = log w ++ [(INFO, Loading (title r)); (INFO, Loaded (title r) (Pd.shape df))]
    ∧ clean ≠ ""
    ∧ ∀ p, p ∈ chain clean → free (fs w) p.
Proof.
  rewrite cleaner_eq. cbv zeta.
  destruct (fs w !! raw_path raw r) as [[|sheet|]|] eqn:Hfs; try done.
  destruct (typed r sheet) as [df0|e] eqn:Hty; [|by destruct e].
  destruct (makedirs_on clean (fs w)) as [f1|e] eqn:Hm; [|by destruct e].
  apply makedirs_on_inv in Hm as (Hne & Hfree & ->).
  intros H. exists sheet.
  destruct (make_dirs (chain clean) (fs w) !! clean_path clean r) as [[]|];
    simplify_eq; simpl; split_and!; try done; by rewrite <- app_assoc.
Qed.

(** The log plays no part in what a run returns and writes. *)
Lemma cleaner_fs_only r raw clean w1 w2 :
  fs w1 = fs w2 →
  (cleaner r raw clean w1).1 = (cleaner r raw clean w2).1
  ∧ fs (cleaner r raw clean w1).2 = fs (cleaner r raw clean w2).2.
Proof.
  intros E. rewrite !cleaner_eq. cbv zeta. rewrite E.
  repeat case_match; simplify_eq; done.
Qed.

Lemma cleaner_success r raw clean w sheet df :
  fs w !! raw_path raw r = Some (Workbook sheet) →
  typed r sheet = Ok df →
  clean ≠ "" →
  (∀ p, p ∈ chain clean → free (fs w) p) →
  fs w !! clean_path clean r ≠ Some Dir →
  (cleaner r raw clean w).1 = Some df
  ∧ fs (cleaner r raw clean w).2
    = <[clean_path clean r := Blob (csv_text df)]> (make_dirs (chain clean) (fs w)).
Proof.
  intros HP Hty Hne Hc HC. pose proof (clean_path_not_in_chain clean r) as Hd.
  rewrite cleaner_eq. cbv zeta. rewrite HP, Hty, makedirs_on_Ok by done.
  rewrite lookup_make_dirs_notin by done.
  destruct (fs w !! clean_path clean r) as [[]|]; done.
Qed.

Lemma cleaner_write_refused r raw clean w sheet df :
  fs w !! raw_path raw r = Some (Workbook sheet) →
  typed r sheet = Ok df →
  clean ≠ "" →
  (∀ p, p ∈ chain clean → free (fs w) p) →
  fs w !! clean_path clean r = Some Dir →
  cleaner r raw clean w
  = (None, World (make_dirs (chain clean) (fs w))
             (log w ++ [(INFO, Loading (title r));
                        (ERROR, ErrorLoading (key r) IsADirectoryError)])).
Proof.
  intros HP Hty Hne Hc HC. pose proof (clean_path_not_in_chain clean r) as Hd.
  rewrite cleaner_eq. cbv zeta. rewrite HP, Hty, makedirs_on_Ok by done.
  rewrite lookup_make_dirs_notin by done. rewrite HC.
  unfold emit; simpl. by rewrite <- app_assoc.
Qed.

Lemma cleaner_mkdir_refused r raw clean w sheet df p :
  fs w !! raw_path raw r = Some (Workbook sheet) →
  typed r sheet = Ok df →
  clean ≠ "" →
  p ∈ chain clean → blocked (fs w) p = true →
  ∃ e, (e = NotADirectoryError ∨ e = FileExistsError)
       ∧ cleaner r raw clean w
         = (None, World (fs w)
                    (log w ++ [(INFO, Loading (title r));
                               (ERROR, ErrorLoading (key r) e)])).
Proof.
  intros HP Hty Hne Hp Hb.
  destruct (makedirs_on_blocked clean (fs w) p Hne Hp Hb) as (e & Hm & He).
  exists e. split; [done|].
  rewrite cleaner_eq. cbv zeta. rewrite HP, Hty, Hm.
  destruct He as [-> | ->]; unfold emit; simpl; by rewrite <- app_assoc.
Qed.

(** What one run does to the file system. *)
Lemma cleaner_effect r raw clean w :
  fs (cleaner r raw clean w).2 = fs w
  ∨ (∃ sheet df,
       fs w !! raw_path raw r = Some (Workbook sheet) ∧ typed r sheet = Ok df
       ∧ clean ≠ "" ∧ ∀ p, p ∈ chain clean → free (fs w) p).
Proof.
  rewrite cleaner_eq. cbv zeta.
  destruct (fs w !! raw_path raw r) as [[|sheet|]|]; try (by left).
  destruct (typed r sheet) as [df|e] eqn:Hty; [|left; by destruct e].
  destruct (makedirs_on clean (fs w)) as [f1|e] eqn:Hm; [|left; by destruct e].
  apply makedirs_on_inv in Hm as (Hne & Hfree & ->). right. by exists sheet, df.
Qed.


(** *** One report's file does not reach another report's result *)

Lemma similar_sym clean P C f1 f2 : similar clean P C f1 f2 → similar clean P C f2 f1.
Proof.
  intros [Hs Hd]. split.
  - intros p ???. symmetry. by apply Hs.
  - intros p Hp. destruct (Hd p Hp) as [E|[[E1 E2]|[E1 E2]]];
      [by left|by right; right|by right; left].
Qed.

Lemma similar_mkdir_l clean P C f1 f2 :
  similar clean P C f1 f2 →
  (∀ p, p ∈ chain clean → free f1 p) →
  similar clean P C (make_dirs (chain clean) f1) f2.
Proof.
  intros [Hs Hd] Hc. split.
  - intros p ???. rewrite lookup_make_dirs_notin by done. by apply Hs.
  - intros p Hp. rewrite lookup_make_dirs_in by done. unfold dir_compat.
    destruct (Hd p Hp) as [E|[[E1 E2]|[E1 E2]]].
    + rewrite <- E. destruct (Hc p Hp) as [-> | ->]; [by right; right | by left].
    + rewrite E2. by left.
    + rewrite E2. by right; right.
Qed.

Lemma similar_mkdir_r clean P C f1 f2 :
  similar clean P C f1 f2 →
  (∀ p, p ∈ chain clean → free f2 p) →
  similar clean P C f1 (make_dirs (chain clean) f2).
Proof. intros Hs Hc. apply similar_sym, similar_mkdir_l; [by apply similar_sym|done]. Qed.

Lemma similar_mkdir_both clean P C f1 f2 :
  similar clean P C f1 f2 →
  (∀ p, p ∈ chain clean → free f1 p) →
  (∀ p, p ∈ chain clean → free f2 p) →
  similar clean P C (make_dirs (chain clean) f1) (make_dirs (chain clean) f2).
Proof. intros Hs H1 H2. apply similar_mkdir_l; [by apply similar_mkdir_r|done]. Qed.

Lemma similar_write_both clean P C f1 f2 k b :
  similar clean P C f1 f2 → k ∉ chain clean →
  similar clean P C (<[k := b]> f1) (<[k := b]> f2).
Proof.
  intros [Hs Hd] Hk. split.
  - intros p ???. destruct (decide (k = p)) as [->|].
    + by rewrite !lookup_insert_eq.
    + rewrite !lookup_insert_ne by done. by apply Hs.
  - intros p Hp. rewrite !lookup_insert_ne by (by intros ->). by apply Hd.
Qed.

Lemma similar_write_l clean P C f1 f2 b :
  similar clean P C f1 f2 → C ∉ chain clean → similar clean P C (<[C := b]> f1) f2.
Proof.
  intros [Hs Hd] Hk. split.
  - intros p ???. rewrite lookup_insert_ne by done. by apply Hs.
  - intros p Hp. rewrite lookup_insert_ne by (by intros ->). by apply Hd.
Qed.

Lemma similar_write_r clean P C f1 f2 b :
  similar clean P C f1 f2 → C ∉ chain clean → similar clean P C f1 (<[C := b]> f2).
Proof. intros Hs Hc. apply similar_sym, similar_write_l; [by apply similar_sym|done]. Qed.

(** On similar file systems [os.makedirs] goes the same way. *)
Lemma similar_makedirs clean P C f1 f2 :
  similar clean P C f1 f2 →
  match makedirs_on clean f1, makedirs_on clean f2 with
  | Ok g1, Ok g2 =>
      g1 = make_dirs (chain clean) f1 ∧ g2 = make_dirs (chain clean) f2
      ∧ (∀ p, p ∈ chain clean → free f1 p) ∧ (∀ p, p ∈ chain clean → free f2 p)
  | Raise e1, Raise e2 => e1 = e2
  | _, _ => False
  end.
Proof.
  intros [_ Hd].
  assert (∀ p, p ∈ chain clean → blocked f1 p = blocked f2 p) as Hb.
  { intros p Hp. unfold blocked.
    destruct (Hd p Hp) as [E|[[E1 E2]|[E1 E2]]]; [by rewrite E|by rewrite E1, E2..]. }
  assert (existsb (blocked f1) (ancestors clean) = existsb (blocked f2) (ancestors clean))
    as Ha.
  { assert (∀ p, p ∈ ancestors clean → blocked f1 p = blocked f2 p) as Hb'.
    { intros p Hp. apply Hb, elem_of_app. by left. }
    induction (ancestors clean) as [|a l IH]; [done|]. simpl.
    rewrite (Hb' a) by left. rewrite IH; [done|]. intros p Hp. apply Hb'. by right. }
  destruct (makedirs_on clean f1) as [g1|e1] eqn:E1,
           (makedirs_on clean f2) as [g2|e2] eqn:E2.
  - apply makedirs_on_inv in E1 as (_ & ? & ->), E2 as (_ & ? & ->). done.
  - apply makedirs_on_inv in E1 as (Hne & Hfree & _).
    apply makedirs_on_Raise in E2 as [[_ ?]|(_ & _ & p & Hp & Hbp)]; [done|].
    rewrite <- Hb in Hbp by done. apply Hfree, blocked_false in Hp. congruence.
  - apply makedirs_on_inv in E2 as (Hne & Hfree & _).
    apply makedirs_on_Raise in E1 as [[_ ?]|(_ & _ & p & Hp & Hbp)]; [done|].
    rewrite Hb in Hbp by done. apply Hfree, blocked_false in Hp. congruence.
  - revert E1 E2. unfold makedirs_on. rewrite Ha, (Hb clean) by apply path_in_chain.
    destruct (decide (clean = "")), (existsb (blocked f2) (ancestors clean)),
      (blocked f2 clean); simpl; congruence.
Qed.

(** The three shapes of the file system after a run. *)
Lemma cleaner_effect_shapes r raw clean w :
  let f' := fs (cleaner r raw clean w).2 in
  f' = fs w
  ∨ ((∀ p, p ∈ chain clean → free (fs w) p)
     ∧ (f' = make_dirs (chain clean) (fs w)
        ∨ ∃ b, f' = <[clean_path clean r := b]> (make_dirs (chain clean) (fs w)))).
Proof.
  rewrite cleaner_eq. cbv zeta.
  destruct (fs w !! raw_path raw r) as [[|sheet|]|]; try (by left).
  destruct (typed r sheet) as [df|e]; [|left; by destruct e].
  destruct (makedirs_on clean (fs w)) as [f1|e] eqn:Hm; [|left; by destruct e].
  apply makedirs_on_inv in Hm as (Hne & Hfree & ->). right. split; [done|].
  destruct (make_dirs (chain clean) (fs w) !! clean_path clean r) as [[]|];
    simpl; eauto.
Qed.

(** The operation of the report whose raw file differs keeps the two
    file systems similar. *)
Lemma cleaner_similar_self r raw clean P w1 w2 :
  similar clean P (clean_path clean r) (fs w1) (fs w2) →
  similar clean P (clean_path clean r)
    (fs (cleaner r raw clean w1).2) (fs (cleaner r raw clean w2).2).
Proof.
  intros Hs. pose proof (clean_path_not_in_chain clean r) as Hd.
  destruct (cleaner_effect_shapes r raw clean w1) as [->|[H1 [->|[b1 ->]]]];
    destruct (cleaner_effect_shapes r raw clean w2) as [->|[H2 [->|[b2 ->]]]];
    eauto using similar_mkdir_l, similar_mkdir_r, similar_write_l, similar_write_r.
Qed.

(** Any other operation returns the same on both and keeps them
    similar. *)
Lemma cleaner_similar_other r raw clean P C w1 w2 :
  similar clean P C (fs w1) (fs w2) →
  raw_path raw r ≠ P → raw_path raw r ≠ C → raw_path raw r ∉ chain clean →
  clean_path clean r ≠ P → clean_path clean r ≠ C →
  (cleaner r raw clean w1).1 = (cleaner r raw clean w2).1
  ∧ similar clean P C (fs (cleaner r raw clean w1).2) (fs (cleaner r raw clean w2).2).
Proof.
  intros Hs HP1 HP2 HP3 HC1 HC2. pose proof (clean_path_not_in_chain clean r) as Hd.
  pose proof Hs as [Hag _].
  pose proof (Hag _ HP1 HP2 HP3) as EP.
  rewrite !cleaner_eq. cbv zeta. rewrite <- EP.
  destruct (fs w1 !! raw_path raw r) as [[|sheet|]|]; try done.
  destruct (typed r sheet) as [df|e]; [|by destruct e].
  pose proof (similar_makedirs clean P C _ _ Hs) as Hm.
  destruct (makedirs_on clean (fs w1)) as [g1|e1], (makedirs_on clean (fs w2)) as [g2|e2];
    try done.
  2: { subst e2. by destruct e1. }
  destruct Hm as (-> & -> & H1 & H2).
  pose proof (similar_mkdir_both clean P C _ _ Hs H1 H2) as Hs'.
  pose proof Hs' as [Hag' _]. rewrite <- (Hag' _ HC1 HC2 Hd).
  destruct (make_dirs (chain clean) (fs w1) !! clean_path clean r) as [[]|]; simpl;
    (split; [done|]); try done; by apply similar_write_both.
Qed.

(** *** The batch *)

Lemma main_eq D ts w :
  let raw := os_path_join D ("raw/" +:+ ts) in
  let clean := os_path_join D ("clean/" +:+ ts) in
  (main D ts w).1 =
  if bool_decide (is_Some (fs w !! raw)) then
    let c := cleaner Clients raw clean (emit INFO (LoadingFrom raw) w) in
    let p := cleaner Pets raw clean c.2 in
    let s := cleaner Services raw clean p.2 in
    let v := cleaner Revenue raw clean s.2 in
    Ok (c.1, p.1, s.1, v.1, None, None)
  else Raise FileNotFoundError.
Proof.
  cbv zeta. unfold main, ProcessData.main, mbind, M_bind, os_path_exists, call; simpl.
  destruct (bool_decide _); reflexivity.
Qed.

Lemma main_independent D ts w1 w2 r r' :
  r ≠ r' →
  (∀ p, p ≠ raw_path (os_path_join D ("raw/" +:+ ts)) r' → fs w1 !! p = fs w2 !! p) →
  main_result r (main D ts w1).1 = main_result r (main D ts w2).1.
Proof.
  intros Hr Hag. rewrite !main_eq. cbv zeta.
  set (raw := os_path_join D ("raw/" +:+ ts)) in *.
  set (clean := os_path_join D ("clean/" +:+ ts)).
  set (P := raw_path raw r') in *. set (C := clean_path clean r').
  rewrite (Hag raw) by (intros E; by apply (raw_path_not_dir raw r')).
  destruct (bool_decide _); [|done].
  assert (∀ x v1 v2, similar clean P C (fs v1) (fs v2) →
            similar clean P C (fs (cleaner x raw clean v1).2) (fs (cleaner x raw clean v2).2)
            ∧ (x ≠ r' → (cleaner x raw clean v1).1 = (cleaner x raw clean v2).1)) as Hstep.
  { intros x v1 v2 Hs. destruct (decide (x = r')) as [->|Hx].
    - split; [by apply cleaner_similar_self|done].
    - destruct (cleaner_similar_other x raw clean P C v1 v2) as [E Hs']; try done.
      + intros E. by apply raw_path_inj in E.
      + apply raw_path_not_clean_path.
      + apply main_raw_path_not_in_clean_chain.
      + intros E. symmetry in E. by apply raw_path_not_clean_path in E.
      + intros E. by apply clean_path_inj in E. }
  assert (similar clean P C (fs (emit INFO (LoadingFrom raw) w1))
            (fs (emit INFO (LoadingFrom raw) w2))) as H0.
  { split; simpl.
    - intros p ???. by apply Hag.
    - intros p Hp. left. apply Hag. intros ->.
      by apply main_raw_path_not_in_clean_chain in Hp. }
  destruct (Hstep Clients _ _ H0) as [H1 E1].
  destruct (Hstep Pets _ _ H1) as [H2 E2].
  destruct (Hstep Services _ _ H2) as [H3 E3].
  destruct (Hstep Revenue _ _ H3) as [H4 E4].
  simpl. f_equal. destruct r; auto.
Qed.

(** *** The typed frames, row by row *)

(** Reading and naming: the frame has the rows at the used positions. *)
Lemma read_named sheet k h cols names df0 df :
  parse_sheet sheet k h cols = Ok df0 →
  Pd.set_columns df0 names = Ok df →
  names ≠ [] →
  df = DataFrame names (read_rows cols (if h then drop 1 (drop k sheet) else drop k sheet)).
Proof.
  intros Hp Hs Hn. revert Hp Hs. unfold parse_sheet.
  destruct (drop k sheet) as [|r0 body] eqn:E.
  - intros [= <-]. unfold Pd.set_columns; simpl. by destruct names.
  - destruct (forallb _ _); [|done]. intros [= <-].
    unfold Pd.set_columns; simpl.
    destruct (decide _); [|done]. by intros [= <-].
Qed.

Ltac open_typed H :=
  unfold mbind, result_bind in H;
  let Hp := fresh "Hp" in
  let Hs := fresh "Hs" in
  let d0 := fresh "df" in
  let d1 := fresh "df" in
  destruct (parse_sheet _ _ _ _) as [d0|] eqn:Hp; cbv beta iota in H; [|done];
  destruct (Pd.set_columns d0 _) as [d1|] eqn:Hs; cbv beta iota in H; [|done];
  apply (read_named _ _ _ _ _ _ _ Hp) in Hs; [|done]; clear Hp; subst.

Lemma typed_revenue_inv sheet df :
  typed_revenue pd_infer pd_to_datetime na_as_text repr sheet = Ok df →
  let data := read_rows [1; 2; 3; 4; 5; 6; 7; 8; 10; 11]%nat (drop 5 sheet) in
  let kept := take (length data - 2) data in
  let phoned := imap (λ _ r, <[3%nat := strip_decimal (Pd.at_col 3 r)]> r) kept in
  ∃ d, pd_to_datetime (Pd.at_col 0 <$> phoned) = Some d
       ∧ df = DataFrame
                ["creation_date"; "category"; "client"; "client_phone"; "pet_name";
                 "invoice_code"; "amount"; "discount"; "paid"; "debit"]
                (List.filter Pd.row_complete
                   (imap (λ i r, <[0%nat := default NaN (d !! i)]> r) phoned)).
Proof.
  intros H. unfold typed_revenue in H. open_typed H.
  unfold with_phone, with_dates, Pd.iloc_drop_last, mbind, result_bind in H.
  simpl in H. intros data kept phoned. fold data in H. fold kept in H.
  rewrite imap_column_fmap in H. fold phoned in H.
  destruct (pd_to_datetime _) as [d|] eqn:Hd; [|done]. injection H as <-.
  exists d. split; [done|].
  unfold Pd.dropna, Pd.setitem; simpl. fold data kept.
  by rewrite imap_column_fmap.
Qed.


Lemma typed_clients_inv sheet df :
  typed_clients pd_infer pd_to_datetime na_as_text repr sheet = Ok df →
  let data := read_rows [1; 2; 3; 4; 5]%nat (drop 1 (drop 5 sheet)) in
  ∃ d, pd_to_datetime (Pd.at_col 3 <$> data) = Some d
       ∧ df = DataFrame ["name"; "id"; "phone"; "creation_date"; "status"]
                (imap (λ i r, <[2%nat := strip_decimal (Pd.at_col 2 r)]>
                                (<[3%nat := default NaN (d !! i)]> r)) data).
Proof.
  intros H. unfold typed_clients in H. open_typed H.
  unfold with_phone, with_dates, mbind, result_bind in H.
  simpl in H. intros data. fold data in H.
  destruct (pd_to_datetime _) as [d|] eqn:Hd; [|done].
  simpl in H. injection H as <-.
  exists d. split; [done|].
  unfold Pd.setitem; simpl. fold data.
  rewrite imap_column_fmap, imap_imap.
  f_equal. apply imap_ext. intros i r _. simpl.
  by rewrite at_col_insert_ne.
Qed.

Lemma typed_pets_inv sheet df :
  typed_pets pd_infer pd_to_datetime na_as_text repr sheet = Ok df →
  let data := read_rows [1; 2; 3; 4; 5; 7]%nat (drop 4 sheet) in
  ∃ d, pd_to_datetime (Pd.at_col 2 <$> data) = Some d
       ∧ df = DataFrame
                ["pet_name"; "code"; "creation_date"; "status"; "type"; "client_phone"]
                (imap (λ i r, <[5%nat := strip_decimal (Pd.at_col 5 r)]>
                                (<[2%nat := default NaN (d !! i)]> r)) data).
Proof.
  intros H. unfold typed_pets in H. open_typed H.
  unfold with_phone, with_dates, mbind, result_bind in H.
  simpl in H. intros data. fold data in H.
  destruct (pd_to_datetime _) as [d|] eqn:Hd; [|done].
  simpl in H. injection H as <-.
  exists d. split; [done|].
  unfold Pd.setitem; simpl. fold data.
  rewrite imap_column_fmap, imap_imap.
  f_equal. apply imap_ext. intros i r _. simpl.
  by rewrite at_col_insert_ne.
Qed.

Lemma typed_services_inv sheet df :
  typed_services pd_infer pd_to_datetime pd_to_numeric sheet = Ok df →
  let data := read_rows [1; 2; 3; 4; 5; 7]%nat (drop 5 sheet) in
  let q := pd_to_numeric (Pd.at_col 2 <$> data) in
  let k := pd_to_numeric (Pd.at_col 3 <$> data) in
  let s := pd_to_numeric (Pd.at_col 4 <$> data) in
  ∃ d, pd_to_datetime (Pd.at_col 5 <$> data) = Some d
       ∧ df = DataFrame
                ["category"; "service"; "quantity"; "cost"; "sale_price"; "creation_date"]
                (List.filter (λ r, negb (isna (Pd.at_col 4 r)))
                   (imap (λ i r, <[4%nat := default NaN (s !! i)]>
                                   (<[3%nat := default NaN (k !! i)]>
                                      (<[2%nat := default NaN (q !! i)]>
                                         (<[5%nat := default NaN (d !! i)]> r)))) data)).
Proof.
  intros H. unfold typed_services in H. open_typed H.
  unfold with_numeric, with_dates, mbind, result_bind in H.
  simpl in H. intros data q k s. fold data in H.
  destruct (pd_to_datetime _) as [d|] eqn:Hd; [|done].
  simpl in H. injection H as <-.
  exists d. split; [done|].
  unfold Pd.dropna_subset, Pd.setitem; simpl. fold data.
  rewrite !imap_imap.
  rewrite (column_unchanged 2 _ data) by (intros; by rewrite at_col_insert_ne).
  rewrite (column_unchanged 3 _ data) by (intros; by rewrite !at_col_insert_ne).
  rewrite (column_unchanged 4 _ data) by (intros; by rewrite !at_col_insert_ne).
  done.
Qed.

(** *** The claims about the normalizer *)

Lemma before_dot_no_dot s : PyStr.has_dot (PyStr.before_dot s) = false.
Proof.
  induction s as [|a s IH]; [done|].
  simpl. destruct (decide (a = "."%char)) as [->|Ha]; [done|].
  simpl. by destruct (decide (a = "."%char)).
Qed.

Lemma strip_decimal_text c :
  isna c = false ∨ na_as_text = true →
  strip_decimal c = Str (PyStr.before_dot (py_str repr c)).
Proof.
  unfold ProcessData.strip_decimal. intros [-> | ->]; [done|].
  by rewrite andb_false_r.
Qed.

Lemma strip_decimal_missing c :
  isna c = true → na_as_text = false → strip_decimal c = c.
Proof. unfold ProcessData.strip_decimal. by intros -> ->. Qed.

Lemma strip_decimal_no_dot c s :
  strip_decimal c = Str s → PyStr.has_dot s = false.
Proof.
  unfold ProcessData.strip_decimal. destruct (isna c && negb na_as_text) eqn:E.
  - intros ->. by apply andb_true_iff in E as [? _].
  - intros [= <-]. apply before_dot_no_dot.
Qed.

Lemma elem_of_list_filter {A} (f : A → bool) (l : list A) x :
  x ∈ List.filter f l ↔ x ∈ l ∧ f x = true.
Proof. rewrite !list_elem_of_In. apply filter_In. Qed.

(** C1. Revenue: the last two rows of the sheet are dropped before
    anything is typed; of the rows that are left, exactly those without a
    missing value after typing are kept, in order.  So no kept row has a
    missing value, a typed row with one is not in the output, and a sheet
    of [N] data rows and two trailing rows gives at most [N] rows. *)
Theorem revenue_drops_footer_and_incomplete_rows raw clean w df w' :
  clean_revenue_data pd_infer pd_to_datetime na_as_text repr csv_text raw clean w
  = (Some df, w') →
  ∃ sheet d,
    fs w !! os_path_join raw "revenue.xlsx" = Some (Workbook sheet)
    ∧ let data := read_rows [1; 2; 3; 4; 5; 6; 7; 8; 10; 11]%nat (drop 5 sheet) in
      let kept := take (length data - 2) data in
      let phoned := imap (λ _ r, <[3%nat := strip_decimal (Pd.at_col 3 r)]> r) kept in
      let typed_rows := imap (λ i r, <[0%nat := default NaN (d !! i)]> r) phoned in
      pd_to_datetime (Pd.at_col 0 <$> phoned) = Some d
      ∧ rows df = List.filter Pd.row_complete typed_rows
      ∧ (∀ r c, r ∈ rows df → c ∈ r → isna c = false)
      ∧ (∀ r c, r ∈ typed_rows → c ∈ r → isna c = true → r ∉ rows df)
      ∧ (∀ N, length (drop 5 sheet) = (N + 2)%nat → (length (rows df) ≤ N)%nat).
Proof.
  intros H. apply (cleaner_returns_inv Revenue) in H as (sheet & Hfs & Hty & _).
  apply typed_revenue_inv in Hty as (d & Hd & ->).
  exists sheet, d. split; [done|]. cbv zeta. split; [done|]. split; [done|]. simpl.
  assert (∀ r : list cell, Pd.row_complete r = true ↔ ∀ c, c ∈ r → isna c = false) as Hrc.
  { intros r. unfold Pd.row_complete. rewrite forallb_forall. split.
    - intros Hr c Hc%list_elem_of_In. apply Hr in Hc. by destruct (isna c).
    - intros Hr c Hc%list_elem_of_In. by rewrite (Hr c Hc). }
  split_and!.
  - intros r c [_ Hr]%elem_of_list_filter Hc. rewrite Hrc in Hr. by apply Hr.
  - intros r c _ Hc Hna [_ Hr]%elem_of_list_filter.
    rewrite Hrc in Hr. specialize (Hr c Hc). congruence.
  - intros N HN. etrans; [apply filter_length_le|].
    rewrite !length_imap, length_take, read_rows_count, HN. lia.
Qed.

(** C2. Services: a row is kept exactly when its sale price is not
    missing after numeric coercion; a kept row carries the coerced
    quantity and cost, missing where the coercion failed. *)
Theorem services_rows_follow_sale_price raw clean w df w' :
  clean_services_data pd_infer pd_to_datetime pd_to_numeric csv_text raw clean w = (Some df, w') →
  ∃ sheet d,
    fs w !! os_path_join raw "services.xlsx" = Some (Workbook sheet)
    ∧ let data := read_rows [1; 2; 3; 4; 5; 7]%nat (drop 5 sheet) in
      let q := pd_to_numeric (Pd.at_col 2 <$> data) in
      let k := pd_to_numeric (Pd.at_col 3 <$> data) in
      let s := pd_to_numeric (Pd.at_col 4 <$> data) in
      let typed_rows :=
        imap (λ i r, <[4%nat := default NaN (s !! i)]>
                       (<[3%nat := default NaN (k !! i)]>
                          (<[2%nat := default NaN (q !! i)]>
                             (<[5%nat := default NaN (d !! i)]> r)))) data in
      pd_to_datetime (Pd.at_col 5 <$> data) = Some d
      ∧ rows df = List.filter (λ r, negb (isna (Pd.at_col 4 r))) typed_rows
      ∧ ∀ i r, typed_rows !! i = Some r →
          Pd.at_col 2 r = default NaN (q !! i)
          ∧ Pd.at_col 3 r = default NaN (k !! i)
          ∧ Pd.at_col 4 r = default NaN (s !! i)
          ∧ (isna (default NaN (s !! i)) = true → r ∉ rows df)
          ∧ (isna (default NaN (s !! i)) = false → r ∈ rows df).
Proof.
  intros H. apply (cleaner_returns_inv Services) in H as (sheet & Hfs & Hty & _).
  apply typed_services_inv in Hty as (d & Hd & ->).
  exists sheet, d. split; [done|]. cbv zeta. split; [done|]. split; [done|]. simpl.
  intros i r Hi. rewrite list_lookup_imap in Hi.
  destruct (read_rows _ _ !! i) as [r0|] eqn:Hr0; [|done].
  simpl in Hi. injection Hi as <-.
  assert (length r0 = 6%nat) as Hlen.
  { eapply (read_rows_length pd_infer [1; 2; 3; 4; 5; 7]%nat), list_elem_of_lookup_2, Hr0. }
  assert (Pd.at_col 4
            (<[4%nat := default NaN (pd_to_numeric (Pd.at_col 4 <$>
                 read_rows [1; 2; 3; 4; 5; 7]%nat (drop 5 sheet)) !! i)]>
               (<[3%nat := default NaN (pd_to_numeric (Pd.at_col 3 <$>
                    read_rows [1; 2; 3; 4; 5; 7]%nat (drop 5 sheet)) !! i)]>
                  (<[2%nat := default NaN (pd_to_numeric (Pd.at_col 2 <$>
                       read_rows [1; 2; 3; 4; 5; 7]%nat (drop 5 sheet)) !! i)]>
                     (<[5%nat := default NaN (d !! i)]> r0))))
          = default NaN (pd_to_numeric (Pd.at_col 4 <$>
               read_rows [1; 2; 3; 4; 5; 7]%nat (drop 5 sheet)) !! i)) as H4.
  { rewrite at_col_insert_eq; [done|]. rewrite !length_insert. lia. }
  split_and!.
  - rewrite !at_col_insert_ne by done. rewrite at_col_insert_eq; [done|].
    rewrite !length_insert. lia.
  - rewrite !at_col_insert_ne by done. rewrite at_col_insert_eq; [done|].
    rewrite !length_insert. lia.
  - done.
  - intros Hna [_ Hr]%elem_of_list_filter. rewrite H4, Hna in Hr. done.
  - intros Hna. apply elem_of_list_filter. split.
    + eapply list_elem_of_lookup_2. rewrite list_lookup_imap, Hr0. done.
    + by rewrite H4, Hna.
Qed.

(** C3. A cleaning operation whose raw file is absent returns [None]
    (it is a function to [option]: nothing is raised), logs the warning
    and leaves the files alone; and in [main] what one report gets does
    not depend on what is at another report's raw path. *)
Theorem missing_raw_file_is_no_data r raw clean w D ts w1 w2 r' :
  fs w !! raw_path raw r = None →
  r ≠ r' →
  (∀ p, p ≠ raw_path (os_path_join D ("raw/" +:+ ts)) r' → fs w1 !! p = fs w2 !! p) →
  cleaner r raw clean w
  = (None, World (fs w) (log w ++ [(INFO, Loading (title r));
                                   (WARNING, NotFound (key r +:+ ".xlsx"))]))
  ∧ main_result r (main D ts w1).1 = main_result r (main D ts w2).1.
Proof.
  intros Habs Hr Hag. split; [|by apply (main_independent D ts w1 w2 r r')].
  rewrite cleaner_eq. cbv zeta. rewrite Habs.
  unfold emit; simpl. by rewrite <- app_assoc.
Qed.

(** C5 (as amended). In the clean clients and pets tables row [i]
    holds, in its phone column, what the code makes of the value
    [pd.read_excel] returned for the phone cell of row [i] of the sheet:
    the text of that value up to its first dot.  So a phone that is text
    in the table has no dot, a value read as ["201234567.0"] gives
    ["201234567"], and no row is lost or moved.  A missing value gives
    the text of [str(nan)] cut the same way, or stays missing, as
    [astype(str)] has it. *)
Theorem phone_is_text_before_first_dot r j raw clean w df w' :
  r = Clients ∨ r = Pets →
  phone_column r = Some j →
  cleaner r raw clean w = (Some df, w') →
  ∃ sheet,
    fs w !! raw_path raw r = Some (Workbook sheet)
    ∧ length (rows df) = length (stored_rows r sheet)
    ∧ ∀ i stored, stored_rows r sheet !! i = Some stored →
        ∃ row,
          let read := default (Pd.at_col j stored)
                        (pd_infer (Pd.at_col j <$> stored_rows r sheet) !! i) in
          rows df !! i = Some row
          ∧ Pd.at_col j row = strip_decimal read
          ∧ (∀ s, Pd.at_col j row = Str s → PyStr.has_dot s = false)
          ∧ (isna read = false ∨ na_as_text = true →
             Pd.at_col j row = Str (PyStr.before_dot (py_str repr read)))
          ∧ (isna read = false → py_str repr read = "201234567.0" →
             Pd.at_col j row = Str "201234567")
          ∧ (isna read = true → na_as_text = false → Pd.at_col j row = read).
Proof.
  intros Hr Hj H.
  apply cleaner_returns_inv in H as (sheet & Hfs & Hty & _).
  exists sheet. split; [done|].
  assert (length (rows df) = length (stored_rows r sheet)
          ∧ ∀ i stored, stored_rows r sheet !! i = Some stored →
              ∃ row, rows df !! i = Some row
                ∧ Pd.at_col j row
                  = strip_decimal
                      (default (Pd.at_col j stored)
                         (pd_infer (Pd.at_col j <$> stored_rows r sheet) !! i)))
    as [Hlen Hrows].
  { destruct Hr as [-> | ->]; simpl in Hj; simplify_eq.
    - apply typed_clients_inv in Hty as (d & _ & ->). cbn [rows stored_rows].
      split; [rewrite length_imap, read_rows_count; unfold selected;
              by rewrite length_fmap|].
      intros i stored Hi.
      destruct (decode_lookup_Some pd_infer _ i stored Hi) as (r0 & Hr0 & Hlen0 & Hat).
      assert (length stored = 5%nat) as Hlen.
      { eapply (selected_length [1; 2; 3; 4; 5]%nat), list_elem_of_lookup_2, Hi. }
      eexists. split.
      + rewrite list_lookup_imap. unfold ProcessData.read_rows. rewrite Hr0. done.
      + rewrite at_col_insert_eq by (rewrite length_insert; lia).
        rewrite Hat by lia. done.
    - apply typed_pets_inv in Hty as (d & _ & ->). cbn [rows stored_rows].
      split; [rewrite length_imap, read_rows_count; unfold selected;
              by rewrite length_fmap|].
      intros i stored Hi.
      destruct (decode_lookup_Some pd_infer _ i stored Hi) as (r0 & Hr0 & Hlen0 & Hat).
      assert (length stored = 6%nat) as Hlen.
      { eapply (selected_length [1; 2; 3; 4; 5; 7]%nat), list_elem_of_lookup_2, Hi. }
      eexists. split.
      + rewrite list_lookup_imap. unfold ProcessData.read_rows. rewrite Hr0. done.
      + rewrite at_col_insert_eq by (rewrite length_insert; lia).
        rewrite Hat by lia. done. }
  split; [done|]. intros i stored Hi.
  destruct (Hrows i stored Hi) as (row & Hrow & Hat).
  exists row. cbv zeta. split_and!; [done|done|..].
  - intros s Hs. rewrite Hat in Hs. by eapply strip_decimal_no_dot.
  - intros Hna. rewrite Hat. by apply strip_decimal_text.
  - intros Hna E. rewrite Hat, strip_decimal_text by auto. by rewrite E.
  - intros Hna Hflag. rewrite Hat. by apply strip_decimal_missing.
Qed.

(** C7. Running a cleaning operation again on what the first run left
    (same raw file, same directories) returns the same table and leaves
    every file, the CSV among them, as the first run wrote it. *)
Theorem cleaning_twice_same_output r raw clean w :
  (cleaner r raw clean (cleaner r raw clean w).2).1 = (cleaner r raw clean w).1
  ∧ fs (cleaner r raw clean (cleaner r raw clean w).2).2 = fs (cleaner r raw clean w).2.
Proof.
  pose proof (raw_path_not_clean_path raw clean r r) as HPC.
  pose proof (clean_path_not_in_chain clean r) as HC.
  destruct (cleaner_effect r raw clean w) as [E|(sheet & df & HP & Hty & Hne & Hc)].
  { by apply cleaner_fs_only. }
  assert (raw_path raw r ∉ chain clean) as HPc.
  { intros Hin. destruct (Hc _ Hin); congruence. }
  destruct (decide (fs w !! clean_path clean r = Some Dir)) as [Hd|Hd].
  - rewrite (cleaner_write_refused r raw clean w sheet df) by done. simpl.
    rewrite (cleaner_write_refused r raw clean _ sheet df); simpl.
    + by rewrite make_dirs_twice.
    + by rewrite lookup_make_dirs_notin.
    + done.
    + done.
    + intros p Hp. right. by apply lookup_make_dirs_in.
    + by rewrite lookup_make_dirs_notin.
  - destruct (cleaner_success r raw clean w sheet df) as [E1 E2]; [done..|].
    destruct (cleaner_success r raw clean (cleaner r raw clean w).2 sheet df)
      as [E3 E4].
    + rewrite E2, lookup_insert_ne by done. by rewrite lookup_make_dirs_notin.
    + done.
    + done.
    + intros p Hp. right. rewrite E2, lookup_insert_ne by (by intros <-).
      by apply lookup_make_dirs_in.
    + by rewrite E2, lookup_insert_eq.
    + rewrite E3, E1. split; [done|].
      rewrite E4, E2, make_dirs_insert, make_dirs_twice by done.
      by rewrite insert_insert_eq.
Qed.

(** C8 (as amended). Once the sheet is read and typed, the operation
    either writes the CSV and returns the table, the file being in
    place when it returns, or, when the directory or the file cannot be
    written, logs a warning or an error, raises nothing, writes no CSV
    and returns [None]. *)
Theorem persistence_failure_gives_no_data r raw clean w sheet df :
  fs w !! raw_path raw r = Some (Workbook sheet) →
  typed r sheet = Ok df →
  let out := cleaner r raw clean w in
  (out.1 = Some df
   ∧ fs out.2 !! clean_path clean r = Some (Blob (csv_text df))
   ∧ log out.2 = log w ++ [(INFO, Loading (title r));
                           (INFO, Loaded (title r) (Pd.shape df))])
  ∨ (out.1 = None
     ∧ fs out.2 !! clean_path clean r = fs w !! clean_path clean r
     ∧ ∃ lvl msg, lvl ≠ INFO
         ∧ log out.2 = log w ++ [(INFO, Loading (title r)); (lvl, msg)]).
Proof.
  intros HP Hty out. pose proof (clean_path_not_in_chain clean r) as Hd. subst out.
  destruct (makedirs_on clean (fs w)) as [f1|e] eqn:Hm.
  - apply makedirs_on_inv in Hm as (Hne & Hfree & ->).
    destruct (decide (fs w !! clean_path clean r = Some Dir)) as [HD|HD].
    + right. rewrite (cleaner_write_refused r raw clean w sheet df) by done. simpl.
      split_and!; [done | by rewrite lookup_make_dirs_notin
                  | by exists ERROR, (ErrorLoading (key r) IsADirectoryError)].
    + left. destruct (cleaner r raw clean w) as [o w'] eqn:E.
      destruct (cleaner_success r raw clean w sheet df) as [Ho Hf]; [done..|].
      rewrite E in Ho, Hf. simpl in Ho, Hf. subst o.
      apply cleaner_returns_inv in E as (? & _ & _ & Hfs & Hlog & _). simpl.
      split_and!; [done | by rewrite Hfs, lookup_insert_eq | done].
  - right. rewrite cleaner_eq. cbv zeta. rewrite HP, Hty, Hm.
    apply makedirs_on_Raise in Hm as [[-> _]|(_ & He & _)].
    + simpl. split_and!; [done..|]. exists WARNING, (NotFound (key r +:+ ".xlsx")).
      split; [done|]. by rewrite <- app_assoc.
    + destruct He as [-> | ->]; simpl; (split_and!; [done..|]);
        eexists ERROR, _; (split; [done|]); by rewrite <- app_assoc.
Qed.

(** *** More on the normalizer *)

Lemma typed_layout r sheet df :
  typed r sheet = Ok df →
  columns df = Layout.schema r
  ∧ (∀ row, row ∈ rows df → length row = length (Layout.schema r))
  ∧ (r = Clients ∨ r = Pets → length (rows df) = length (input_rows r sheet)).
Proof.
  intros H. destruct r; simpl in H.
  - apply typed_clients_inv in H as (d & _ & ->). simpl. split_and!; [done| |].
    + intros row (i & r0 & -> & Hr0)%elem_of_lookup_imap.
      rewrite !length_insert.
      eapply (read_rows_length pd_infer [1; 2; 3; 4; 5]%nat), list_elem_of_lookup_2, Hr0.
    + intros _. by rewrite length_imap.
  - apply typed_pets_inv in H as (d & _ & ->). simpl. split_and!; [done| |].
    + intros row (i & r0 & -> & Hr0)%elem_of_lookup_imap.
      rewrite !length_insert.
      eapply (read_rows_length pd_infer [1; 2; 3; 4; 5; 7]%nat), list_elem_of_lookup_2, Hr0.
    + intros _. by rewrite length_imap.
  - apply typed_services_inv in H as (d & _ & ->). simpl. split_and!; [done| |].
    + intros row [(i & r0 & -> & Hr0)%elem_of_lookup_imap _]%elem_of_list_filter.
      rewrite !length_insert.
      eapply (read_rows_length pd_infer [1; 2; 3; 4; 5; 7]%nat), list_elem_of_lookup_2, Hr0.
    + by intros [?|?].
  - apply typed_revenue_inv in H as (d & _ & ->). simpl. split_and!; [done| |].
    + intros row [(i & r1 & -> & Hr1)%elem_of_lookup_imap _]%elem_of_list_filter.
      rewrite list_lookup_imap in Hr1.
      destruct (take _ _ !! i) as [r0|] eqn:Hr0; [|done].
      simpl in Hr1. injection Hr1 as <-.
      apply lookup_take_Some in Hr0 as [Hr0 _].
      rewrite !length_insert.
      eapply (read_rows_length pd_infer [1; 2; 3; 4; 5; 6; 7; 8; 10; 11]%nat),
        list_elem_of_lookup_2, Hr0.
    + by intros [?|?].
Qed.

(** X1. A table that a cleaning operation returns has the columns of its
    report, in order, and every row has one value per column. *)
Theorem clean_table_has_schema r raw clean w df w' :
  cleaner r raw clean w = (Some df, w') →
  columns df = Layout.schema r
  ∧ ∀ row, row ∈ rows df → length row = length (columns df).
Proof.
  intros (sheet & _ & Hty & _)%cleaner_returns_inv.
  apply typed_layout in Hty as (Hc & Hr & _). rewrite Hc. by split.
Qed.

(** X2. Clients and pets lose no row: the table has one row for each
    row of the sheet after the skipped ones, the row that names the
    columns of the clients sheet not counted. *)
Theorem clients_and_pets_keep_every_row r raw clean w df w' :
  r = Clients ∨ r = Pets →
  cleaner r raw clean w = (Some df, w') →
  ∃ sheet,
    fs w !! raw_path raw r = Some (Workbook sheet)
    ∧ length (rows df)
      = (length sheet - Layout.skiprows r - (if Layout.header r then 1 else 0))%nat.
Proof.
  intros Hr (sheet & Hfs & Hty & _)%cleaner_returns_inv.
  exists sheet. split; [done|].
  apply typed_layout in Hty as (_ & _ & Hlen). rewrite (Hlen Hr).
  destruct Hr as [-> | ->]; simpl;
    rewrite read_rows_count, ?length_drop; lia.
Qed.

(** Reading a readable sheet gives the data rows. *)
Lemma parse_readable r sheet :
  Layout.readable r sheet = true →
  parse_sheet sheet (Layout.skiprows r) (Layout.header r) (Layout.usecols r)
  = Ok (DataFrame (pretty <$> Layout.usecols r) (input_rows r sheet)).
Proof.
  unfold Layout.readable. intros [Hne Hw]%andb_true_iff.
  apply negb_true_iff, bool_decide_eq_false in Hne.
  unfold parse_sheet. rewrite Hw.
  destruct (drop (Layout.skiprows r) sheet) as [|r0 body] eqn:E; [done|].
  destruct r; simpl in *; by rewrite E.
Qed.

(** The typed frame of a readable sheet, by what [pd.to_datetime] says. *)
Lemma typed_readable r sheet :
  Layout.readable r sheet = true →
  match pd_to_datetime
          (Pd.at_col (Layout.date_position r) <$> Layout.dated_rows pd_infer r sheet) with
  | None => typed r sheet = Raise DateParseError
  | Some _ => ∃ df, typed r sheet = Ok df
  end.
Proof.
  intros Hr. pose proof (parse_readable r sheet Hr) as Hp.
  destruct r; simpl in Hp |- *.
  - unfold typed_clients. rewrite Hp.
    unfold with_phone, with_dates, mbind, result_bind; simpl.
    destruct (pd_to_datetime _); simpl; eauto.
  - unfold typed_pets. rewrite Hp.
    unfold with_phone, with_dates, mbind, result_bind; simpl.
    destruct (pd_to_datetime _); simpl; eauto.
  - unfold typed_services. rewrite Hp.
    unfold with_numeric, with_dates, mbind, result_bind; simpl.
    destruct (pd_to_datetime _); simpl; eauto.
  - unfold typed_revenue. rewrite Hp.
    unfold with_phone, with_dates, Pd.iloc_drop_last, mbind, result_bind; simpl.
    rewrite imap_column_fmap.
    rewrite (column_unchanged 0) by (intros; by rewrite at_col_insert_ne).
    destruct (pd_to_datetime _); simpl; eauto.
Qed.

(** X3. One date that [pd.to_datetime] refuses loses the whole report:
    on a readable sheet the operation returns [None], logs the error and
    neither creates the clean directory nor writes a CSV. *)
Theorem unparseable_date_loses_report r raw clean w sheet :
  fs w !! raw_path raw r = Some (Workbook sheet) →
  Layout.readable r sheet = true →
  pd_to_datetime (Pd.at_col (Layout.date_position r) <$> Layout.dated_rows pd_infer r sheet)
  = None →
  cleaner r raw clean w
  = (None, World (fs w) (log w ++ [(INFO, Loading (title r));
                                   (ERROR, ErrorLoading (key r) DateParseError)])).
Proof.
  intros Hfs Hr Hd. pose proof (typed_readable r sheet Hr) as Hty. rewrite Hd in Hty.
  rewrite cleaner_eq. cbv zeta. rewrite Hfs, Hty.
  unfold emit; simpl. by rewrite <- app_assoc.
Qed.

(** X4. A readable sheet whose dates parse is cleaned: when nothing but
    directories is on the way to the clean directory, and no directory
    is in the way of the CSV, the operation returns a table, the CSV
    holds it, and the clean directory is there with all that is above
    it. *)
Theorem readable_sheet_is_cleaned r raw clean w sheet d :
  fs w !! raw_path raw r = Some (Workbook sheet) →
  Layout.readable r sheet = true →
  pd_to_datetime (Pd.at_col (Layout.date_position r) <$> Layout.dated_rows pd_infer r sheet)
  = Some d →
  clean ≠ "" →
  (∀ p, p ∈ chain clean → fs w !! p = None ∨ fs w !! p = Some Dir) →
  fs w !! clean_path clean r ≠ Some Dir →
  ∃ df,
    (cleaner r raw clean w).1 = Some df
    ∧ fs (cleaner r raw clean w).2 !! clean_path clean r = Some (Blob (csv_text df))
    ∧ ∀ p, p ∈ chain clean → fs (cleaner r raw clean w).2 !! p = Some Dir.
Proof.
  intros Hfs Hr Hd Hne Hc HC. pose proof (typed_readable r sheet Hr) as Hty.
  rewrite Hd in Hty. destruct Hty as [df Hty].
  destruct (cleaner_success r raw clean w sheet df) as [Hres Hfs']; [done..|].
  exists df. split; [done|]. rewrite Hfs'. split.
  - by rewrite lookup_insert_eq.
  - intros p Hp. rewrite lookup_insert_ne, lookup_make_dirs_in; [done..|].
    intros <-. by apply clean_path_not_in_chain in Hp.
Qed.

(** X25. A file on the way to the clean directory loses the report: the
    sheet is read and typed, [os.makedirs] refuses, and the operation
    returns [None] with one error record; no directory is created and no
    CSV written. *)
Theorem file_on_the_way_loses_report r raw clean w sheet df p n :
  fs w !! raw_path raw r = Some (Workbook sheet) →
  typed r sheet = Ok df →
  clean ≠ "" →
  p ∈ chain clean →
  fs w !! p = Some n → n ≠ Dir →
  ∃ e, (e = NotADirectoryError ∨ e = FileExistsError)
       ∧ cleaner r raw clean w
         = (None, World (fs w)
                    (log w ++ [(INFO, Loading (title r));
                               (ERROR, ErrorLoading (key r) e)])).
Proof.
  intros HP Hty Hne Hp Hn Hd.
  apply (cleaner_mkdir_refused r raw clean w sheet df p); try done.
  unfold blocked. rewrite Hn. by destruct n.
Qed.

(** X5. Unless the sheet was read and typed, the operation returns
    [None] and leaves the file system exactly as it was. *)
Theorem nothing_written_unless_typed r raw clean w :
  (∀ sheet df, fs w !! raw_path raw r = Some (Workbook sheet) → typed r sheet ≠ Ok df) →
  (cleaner r raw clean w).1 = None ∧ fs (cleaner r raw clean w).2 = fs w.
Proof.
  intros Hno. rewrite cleaner_eq. cbv zeta.
  destruct (fs w !! raw_path raw r) as [[|sheet|]|] eqn:Hfs; try done.
  destruct (typed r sheet) as [df|e] eqn:Hty.
  - by destruct (Hno sheet df).
  - by destruct e.
Qed.


(** X7. A revenue sheet with nothing but the footer (at most two rows
    after the skipped ones) gives a table with no rows, not [None],
    when nothing but directories is on the way to the clean directory
    and no directory is in the way of the CSV. *)
Theorem revenue_footer_only_is_empty_table raw clean w sheet d :
  fs w !! os_path_join raw "revenue.xlsx" = Some (Workbook sheet) →
  Layout.readable Revenue sheet = true →
  (length (drop 5 sheet) ≤ 2)%nat →
  pd_to_datetime [] = Some d →
  clean ≠ "" →
  (∀ p, p ∈ chain clean → fs w !! p = None ∨ fs w !! p = Some Dir) →
  fs w !! os_path_join clean "revenue.csv" ≠ Some Dir →
  (clean_revenue_data pd_infer pd_to_datetime na_as_text repr csv_text raw clean w).1
  = Some (DataFrame (Layout.schema Revenue) []).
Proof.
  intros Hfs Hr Hlen Hd Hne Hc HC. pose proof (typed_readable Revenue sheet Hr) as Hty.
  assert (Layout.dated_rows pd_infer Revenue sheet = []) as Hrows.
  { unfold Layout.dated_rows, ProcessData.input_rows.
    rewrite read_rows_count. replace (length (drop 5 sheet) - 2)%nat with 0%nat by lia. done. }
  rewrite Hrows in Hty. simpl in Hty. rewrite Hd in Hty. destruct Hty as [df Hty].
  destruct (cleaner_success Revenue raw clean w sheet df) as [Hres _]; [done..|].
  simpl in Hres. rewrite Hres. f_equal.
  simpl in Hty. apply typed_revenue_inv in Hty as (d' & _ & ->). simpl. f_equal.
  rewrite read_rows_count.
  replace (length (drop 5 sheet) - 2)%nat with 0%nat by lia. done.
Qed.

(** X8. Without the day's raw directory [main] raises
    [FileNotFoundError] after two log records; no cleaning operation has
    run and no file is touched. *)
Theorem main_without_raw_directory D ts w :
  fs w !! os_path_join D ("raw/" +:+ ts) = None →
  main D ts w
  = (Raise FileNotFoundError,
     World (fs w)
       (log w ++ [(ERROR, DirectoryNotFound (os_path_join D ("raw/" +:+ ts)));
                  (INFO, RunFetchFirst)])).
Proof.
  intros Hno. unfold main, ProcessData.main, mbind, M_bind, os_path_exists; simpl.
  rewrite Hno. rewrite bool_decide_eq_false_2 by (by intros [? ?]). simpl.
  unfold emit; simpl. by rewrite <- app_assoc.
Qed.

(** X9. With the raw directory in place [main] does not raise, whatever
    the raw files are: it returns the four results in the order clients,
    pets, services, revenue, inventory and expenses always [None], and
    its last ten log records say which of the four returned a table. *)
Theorem main_returns_with_summary D ts w :
  is_Some (fs w !! os_path_join D ("raw/" +:+ ts)) →
  ∃ c p s v w' before,
    main D ts w = (Ok (c, p, s, v, None, None), w')
    ∧ log w' = before ++ Layout.summary c p s v.
Proof.
  intros Hdir.
  cbv [ProcessData.main print_loading_summary mbind M_bind mret M_ret os_path_exists
       call lift logger_info logger_error].
  rewrite bool_decide_eq_true_2 by done. cbv [negb].
  eexists _, _, _, _, _, _. split; [reflexivity|].
  cbv [emit log].
  etrans; [rewrite <- !app_assoc; reflexivity|].
  apply (f_equal (app _)). cbv [app Layout.summary].
  repeat match goal with
         | |- context [bool_decide (?x ≠ None)] =>
             replace (bool_decide (x ≠ None)) with (bool_decide (is_Some x))
               by (apply bool_decide_ext; rewrite is_Some_alt; by destruct x)
         end.
  rewrite !(bool_decide_eq_true_2 (@None dataframe = None)) by done.
  reflexivity.
Qed.

End Normalizer.


(** ** The vendor client *)

Section VendorClient.
Import IngestData.
Context (requests_get : request → result response).

Local Abbreviation fetch_data := (fetch_data requests_get).

Lemma lookup_endpoint_None key table :
  lookup_endpoint key table = None ↔ key ∉ table.*1.
Proof.
  induction table as [|[k c] table IH]; simpl.
  - split; [intros _; apply not_elem_of_nil|done].
  - rewrite not_elem_of_cons. destruct (decide (k = key)) as [->|Hk].
    + split; [done|]. by intros [? _].
    + rewrite IH. split; [by intros ?; split; [congruence|] | by intros [_ ?]].
Qed.

Lemma dict_get_set k k' v d :
  dict_get k (dict_set k' v d) = if decide (k' = k) then Some v else dict_get k d.
Proof.
  induction d as [|[k0 v0] d IH]; simpl.
  - done.
  - destruct (decide (k0 = k')) as [->|H0]; simpl.
    + destruct (decide (k' = k)); done.
    + destruct (decide (k0 = k)) as [->|H1].
      * by destruct (decide (k' = k)); [congruence|].
      * done.
Qed.

Lemma dict_get_absent k (d : pydict) : k ∉ d.*1 → dict_get k d = None.
Proof.
  induction d as [|[k0 v0] d IH]; simpl; [done|].
  rewrite not_elem_of_cons. intros [H0 H1].
  destruct (decide (k0 = k)); [congruence|]. by apply IH.
Qed.

(** [update]: the keys of the argument win, the other keys stay. *)
Lemma dict_get_update k d e :
  NoDup e.*1 →
  dict_get k (dict_update d e)
  = match dict_get k e with Some v => Some v | None => dict_get k d end.
Proof.
  unfold dict_update. revert d.
  induction e as [|[k0 v0] e IH]; intros d Hnd; simpl; [done|].
  apply NoDup_cons in Hnd as [Hk0 Hnd].
  rewrite IH by done. rewrite dict_get_set. simpl.
  destruct (decide (k0 = k)) as [->|Hk]; [|done].
  by rewrite dict_get_absent.
Qed.

(** *** The heap under the client's steps *)

Lemma alloc_inv d s l s' :
  alloc d s = (l, s') →
  (l ∉ dom (heap s)) ∧ heap s' = <[l := d]> (heap s) ∧ sent s' = sent s.
Proof.
  unfold alloc. intros [= <- <-]. split; [apply is_fresh|done].
Qed.

Lemma heap_mutate l f s : heap (mutate l f s) = <[l := f (deref l s)]> (heap s).
Proof. done. Qed.

Lemma sent_mutate l f s : sent (mutate l f s) = sent s.
Proof. done. Qed.

(** The parameters are copied and updated, the headers are copied and
    changed: both at new addresses, so what was on the heap stays. *)
Lemma prepared_heap defaults dyn s l1 s1 s2 l2 s3 f g :
  alloc defaults s = (l1, s1) →
  heap s2 = heap (mutate l1 (λ d, dict_update d dyn) s1) →
  sent s2 = sent s1 →
  dict_copy HEADERS s2 = (l2, s3) →
  let s4 := mutate l2 g (mutate l2 f s3) in
  deref l1 s4 = dict_update defaults dyn
  ∧ sent s4 = sent s
  ∧ (∀ l, l ∈ dom (heap s) → heap s4 !! l = heap s !! l).
Proof.
  intros (Hl1 & Hh1 & Hs1)%alloc_inv Hh2 Hs2 (Hl2 & Hh3 & Hs3)%alloc_inv s4.
  assert (deref l1 s1 = defaults) as Hd1.
  { unfold deref. by rewrite Hh1, lookup_insert_eq. }
  rewrite heap_mutate, Hd1, Hh1, insert_insert_eq in Hh2.
  assert (l2 ≠ l1) as Hne.
  { intros ->. apply Hl2. rewrite Hh2, dom_insert_L. set_solver. }
  assert (∀ l, l ≠ l2 → heap s4 !! l = heap s2 !! l) as Hother.
  { intros l Hl. subst s4. rewrite !heap_mutate, Hh3.
    by rewrite !lookup_insert_ne by done. }
  split_and!.
  - unfold deref. rewrite Hother by done. by rewrite Hh2, lookup_insert_eq.
  - subst s4. by rewrite !sent_mutate, Hs3, Hs2, Hs1.
  - intros l Hin. rewrite Hother.
    + rewrite Hh2, lookup_insert_ne; [done|]. by intros ->.
    + intros ->. apply Hl2. rewrite Hh2, dom_insert_L. set_solver.
Qed.

(** What a fetch on a configured endpoint does: one request, with the
    merged parameters, and the answer sorted by the code's three tests. *)
Lemma fetch_data_configured token key dyn s config :
  lookup_endpoint key ENDPOINTS = Some config →
  let out := fetch_data token key dyn s in
  let defaults := match params config with Some l => deref l s | None => [] end in
  ∃ req,
    sent out.2 = sent s ++ [req]
    ∧ url req = endpoint config
    ∧ req_params req = dict_update defaults dyn
    ∧ (∀ l, l ∈ dom (heap s) → heap out.2 !! l = heap s !! l)
    ∧ out.1 = match requests_get req with
              | Raise _ => None
              | Ok resp =>
                  if decide (status_code resp = 200) then
                    if PyStr.startswith "PK" (content resp)
                    then Some (FilePackage (content resp))
                    else if PyStr.contains "json"
                              (headers_get "Content-Type" "" (headers resp))
                    then JsonPackage <$> json_body resp
                    else Some (FilePackage (content resp))
                  else None
              end.
Proof.
  intros Hcfg out defaults. subst out. unfold fetch_data, IngestData.fetch_data.
  rewrite Hcfg.
  assert (match params config with
          | Some l => dict_copy l s
          | None => alloc [] s
          end = alloc defaults s) as ->.
  { subst defaults. by destruct (params config). }
  destruct (alloc defaults s) as [l1 s1] eqn:E1. cbv beta iota zeta.
  set (s2 := emit INFO (Params _) _).
  destruct (dict_copy HEADERS s2) as [l2 s3] eqn:E2. cbv beta iota.
  destruct (prepared_heap defaults dyn s l1 s1 s2 l2 s3
              (dict_set "Authorization" ("Bearer " +:+ token))
              (dict_pop "Content-Type") E1 eq_refl eq_refl E2) as (Hp & Hs & Hf).
  set (s4 := mutate l2 _ (mutate l2 _ s3)) in *.
  rewrite Hp. unfold send. cbv beta iota.
  set (req := Request (endpoint config) (deref l2 s4) (dict_update defaults dyn)).
  exists req.
  assert (∀ (o : option package) s5,
            heap s5 = heap s4 → sent s5 = sent s4 ++ [req] →
            sent (o, s5).2 = sent s ++ [req]
            ∧ url req = endpoint config
            ∧ req_params req = dict_update defaults dyn
            ∧ (∀ l, l ∈ dom (heap s) → heap (o, s5).2 !! l = heap s !! l)
            ∧ (o, s5).1 = o) as Hparts.
  { intros o s5 Hh5 Hs5. split_and!; try reflexivity.
    - simpl. by rewrite Hs5, Hs.
    - intros l Hl. simpl. rewrite Hh5. by apply Hf. }
  destruct (requests_get req) as [resp|e]; [|by apply Hparts].
  destruct (decide (status_code resp = 200)); [|by apply Hparts].
  destruct (PyStr.startswith "PK" (content resp)); [by apply Hparts|].
  destruct (PyStr.contains "json" _); [|by apply Hparts].
  destruct (json_body resp); by apply Hparts.
Qed.

(** *** The claims about the client *)

(** C4 (as amended). For a configured endpoint and an answer with
    status 200: a body that starts with [PK] is a file payload whatever
    the declared type; otherwise, when the declared type contains
    [json], the payload is the decoded body, and there is no payload when
    the body does not decode; every other answer is a file payload. *)
Theorem ok_response_classification token key dyn s config req resp :
  lookup_endpoint key ENDPOINTS = Some config →
  last (sent (fetch_data token key dyn s).2) = Some req →
  requests_get req = Ok resp →
  status_code resp = 200 →
  (fetch_data token key dyn s).1
  = if PyStr.startswith "PK" (content resp)
    then Some (FilePackage (content resp))
    else if PyStr.contains "json" (headers_get "Content-Type" "" (headers resp))
         then JsonPackage <$> json_body resp
         else Some (FilePackage (content resp)).
Proof.
  intros Hcfg Hlast Hget Hst.
  destruct (fetch_data_configured token key dyn s config Hcfg)
    as (req' & Hsent & _ & _ & _ & Hout).
  rewrite Hsent, last_snoc in Hlast. injection Hlast as ->.
  rewrite Hout, Hget. by destruct (decide (status_code resp = 200)).
Qed.

(** C9. For a configured endpoint the fetch sends one request, to the
    endpoint's URL, whose parameters are the endpoint's defaults updated
    with the caller's: a key the caller gives has the caller's value,
    any other key its default; and every dictionary that was on the heap,
    the stored defaults among them, is as it was. *)
Theorem fetch_params_are_defaults_updated token key dyn s config :
  lookup_endpoint key ENDPOINTS = Some config →
  NoDup dyn.*1 →
  ∃ req,
    sent (fetch_data token key dyn s).2 = sent s ++ [req]
    ∧ url req = endpoint config
    ∧ (∀ k, dict_get k (req_params req)
            = match dict_get k dyn with
              | Some v => Some v
              | None => dict_get k (match params config with
                                    | Some l => deref l s
                                    | None => []
                                    end)
              end)
    ∧ (∀ l, l ∈ dom (heap s) → heap (fetch_data token key dyn s).2 !! l = heap s !! l).
Proof.
  intros Hcfg Hnd.
  destruct (fetch_data_configured token key dyn s config Hcfg)
    as (req & Hsent & Hurl & Hpar & Hframe & _).
  exists req. split_and!; [done|done| |done].
  intros k. rewrite Hpar. by apply dict_get_update.
Qed.

(** C10. For a key that is not in [ENDPOINTS] the fetch returns [None],
    logs the error and sends nothing, whatever the token and the
    parameters. *)
Theorem unknown_endpoint_sends_nothing token key dyn s :
  key ∉ ENDPOINTS.*1 →
  fetch_data token key dyn s = (None, emit ERROR (EndpointNotFound key) s)
  ∧ sent (fetch_data token key dyn s).2 = sent s
  ∧ heap (fetch_data token key dyn s).2 = heap s.
Proof.
  intros Hkey%lookup_endpoint_None.
  unfold fetch_data, IngestData.fetch_data. by rewrite Hkey.
Qed.

(** *** More on the client *)

Lemma dict_set_keys_NoDup k v (d : pydict) : NoDup d.*1 → NoDup (dict_set k v d).*1.
Proof.
  induction d as [|[k0 v0] d IH]; simpl.
  - intros _. apply NoDup_singleton.
  - intros [Hk0 Hd]%NoDup_cons. destruct (decide (k0 = k)) as [->|Hne]; simpl.
    + by apply NoDup_cons.
    + apply NoDup_cons. split; [|by apply IH].
      intros Hin. apply Hk0. clear -Hin Hne.
      induction d as [|[k1 v1] d IH]; simpl in *.
      * apply list_elem_of_singleton in Hin. congruence.
      * destruct (decide (k1 = k)) as [->|]; simpl in *; [done|].
        apply elem_of_cons in Hin as [->|Hin]; [by left|]. right. by apply IH.
Qed.

Lemma dict_get_pop k k' (d : pydict) :
  NoDup d.*1 →
  dict_get k (dict_pop k' d) = if decide (k' = k) then None else dict_get k d.
Proof.
  induction d as [|[k0 v0] d IH]; simpl.
  - intros _. by destruct (decide (k' = k)).
  - intros [Hk0 Hd]%NoDup_cons. destruct (decide (k0 = k')) as [->|Hne].
    + destruct (decide (k' = k)) as [->|]; [by apply dict_get_absent|done].
    + simpl. destruct (decide (k0 = k)) as [->|].
      * by destruct (decide (k' = k)); [congruence|].
      * by apply IH.
Qed.

(** The headers of the request, when [HEADERS] is on the heap. *)
Lemma fetch_data_headers token key dyn s config h :
  lookup_endpoint key ENDPOINTS = Some config →
  heap s !! HEADERS = Some h →
  ∃ req,
    sent (fetch_data token key dyn s).2 = sent s ++ [req]
    ∧ req_headers req
      = dict_pop "Content-Type" (dict_set "Authorization" ("Bearer " +:+ token) h).
Proof.
  intros Hcfg Hh. unfold fetch_data, IngestData.fetch_data. rewrite Hcfg.
  set (defaults := match params config with Some l => deref l s | None => [] end).
  assert (match params config with
          | Some l => dict_copy l s
          | None => alloc [] s
          end = alloc defaults s) as ->.
  { subst defaults. by destruct (params config). }
  destruct (alloc defaults s) as [l1 s1] eqn:E1. cbv beta iota zeta.
  set (s2 := emit INFO (Params _) _).
  destruct (dict_copy HEADERS s2) as [l2 s3] eqn:E2. cbv beta iota.
  destruct (prepared_heap defaults dyn s l1 s1 s2 l2 s3
              (dict_set "Authorization" ("Bearer " +:+ token))
              (dict_pop "Content-Type") E1 eq_refl eq_refl E2) as (_ & Hs & _).
  assert (deref HEADERS s2 = h) as Hd2.
  { apply alloc_inv in E1 as (Hl1 & Hh1 & _).
    assert (l1 ≠ HEADERS) as Hne by (intros ->; apply Hl1, elem_of_dom; eauto).
    unfold deref at 1.
    change (heap s2) with (heap (mutate l1 (λ d, dict_update d dyn) s1)).
    rewrite heap_mutate, lookup_insert_ne by exact Hne.
    rewrite Hh1, lookup_insert_ne by exact Hne.
    exact (f_equal (default []) Hh). }
  assert (deref l2 (mutate l2 (dict_pop "Content-Type")
                     (mutate l2 (dict_set "Authorization" ("Bearer " +:+ token)) s3))
          = dict_pop "Content-Type" (dict_set "Authorization" ("Bearer " +:+ token) h))
    as Hd4.
  { apply alloc_inv in E2 as (_ & Hh3 & _). unfold deref at 1.
    rewrite heap_mutate, lookup_insert_eq. simpl. f_equal.
    unfold deref at 1. rewrite heap_mutate, lookup_insert_eq. simpl. f_equal.
    unfold deref. by rewrite Hh3, lookup_insert_eq, Hd2. }
  set (s4 := mutate l2 _ (mutate l2 _ s3)) in *.
  rewrite Hd4. clearbody s4. unfold send. cbv beta iota.
  exists (Request (endpoint config)
            (dict_pop "Content-Type" (dict_set "Authorization" ("Bearer " +:+ token) h))
            (deref l1 s4)).
  split; [|reflexivity].
  destruct (requests_get _) as [resp|e]; [|simpl; by rewrite Hs].
  destruct (decide (status_code resp = 200)); [|simpl; by rewrite Hs].
  destruct (PyStr.startswith "PK" (content resp)); [simpl; by rewrite Hs|].
  destruct (PyStr.contains "json" _); [|simpl; by rewrite Hs].
  destruct (json_body resp); simpl; by rewrite Hs.
Qed.

(** X10. The request of a fetch carries [Authorization: Bearer <token>]
    and no [Content-Type]; its other headers are those of [HEADERS],
    which itself stays as it was. *)
Theorem fetch_headers_carry_token token key dyn s config h :
  lookup_endpoint key ENDPOINTS = Some config →
  heap s !! HEADERS = Some h →
  NoDup h.*1 →
  ∃ req,
    sent (fetch_data token key dyn s).2 = sent s ++ [req]
    ∧ dict_get "Authorization" (req_headers req) = Some ("Bearer " +:+ token)
    ∧ dict_get "Content-Type" (req_headers req) = None
    ∧ (∀ k, k ≠ "Authorization" → k ≠ "Content-Type" →
            dict_get k (req_headers req) = dict_get k h)
    ∧ heap (fetch_data token key dyn s).2 !! HEADERS = Some h.
Proof.
  intros Hcfg Hh Hnd.
  destruct (fetch_data_headers token key dyn s config h Hcfg Hh) as (req & Hsent & Hreq).
  destruct (fetch_data_configured token key dyn s config Hcfg) as (_ & _ & _ & _ & Hframe & _).
  exists req. rewrite Hreq.
  pose proof (dict_set_keys_NoDup "Authorization" ("Bearer " +:+ token) h Hnd) as Hnd'.
  split_and!.
  - done.
  - rewrite dict_get_pop, dict_get_set by done. done.
  - rewrite dict_get_pop by done. done.
  - intros k Hk1 Hk2. rewrite dict_get_pop, dict_get_set by done.
    destruct (decide ("Content-Type" = k)); [congruence|].
    destruct (decide ("Authorization" = k)); [congruence|done].
  - rewrite Hframe; [done|]. apply elem_of_dom. eauto.
Qed.

(** X11. A payload comes from an answer with status 200 only, and a file
    payload is the body of that answer, byte for byte. *)
Theorem payload_only_from_ok_response token key dyn s p :
  (fetch_data token key dyn s).1 = Some p →
  ∃ req resp,
    last (sent (fetch_data token key dyn s).2) = Some req
    ∧ requests_get req = Ok resp
    ∧ status_code resp = 200
    ∧ match p with
      | FilePackage bytes => bytes = content resp
      | JsonPackage data => json_body resp = Some data
      end.
Proof.
  intros Hp.
  destruct (lookup_endpoint key ENDPOINTS) as [config|] eqn:Hcfg.
  2: { unfold fetch_data, IngestData.fetch_data in Hp. by rewrite Hcfg in Hp. }
  destruct (fetch_data_configured token key dyn s config Hcfg)
    as (req & Hsent & _ & _ & _ & Hout).
  rewrite Hout in Hp. exists req.
  destruct (requests_get req) as [resp|e]; [|done].
  exists resp. rewrite Hsent, last_snoc.
  destruct (decide (status_code resp = 200)); [|done].
  split_and!; [done..|].
  destruct (PyStr.startswith "PK" (content resp)); [by injection Hp as <-|].
  destruct (PyStr.contains "json" _); [|by injection Hp as <-].
  destruct (json_body resp); [by injection Hp as <-|done].
Qed.

End VendorClient.

(** ** The date filter *)

Section DateFilter.
Import Dashboard.
Context (from_date to_date : Z).

Lemma col_index_elem_of name cols : name ∈ cols → is_Some (Pd.col_index name cols).
Proof.
  induction cols as [|c cols IH]; [by intros ?%elem_of_nil|].
  intros [<-|Hin]%elem_of_cons; simpl.
  - destruct (decide (name = name)); [by eexists|done].
  - destruct (decide (c = name)); [by eexists|].
    destruct (IH Hin) as [j ->]. by eexists.
Qed.

Lemma zip_with_fmap_same {A} (f g : A → bool) (l : list A) :
  zip_with andb (f <$> l) (g <$> l) = (λ x, f x && g x) <$> l.
Proof.
  induction l as [|x l IH]; [done|].
  rewrite !fmap_cons. cbn [zip_with]. by rewrite IH.
Qed.

Lemma in_range_spec c :
  in_range from_date to_date c = true
  ↔ ∃ d, date_of c = Some d ∧ from_date ≤ d ≤ to_date.
Proof.
  unfold in_range. destruct (date_of c) as [d|].
  - rewrite andb_true_iff, !Z.leb_le. split.
    + intros [? ?]. by exists d.
    + intros (d' & [= <-] & ? & ?). done.
  - split; [done|]. by intros (d & ? & _).
Qed.

(** C6. On a table whose date column is a datetime column the filter
    returns: the table itself when it is empty or has no such column;
    otherwise the same columns and, in order, exactly the rows with a
    date [d] such that [from_date <= d <= to_date]. *)
Theorem date_filter_is_inclusive df date_col :
  (∀ j r, Pd.col_index date_col (columns df) = Some j → r ∈ rows df →
          datetimelike (Pd.at_col j r) = true) →
  ∃ out,
    filter_df from_date to_date df date_col = Ok out
    ∧ (Pd.empty df = true ∨ date_col ∉ columns df → out = df)
    ∧ (Pd.empty df = false → ∀ j, Pd.col_index date_col (columns df) = Some j →
         columns out = columns df
         ∧ rows out = List.filter (λ r, in_range from_date to_date (Pd.at_col j r)) (rows df)
         ∧ ∀ r, r ∈ rows out
                ↔ r ∈ rows df
                  ∧ ∃ d, date_of (Pd.at_col j r) = Some d ∧ from_date ≤ d ≤ to_date).
Proof.
  intros Hdt. unfold filter_df.
  destruct (Pd.empty df) eqn:He; simpl.
  { exists df. split_and!; done. }
  destruct (bool_decide (date_col ∈ columns df)) eqn:Hc; simpl.
  2: { exists df. apply bool_decide_eq_false in Hc.
       split_and!; [done|done|]. intros _ j Hj.
       destruct Hc. clear -Hj. revert j Hj.
       induction (columns df) as [|c cols IH]; intros j Hj; [done|].
       simpl in Hj. destruct (decide (c = date_col)) as [->|]; [left|].
       destruct (Pd.col_index date_col cols); [|done]. right. by eapply IH. }
  apply bool_decide_eq_true in Hc.
  destruct (col_index_elem_of _ _ Hc) as [j Hj].
  unfold Pd.getitem. rewrite Hj. unfold mbind, result_bind, dt_date.
  assert (forallb datetimelike (Pd.at_col j <$> rows df) = true) as ->.
  { apply forallb_forall. intros c (r & -> & Hr)%list_elem_of_In%list_elem_of_fmap.
    by apply (Hdt j r). }
  eexists. split; [reflexivity|]. split.
  { intros [?|?]; done. }
  intros _ j' [= <-].
  assert (rows (Pd.loc df
                  (zip_with andb (ge_date from_date <$> (date_of <$> (Pd.at_col j <$> rows df)))
                     (le_date to_date <$> (date_of <$> (Pd.at_col j <$> rows df)))))
          = List.filter (λ r, in_range from_date to_date (Pd.at_col j r)) (rows df)) as Hrows.
  { unfold Pd.loc; simpl. rewrite zip_with_fmap_same, <- !list_fmap_compose.
    rewrite <- select_filter. f_equal. apply list_fmap_ext. intros _ r _. simpl.
    unfold in_range, ge_date, le_date. by destruct (date_of (Pd.at_col j r)). }
  split_and!; [done|done|].
  intros r. rewrite Hrows, !list_elem_of_In, filter_In, in_range_spec. done.
Qed.

End DateFilter.


(** ** The fetch step *)

Section FetchStep.
Import IngestData IngestRun.
Context (requests_get : request → result response)
        (requests_post : post → result response)
        (getenv : string → option string)
        (records_sheet : list json → result (list (list cell)))
        (str_of_json : json → string)
        (year month day : string)
        (date_from_str date_to_str : string)
        (DATASETS_DIR : string).

Local Abbreviation save_data := (save_data records_sheet year month day DATASETS_DIR).
Local Abbreviation target := (target_dir year month day DATASETS_DIR).
Local Abbreviation sign_in := (sign_in requests_post getenv).
Local Abbreviation fetch_and_save :=
  (fetch_and_save requests_get records_sheet year month day DATASETS_DIR).
Local Abbreviation ingest_data :=
  (ingest_data requests_get requests_post getenv records_sheet str_of_json
     year month day date_from_str date_to_str DATASETS_DIR).

(** X12. For a decoded object, a list under ["data"] decides the
    records whatever is under ["result"] and ["records"]: the list itself,
    or the whole object as one record when the list is empty.  The
    records of an object are never empty. *)
Theorem data_list_decides_records members items :
  members_get "data" members = Some (JArray items) →
  records_of (JObject members)
  = match items with [] => [JObject members] | _ => items end
  ∧ records_of (JObject members) ≠ [].
Proof.
  intros H. unfold records_of. simpl. rewrite H. by destruct items.
Qed.

Lemma startswith_slash_app a b :
  a ≠ "" → PyStr.startswith "/" (a +:+ b) = PyStr.startswith "/" a.
Proof. by destruct a. Qed.


(** X26. A file on the way to the day's directory loses the payload:
    [os.makedirs] refuses, [save_data] returns [None] and the disk is as
    it was. *)
Theorem save_data_refused_by_file_on_the_way pkg name w p n :
  target ≠ "" →
  p ∈ ProcessData.chain target →
  disk w !! p = Some n → n ≠ ProcessData.Dir →
  (save_data (Some pkg) name w).1 = None
  ∧ disk (save_data (Some pkg) name w).2 = disk w.
Proof.
  intros Hne Hp Hn Hd. unfold IngestRun.save_data, makedirs.
  destruct (makedirs_on_blocked target (disk w) p Hne Hp) as (e & -> & _); [|done].
  unfold ProcessData.blocked. rewrite Hn. by destruct n.
Qed.

(** X14. [save_data] returns a path only when the file is written: the
    path is the one of the day and the name, and what is there is the
    payload's bytes, or the workbook made of the payload's records. *)
Theorem save_data_path_means_stored pkg name w path :
  (save_data pkg name w).1 = Some path →
  ∃ payload,
    pkg = Some payload
    ∧ path = os_path_join target (name +:+ ".xlsx")
    ∧ match payload with
      | FilePackage bytes =>
          disk (save_data pkg name w).2 !! path = Some (ProcessData.Blob bytes)
      | JsonPackage data =>
          ∃ sheet, records_sheet (records_of data) = Ok sheet
                   ∧ disk (save_data pkg name w).2 !! path
                     = Some (ProcessData.Workbook sheet)
      end.
Proof.
  destruct pkg as [payload|]; [|done]. intros H. exists payload. split; [done|].
  revert H. unfold IngestRun.save_data.
  destruct (makedirs target w) as [[[]|e] w1]; [|done].
  destruct payload as [bytes|data].
  - unfold write. destruct (disk w1 !! _) as [[]|]; simpl; try done;
      intros [= <-]; (split; [done|]); by rewrite lookup_insert_eq.
  - destruct (records_sheet (records_of data)) as [sheet|e]; [|done].
    unfold write. destruct (disk w1 !! _) as [[]|]; simpl; try done;
      intros [= <-]; (split; [done|]); exists sheet; by rewrite lookup_insert_eq.
Qed.

(** *** Where the fetch step saves and where the normalizer reads *)

Lemma endswith_slash_last s :
  PyStr.endswith_slash s = bool_decide (PyStr.last_char s = Some "/"%char).
Proof.
  induction s as [|c s IH]; [done|]. destruct s as [|c' s'].
  - simpl. destruct (decide (c = "/"%char)) as [->|Hc]; [done|].
    rewrite bool_decide_eq_false_2; [done|congruence].
  - exact IH.
Qed.

Lemma os_path_join_plain a b c :
  PyStr.last_char a = Some c → c ≠ "/"%char → PyStr.startswith "/" b = false →
  os_path_join a b = a +:+ "/" +:+ b.
Proof.
  intros Hl Hc Hb. unfold os_path_join. rewrite Hb.
  destruct (decide (a = "")) as [->|_]; [done|].
  rewrite endswith_slash_last, Hl, bool_decide_eq_false_2; [done|congruence].
Qed.

Lemma isdigit_head s :
  numeral s = true →
  ∃ c s', s = String c s' ∧ PyStr.is_digit c = true.
Proof.
  unfold IngestRun.numeral. destruct s as [|c s']; [done|]. simpl.
  intros [H _]%andb_true_iff. eauto.
Qed.

Lemma is_digit_not_slash c : PyStr.is_digit c = true → c ≠ "/"%char.
Proof. by intros H ->. Qed.

Lemma isdigit_no_slash s :
  numeral s = true → PyStr.startswith "/" s = false.
Proof.
  intros (c & s' & -> & Hc)%isdigit_head. simpl.
  destruct (decide ("/"%char = c)) as [<-|]; [done|done].
Qed.

Lemma all_digits_last s c :
  PyStr.all_digits s = true → PyStr.last_char s = Some c → PyStr.is_digit c = true.
Proof.
  induction s as [|x s IH]; [done|]. simpl. intros [Hx Hs]%andb_true_iff.
  destruct s as [|y s']; [by intros [= <-]|]. by apply IH.
Qed.

Lemma isdigit_last s :
  numeral s = true →
  ∃ c, PyStr.last_char s = Some c ∧ c ≠ "/"%char.
Proof.
  unfold IngestRun.numeral. intros [Hne Hd]%andb_true_iff.
  destruct (PyStr.last_char s) as [c|] eqn:E.
  - exists c. split; [done|]. by eapply is_digit_not_slash, all_digits_last.
  - exfalso. clear Hd. induction s as [|x s IH]; [done|].
    destruct s; [done|]. by apply IH.
Qed.

Lemma string_app_inv_head (a b c : string) : a +:+ b = a +:+ c → b = c.
Proof.
  induction a as [|x a IH]; [done|].
  change (String x (a +:+ b) = String x (a +:+ c) → b = c). intros [= H]. by apply IH.
Qed.

Lemma last_char_app_r (a b : string) c :
  PyStr.last_char b = Some c → PyStr.last_char (a +:+ b) = Some c.
Proof. intros H. rewrite last_char_app; [done|]. by intros ->. Qed.

Lemma isdigit_nonempty s : numeral s = true → s ≠ "".
Proof. by intros (c & s' & -> & _)%isdigit_head. Qed.

Lemma contains_slash_startswith name :
  PyStr.contains "/" name = false → PyStr.startswith "/" name = false.
Proof.
  destruct name as [|c name]; [done|]. unfold PyStr.contains.
  by destruct (PyStr.startswith "/" (String c name)).
Qed.

(** X15. The fetch step and the normalizer do not meet.  With the three
    parts of one date and a file name without ["/"], the file
    [save_data] writes is [<root>/<year>/<month>/<day>/<name>.xlsx] and
    the file [main] reads for a report is
    [<root>/<year><month><day>/<key>.xlsx], for the same [<root>], the
    [raw] directory of [DATASETS_DIR]: one is four names below it, the
    other two, and the two paths differ. *)
Theorem saved_file_is_not_where_main_reads name r :
  numeral year = true →
  numeral month = true →
  numeral day = true →
  PyStr.contains "/" name = false →
  ∃ root,
    os_path_join target (name +:+ ".xlsx")
    = root +:+ "/" +:+ year +:+ "/" +:+ month +:+ "/" +:+ day +:+ "/" +:+ name +:+ ".xlsx"
    ∧ ProcessData.raw_path
        (os_path_join DATASETS_DIR ("raw/" +:+ (year +:+ month +:+ day))) r
      = root +:+ "/" +:+ year +:+ month +:+ day +:+ "/" +:+ ProcessData.key r +:+ ".xlsx"
    ∧ os_path_join target (name +:+ ".xlsx")
      ≠ ProcessData.raw_path
          (os_path_join DATASETS_DIR ("raw/" +:+ (year +:+ month +:+ day))) r.
Proof.
  intros Hy Hm Hd Hname%contains_slash_startswith.
  destruct (os_path_join_sep DATASETS_DIR) as [sep Hsep].
  destruct (isdigit_last year Hy) as (cy & Hly & Hcy).
  destruct (isdigit_last month Hm) as (cm & Hlm & Hcm).
  destruct (isdigit_last day Hd) as (cd & Hld & Hcd).
  pose proof (isdigit_nonempty _ Hy) as Hyn.
  pose proof (isdigit_nonempty _ Hm) as Hmn.
  pose proof (isdigit_nonempty _ Hd) as Hdn.
  unfold IngestRun.target_dir, os_path_join_all, ProcessData.raw_path. simpl foldl.
  rewrite (Hsep "raw") by done.
  rewrite (Hsep ("raw/" +:+ (year +:+ month +:+ day))) by done.
  rewrite (os_path_join_plain _ year "w"%char);
    [|by do 2 apply last_char_app_r|done|by apply isdigit_no_slash].
  rewrite (os_path_join_plain _ month cy);
    [|by do 2 apply last_char_app_r|done|by apply isdigit_no_slash].
  rewrite (os_path_join_plain _ day cm);
    [|by do 2 apply last_char_app_r|done|by apply isdigit_no_slash].
  rewrite (os_path_join_plain _ (name +:+ ".xlsx") cd);
    [|by do 2 apply last_char_app_r|done
     |by destruct name; [|rewrite startswith_slash_app]].
  rewrite (os_path_join_plain _ (ProcessData.key r +:+ ".xlsx") cd);
    [|by do 5 apply last_char_app_r|done|by destruct r].
  exists (DATASETS_DIR +:+ sep +:+ "raw").
  change ("raw/" +:+ year +:+ month +:+ day)
    with ("raw" +:+ "/" +:+ year +:+ month +:+ day).
  rewrite !string_app_assoc. split; [done|]. split; [done|].
  intros E. do 5 apply string_app_inv_head in E.
  destruct (isdigit_head month Hm) as (c & m' & -> & Hc).
  injection E as E _. by subst c.
Qed.

(** *** The batch *)

Lemma sign_in_keeps w : store (sign_in w).2 = store w ∧ disk (sign_in w).2 = disk w.
Proof.
  unfold IngestRun.sign_in.
  destruct (requests_post _) as [resp|e]; [|done].
  destruct (decide (status_code resp = 200)); [|done].
  by destruct (json_body resp).
Qed.

Lemma makedirs_store path w : store (makedirs path w).2 = store w.
Proof.
  unfold makedirs. by destruct (ProcessData.makedirs_on path (disk w)).
Qed.

Lemma write_store path n w : store (write path n w).2 = store w.
Proof. unfold write. by destruct (disk w !! path) as [[]|]. Qed.

Lemma save_data_store pkg name w : store (save_data pkg name w).2 = store w.
Proof.
  unfold IngestRun.save_data. destruct pkg as [pkg|]; [|done].
  pose proof (makedirs_store target w) as Hm.
  destruct (makedirs target w) as [[[]|e] w1]; simpl in Hm; [|done].
  destruct pkg as [bytes|data].
  - pose proof (write_store (os_path_join target (name +:+ ".xlsx"))
                  (ProcessData.Blob bytes) w1) as Hw.
    destruct (write _ _ w1) as [[[]|e] w2]; simpl in *; congruence.
  - destruct (records_sheet (records_of data)) as [sheet|e]; [|done].
    pose proof (write_store (os_path_join target (name +:+ ".xlsx"))
                  (ProcessData.Workbook sheet) w1) as Hw.
    destruct (write _ _ w1) as [[[]|e] w2]; simpl in *; congruence.
Qed.

Lemma fetch_and_save_request token name w config :
  lookup_endpoint name ENDPOINTS = Some config →
  ∃ req,
    sent (store (fetch_and_save token
                   [("CreatedAtFrom", date_from_str); ("CreatedAtTo", date_to_str)]
                   name w))
    = sent (store w) ++ [req]
    ∧ url req = endpoint config
    ∧ dict_get "CreatedAtFrom" (req_params req) = Some date_from_str
    ∧ dict_get "CreatedAtTo" (req_params req) = Some date_to_str.
Proof.
  intros Hcfg. unfold IngestRun.fetch_and_save, fetch.
  rewrite save_data_store. cbn [store].
  destruct (fetch_data_configured requests_get token name
              [("CreatedAtFrom", date_from_str); ("CreatedAtTo", date_to_str)]
              (store w) config Hcfg) as (req & Hsent & Hurl & Hpar & _).
  exists req. split_and!; [done|done|..]; rewrite Hpar, dict_get_update.
  - done.
  - cbn [fmap list_fmap fst]. apply NoDup_cons.
    split; [by rewrite list_elem_of_singleton|apply NoDup_singleton].
  - done.
  - cbn [fmap list_fmap fst]. apply NoDup_cons.
    split; [by rewrite list_elem_of_singleton|apply NoDup_singleton].
Qed.

(** X16. With a login answer that holds a token, the batch asks for the
    five reports, one request each, in the order clients, services, pets,
    revenue, expenses, every one with the two dates of the run, whatever
    the vendor answers to any of them. *)
Theorem batch_requests_five_reports w members data tok :
  (sign_in w).1 = Some (JObject members) →
  truthy_opt (members_get "success" members) = true →
  members_get "data" members = Some (JObject data) →
  members_get "token" data = Some tok →
  truthy tok = true →
  (ingest_data w).1 = Ok ()
  ∧ ∃ reqs,
      sent (store (ingest_data w).2) = sent (store w) ++ reqs
      ∧ url <$> reqs
        = [ BASE_URL +:+ "/exportreports/clientsreport";
            BASE_URL +:+ "/exportreports/servicesReport";
            BASE_URL +:+ "/exportreports/petReport";
            BASE_URL +:+ "/exportreports/revenue";
            BASE_URL +:+ "/exportreports/expenses" ]
      ∧ Forall (λ req, dict_get "CreatedAtFrom" (req_params req) = Some date_from_str
                       ∧ dict_get "CreatedAtTo" (req_params req) = Some date_to_str)
          reqs.
Proof.
  intros Hauth Hsucc Hdata Htok Htruthy.
  unfold IngestRun.ingest_data.
  destruct (sign_in_keeps w) as [Hstore _].
  destruct (sign_in w) as [auth w1]. simpl in Hauth, Hstore. subst auth.
  assert (truthy (JObject members) = true) as ->.
  { destruct members; [done|done]. }
  rewrite Hsucc, Hdata. simpl default. simpl negb. cbv beta iota zeta.
  rewrite Htok. simpl truthy_opt. rewrite Htruthy. cbv beta iota. simpl default.
  set (token := token_text _ _).
  set (w2 := jot INFO Separator w1).
  destruct (fetch_and_save_request token "clients" w2 _ eq_refl)
    as (r1 & H1 & U1 & F1 & T1).
  set (w3 := fetch_and_save _ _ "clients" w2) in *.
  destruct (fetch_and_save_request token "services" w3 _ eq_refl)
    as (r2 & H2 & U2 & F2 & T2).
  set (w4 := fetch_and_save _ _ "services" w3) in *.
  destruct (fetch_and_save_request token "pets" w4 _ eq_refl)
    as (r3 & H3 & U3 & F3 & T3).
  set (w5 := fetch_and_save _ _ "pets" w4) in *.
  destruct (fetch_and_save_request token "revenue" w5 _ eq_refl)
    as (r4 & H4 & U4 & F4 & T4).
  set (w6 := fetch_and_save _ _ "revenue" w5) in *.
  destruct (fetch_and_save_request token "expenses" w6 _ eq_refl)
    as (r5 & H5 & U5 & F5 & T5).
  split; [done|]. exists [r1; r2; r3; r4; r5]. split_and!.
  - cbn [snd]. rewrite H5, H4, H3, H2, H1. subst w2. cbn [jot store].
    rewrite Hstore, <- !app_assoc. done.
  - cbn [fmap list_fmap]. by rewrite U1, U2, U3, U4, U5.
  - repeat constructor; done.
Qed.

(** X17. Without a token there is no fetch: when the batch sends a
    request or changes the disk, the login answer was an object with a
    true ["success"], an object under ["data"] and a true ["token"] in
    it. *)
Theorem fetch_only_with_token w :
  sent (store (ingest_data w).2) ≠ sent (store w)
  ∨ disk (ingest_data w).2 ≠ disk w →
  ∃ members data tok,
    (sign_in w).1 = Some (JObject members)
    ∧ truthy_opt (members_get "success" members) = true
    ∧ members_get "data" members = Some (JObject data)
    ∧ members_get "token" data = Some tok
    ∧ truthy tok = true.
Proof.
  unfold IngestRun.ingest_data.
  destruct (sign_in_keeps w) as [Hstore Hdisk].
  destruct (sign_in w) as [auth w1]. simpl in Hstore, Hdisk. simpl fst.
  assert (∀ n, ¬ (sent (store (jot ERROR n w1)) ≠ sent (store w)
                  ∨ disk (jot ERROR n w1) ≠ disk w)) as Hsame.
  { intros n. cbn [jot store disk]. rewrite Hstore, Hdisk. by intros [|]. }
  assert (¬ (sent (store w1) ≠ sent (store w) ∨ disk w1 ≠ disk w)) as Hsame1.
  { rewrite Hstore, Hdisk. by intros [|]. }
  destruct auth as [auth|]; [|by intros ?%Hsame].
  destruct (truthy auth) eqn:Ht; simpl negb; cbv iota; [|by intros ?%Hsame].
  destruct auth as [| | | | |members]; try (by intros ?%Hsame1).
  destruct (truthy_opt (members_get "success" members)) eqn:Hs;
    simpl negb; cbv iota; [|by intros ?%Hsame].
  destruct (members_get "data" members) as [v|] eqn:Hd; simpl default.
  - destruct v as [| | | | |data]; try (by intros ?%Hsame1).
    destruct (members_get "token" data) as [tok|] eqn:Hk; simpl truthy_opt;
      [|by intros ?%Hsame].
    destruct (truthy tok) eqn:Hv; [|by intros ?%Hsame].
    intros _. by exists members, data, tok.
  - simpl. by intros ?%Hsame.
Qed.

(** X18. A login answer that says success but has no object under
    ["data"] (a null, a string, a list) is not reported as a missing
    token: the batch raises [AttributeError], and no request for a report
    has been sent. *)
Theorem login_without_data_object_raises w members v :
  (sign_in w).1 = Some (JObject members) →
  truthy_opt (members_get "success" members) = true →
  members_get "data" members = Some v →
  (∀ data, v ≠ JObject data) →
  (ingest_data w).1 = Raise AttributeError
  ∧ sent (store (ingest_data w).2) = sent (store w)
  ∧ notes (ingest_data w).2 = notes (sign_in w).2.
Proof.
  intros Hauth Hsucc Hdata Hv. unfold IngestRun.ingest_data.
  destruct (sign_in_keeps w) as [Hstore _].
  destruct (sign_in w) as [auth w1]. simpl in *. subst auth.
  assert (truthy (JObject members) = true) as ->.
  { destruct members; [done|done]. }
  rewrite Hsucc, Hdata. simpl.
  destruct v as [| | | | |data]; try (by simpl; rewrite Hstore).
  by destruct (Hv data).
Qed.

(** X19. The login posts once, to the sign-in URL, the three credentials
    of the environment, and gives the decoded answer exactly when the
    response has status 200 and a body that decodes. *)
Theorem sign_in_gives_decoded_ok_answer w :
  ∃ p,
    posted (sign_in w).2 = posted w ++ [p]
    ∧ post_url p = BASE_URL +:+ "/signin"
    ∧ post_json p = [("emailOrUsername", getenv "EMAIL_OR_USERNAME");
                     ("password", getenv "PASSWORD");
                     ("clinicCode", getenv "CLINIC_CODE")]
    ∧ ∀ data, (sign_in w).1 = Some data
              ↔ ∃ resp, requests_post p = Ok resp
                        ∧ status_code resp = 200
                        ∧ json_body resp = Some data.
Proof.
  unfold IngestRun.sign_in. cbv zeta. set (p := Post _ _ _).
  exists p. split_and!; [|reflexivity|reflexivity|].
  - destruct (requests_post _) as [resp|e]; [|done].
    destruct (decide (status_code resp = 200)); [|done].
    by destruct (json_body resp).
  - intros data. destruct (requests_post _) as [resp|e].
    + destruct (decide (status_code resp = 200)) as [H200|H200].
      * destruct (json_body resp) as [d|] eqn:Hj; simpl.
        -- split; [intros [= <-]; eauto|]. intros (? & [= <-] & _ & ?). congruence.
        -- split; [done|]. intros (? & [= <-] & _ & ?). congruence.
      * simpl. split; [done|]. by intros (? & [= <-] & ? & _).
    + simpl. split; [done|]. by intros (? & ? & _).
Qed.

End FetchStep.

(** ** The dashboard's data *)

Section DashboardTables.
Import Dashboard DashboardData.
Context (from_date to_date : Z)
        (pd_to_datetime : list cell → option (list cell))
        (exists_ : string → bool)
        (listdir : string → result (list string))
        (isdigit : string → bool)
        (CLEAN_DATA_ROOT : string).

Local Abbreviation filter_df := (filter_df from_date to_date).
Local Abbreviation in_range := (in_range from_date to_date).
Local Abbreviation load_table := (load_table pd_to_datetime).
Local Abbreviation get_latest_data_dir :=
  (get_latest_data_dir exists_ listdir isdigit CLEAN_DATA_ROOT).
Local Abbreviation chosen := (chosen isdigit).

(** *** The filter *)

Lemma col_index_Some name cols j :
  Pd.col_index name cols = Some j → name ∈ cols ∧ (j < length cols)%nat.
Proof.
  revert j. induction cols as [|c cols IH]; intros j; [done|]. simpl.
  destruct (decide (c = name)) as [->|].
  - intros [= <-]. split; [left|lia].
  - destruct (Pd.col_index name cols) as [j'|]; [|done]. intros [= <-].
    destruct (IH j' eq_refl). split; [by right|lia].
Qed.

Lemma col_index_inj a b cols j :
  Pd.col_index a cols = Some j → Pd.col_index b cols = Some j → a = b.
Proof.
  revert j. induction cols as [|c cols IH]; intros j; [done|]. simpl.
  destruct (decide (c = a)) as [Ha|Ha], (decide (c = b)) as [Hb|Hb].
  - congruence.
  - intros [= <-]. by destruct (Pd.col_index b cols).
  - destruct (Pd.col_index a cols); [|done]. by intros [= <-].
  - destruct (Pd.col_index a cols) as [ja|], (Pd.col_index b cols) as [jb|]; try done.
    intros [= <-] [= ->]. by eapply IH.
Qed.

Lemma filter_df_datetime df col j :
  Pd.empty df = false →
  Pd.col_index col (columns df) = Some j →
  forallb datetimelike (Pd.at_col j <$> rows df) = true →
  filter_df df col
  = Ok (DataFrame (columns df) (List.filter (λ r, in_range (Pd.at_col j r)) (rows df))).
Proof.
  intros He Hj Hdt. unfold Dashboard.filter_df. rewrite He.
  rewrite bool_decide_eq_true_2 by (by eapply col_index_Some). simpl.
  unfold Pd.getitem. rewrite Hj. unfold mbind, result_bind, dt_date. rewrite Hdt.
  unfold Pd.loc. do 2 f_equal.
  rewrite zip_with_fmap_same, <- !list_fmap_compose, <- select_filter.
  f_equal. apply list_fmap_ext. intros _ r _. simpl.
  unfold Dashboard.in_range, ge_date, le_date. by destruct (date_of (Pd.at_col j r)).
Qed.

Lemma filter_df_not_datetime df col j :
  Pd.empty df = false →
  Pd.col_index col (columns df) = Some j →
  forallb datetimelike (Pd.at_col j <$> rows df) = false →
  filter_df df col = Raise AttributeError.
Proof.
  intros He Hj Hdt. unfold Dashboard.filter_df. rewrite He.
  rewrite bool_decide_eq_true_2 by (by eapply col_index_Some). simpl.
  unfold Pd.getitem. rewrite Hj. unfold mbind, result_bind, dt_date. by rewrite Hdt.
Qed.

Lemma forallb_filter {A} (P f : A → bool) (l : list A) :
  forallb P l = true → forallb P (List.filter f l) = true.
Proof.
  induction l as [|x l IH]; [done|]. simpl. intros [Hx Hl]%andb_true_iff.
  destruct (f x); simpl; [rewrite Hx|]; by apply IH.
Qed.

Lemma filter_filter_same {A} (f : A → bool) (l : list A) :
  List.filter f (List.filter f l) = List.filter f l.
Proof.
  induction l as [|x l IH]; [done|]. simpl.
  destruct (f x) eqn:E; simpl; [rewrite E|]; by rewrite IH.
Qed.

Lemma filter_none {A} (f : A → bool) (l : list A) :
  (∀ x, f x = false) → List.filter f l = [].
Proof. intros H. induction l as [|x l IH]; [done|]. simpl. by rewrite H. Qed.

Lemma forallb_fmap {A B} (P : B → bool) (g : A → B) (l : list A) :
  forallb P (g <$> l) = forallb (λ x, P (g x)) l.
Proof. induction l as [|x l IH]; [done|]. rewrite fmap_cons. simpl. by rewrite IH. Qed.

(** X20. Filtering a filtered table by the same column changes
    nothing: a table the filter returned is returned as it is. *)
Theorem filter_df_twice df col out :
  filter_df df col = Ok out → filter_df out col = Ok out.
Proof.
  intros H.
  destruct (Pd.empty df) eqn:He.
  { unfold Dashboard.filter_df in H |- *. rewrite He in H. simpl in H.
    injection H as <-. by rewrite He. }
  destruct (Pd.col_index col (columns df)) as [j|] eqn:Hj.
  2: { assert (col ∉ columns df) as Hc.
       { intros [j' Hj']%col_index_elem_of. congruence. }
       unfold Dashboard.filter_df in H |- *. rewrite He in H.
       rewrite bool_decide_eq_false_2 in H by done. simpl in H.
       injection H as <-. rewrite He. by rewrite bool_decide_eq_false_2. }
  destruct (forallb datetimelike (Pd.at_col j <$> rows df)) eqn:Hdt.
  2: { by rewrite (filter_df_not_datetime df col j) in H. }
  rewrite (filter_df_datetime df col j) in H by done. injection H as <-.
  destruct (Pd.empty (DataFrame (columns df)
              (List.filter (λ r, in_range (Pd.at_col j r)) (rows df)))) eqn:He'.
  { unfold Dashboard.filter_df. by rewrite He'. }
  rewrite (filter_df_datetime _ col j); [|done|done|].
  - simpl. by rewrite filter_filter_same.
  - simpl. rewrite forallb_fmap in Hdt |- *. by apply forallb_filter.
Qed.

(** X21. With the two dates the wrong way round the filter keeps no
    row: on a table that is not empty and has the column, whatever it
    returns has the columns of the table and no rows. *)
Theorem inverted_range_keeps_no_row df col out :
  to_date < from_date →
  Pd.empty df = false →
  col ∈ columns df →
  filter_df df col = Ok out →
  out = DataFrame (columns df) [].
Proof.
  intros Hlt He [j Hj]%col_index_elem_of H.
  destruct (forallb datetimelike (Pd.at_col j <$> rows df)) eqn:Hdt.
  2: { by rewrite (filter_df_not_datetime df col j) in H. }
  rewrite (filter_df_datetime df col j) in H by done. injection H as <-.
  f_equal. apply filter_none. intros r. unfold Dashboard.in_range.
  destruct (date_of (Pd.at_col j r)) as [d|]; [|done].
  apply andb_false_iff. rewrite !Z.leb_gt. lia.
Qed.

(** *** Loading *)

Lemma with_dates_inv name df out :
  ProcessData.with_dates pd_to_datetime name df = Ok out →
  ∃ j d, Pd.col_index name (columns df) = Some j
         ∧ pd_to_datetime (Pd.at_col j <$> rows df) = Some d
         ∧ out = DataFrame (columns df)
                   (imap (λ i r, <[j := default NaN (d !! i)]> r) (rows df)).
Proof.
  unfold ProcessData.with_dates, Pd.getitem, Pd.setitem.
  destruct (Pd.col_index name (columns df)) as [j|]; [|done].
  unfold mbind, result_bind.
  destruct (pd_to_datetime (Pd.at_col j <$> rows df)) as [d|] eqn:Hd; [|done].
  intros [= <-]. by exists j, d.
Qed.

(** X22. A table loaded with a [creation_date] column can always be
    filtered: when [pd.to_datetime] gives one datetime value for each
    value of the column, the filter on the loaded table returns a table,
    with the same columns, and does not raise. *)
Theorem loaded_table_can_be_filtered key df loaded :
  (∀ c d, pd_to_datetime c = Some d →
          length d = length c ∧ forallb datetimelike d = true) →
  (∀ r, r ∈ rows df → length r = length (columns df)) →
  "creation_date" ∈ columns df →
  load_table key (Some df) = Ok loaded →
  ∃ out, filter_df loaded "creation_date" = Ok out
         ∧ columns out = columns df.
Proof.
  intros Hlib Hrect Hc. unfold DashboardData.load_table.
  rewrite bool_decide_eq_true_2 by done.
  intros (j & d & Hj & Hd & ->)%with_dates_inv.
  destruct (Hlib _ _ Hd) as [Hlen Hall]. rewrite length_fmap in Hlen.
  set (loaded := DataFrame _ _).
  destruct (Pd.empty loaded) eqn:He.
  { exists loaded. unfold Dashboard.filter_df. by rewrite He. }
  eexists. rewrite (filter_df_datetime loaded "creation_date" j); [done|done|done|].
  subst loaded. cbn [rows]. apply forallb_forall.
  intros c (r & -> & Hr)%list_elem_of_In%list_elem_of_fmap.
  apply elem_of_lookup_imap in Hr as (i & r0 & -> & Hi).
  rewrite at_col_insert_eq.
  - assert (i < length d)%nat as [x Hx]%lookup_lt_is_Some.
    { rewrite Hlen. by eapply lookup_lt_Some. }
    rewrite Hx. simpl. rewrite forallb_forall in Hall.
    by eapply Hall, list_elem_of_In, list_elem_of_lookup_2.
  - rewrite (Hrect r0) by (by eapply list_elem_of_lookup_2).
    by eapply col_index_Some.
Qed.

(** X23. An expenses table that has both a [creation_date] and a [date]
    column cannot be filtered: loading converts [creation_date] only, the
    filter then picks [date], and with a value there that is not a
    datetime the filter raises [AttributeError]. *)
Theorem expenses_with_both_date_columns_raise df loaded j r :
  "creation_date" ∈ columns df →
  Pd.col_index "date" (columns df) = Some j →
  r ∈ rows df →
  datetimelike (Pd.at_col j r) = false →
  load_table "expenses" (Some df) = Ok loaded →
  expenses_filtered from_date to_date loaded = Raise AttributeError.
Proof.
  intros Hc Hj Hr Hnd. unfold DashboardData.load_table.
  rewrite bool_decide_eq_true_2 by done.
  intros (jc & d & Hjc & Hd & ->)%with_dates_inv.
  assert (j ≠ jc) as Hne.
  { intros ->. by pose proof (col_index_inj _ _ _ _ Hj Hjc). }
  set (loaded := DataFrame _ _).
  assert (Pd.empty loaded = false) as He.
  { unfold Pd.empty, loaded. cbn [rows columns]. apply orb_false_iff. split.
    - apply bool_decide_eq_false_2. intros E%(f_equal length).
      rewrite length_imap in E. destruct (rows df); [by apply elem_of_nil in Hr|done].
    - apply bool_decide_eq_false_2. intros E. rewrite E in Hc. by apply elem_of_nil in Hc. }
  unfold expenses_filtered, exp_date_col. rewrite He.
  rewrite bool_decide_eq_true_2 by (by eapply (col_index_Some _ (columns df))).
  simpl negb. cbv iota. simpl andb. cbv iota.
  apply (filter_df_not_datetime loaded "date" j); [done|done|].
  subst loaded. cbn [rows].
  rewrite column_unchanged by (intros; by apply at_col_insert_ne).
  apply not_true_is_false. rewrite forallb_forall. intros Hall.
  rewrite (Hall (Pd.at_col j r)) in Hnd; [done|].
  apply list_elem_of_In, list_elem_of_fmap. by exists r.
Qed.

(** *** The latest directory *)

Lemma nat_of_ascii_inj x y : nat_of_ascii x = nat_of_ascii y → x = y.
Proof.
  intros H. rewrite <- (ascii_nat_embedding x), <- (ascii_nat_embedding y). by rewrite H.
Qed.

Lemma str_lt_irrefl a : str_lt a a = false.
Proof.
  induction a as [|x a IH]; [done|]. simpl.
  by rewrite Nat.ltb_irrefl.
Qed.

Lemma str_lt_trans a b c : str_lt a b = true → str_lt b c = true → str_lt a c = true.
Proof.
  revert b c. induction a as [|x a IH]; intros [|y b] [|z c]; simpl; try done.
  destruct (Nat.ltb_spec (nat_of_ascii x) (nat_of_ascii y)) as [Hxy|Hxy].
  - intros _.
    destruct (Nat.ltb_spec (nat_of_ascii y) (nat_of_ascii z)) as [Hyz|Hyz].
    + intros _. by rewrite (proj2 (Nat.ltb_lt _ _)) by lia.
    + destruct (Nat.ltb_spec (nat_of_ascii z) (nat_of_ascii y)); [done|].
      intros _. by rewrite (proj2 (Nat.ltb_lt _ _)) by lia.
  - destruct (Nat.ltb_spec (nat_of_ascii y) (nat_of_ascii x)) as [Hyx|Hyx]; [done|].
    intros Hab.
    destruct (Nat.ltb_spec (nat_of_ascii y) (nat_of_ascii z)) as [Hyz|Hyz].
    + intros _. by rewrite (proj2 (Nat.ltb_lt _ _)) by lia.
    + destruct (Nat.ltb_spec (nat_of_ascii z) (nat_of_ascii y)); [done|].
      intros Hbc. rewrite !(proj2 (Nat.ltb_ge _ _)) by lia. by eapply IH.
Qed.

Lemma str_lt_total a b : str_lt a b = true ∨ a = b ∨ str_lt b a = true.
Proof.
  revert b. induction a as [|x a IH]; intros [|y b]; simpl; auto.
  destruct (Nat.ltb_spec (nat_of_ascii x) (nat_of_ascii y)); [auto|].
  destruct (Nat.ltb_spec (nat_of_ascii y) (nat_of_ascii x)); [auto|].
  assert (x = y) as -> by (apply nat_of_ascii_inj; lia).
  destruct (IH b) as [?|[->|?]]; auto.
Qed.

Lemma foldl_max best names :
  let x := foldl (λ best n, if str_lt best n then n else best) best names in
  x ∈ best :: names ∧ ∀ n, n ∈ best :: names → str_lt x n = false.
Proof.
  revert best. induction names as [|m names IH]; intros best; simpl.
  { split; [left|]. intros n ->%list_elem_of_singleton. apply str_lt_irrefl. }
  destruct (IH (if str_lt best m then m else best)) as [Hin Hmax].
  set (x := foldl _ _ names) in *.
  assert (str_lt x best = false ∧ str_lt x m = false) as [Hb Hm].
  { destruct (str_lt best m) eqn:E.
    - pose proof (Hmax m ltac:(left)) as Hxm. split; [|done].
      apply not_true_is_false. intros Hxb.
      by rewrite (str_lt_trans _ _ _ Hxb E) in Hxm.
    - pose proof (Hmax best ltac:(left)) as Hxb. split; [done|].
      apply not_true_is_false. intros Hxm.
      destruct (str_lt_total best m) as [?|[->|Hmb]]; [congruence|congruence|].
      by rewrite (str_lt_trans _ _ _ Hxm Hmb) in Hxb. }
  split.
  - apply elem_of_cons in Hin as [->|Hin].
    + destruct (str_lt best m); [right; left|left].
    + by do 2 right.
  - intros n [->|[->|Hn]%elem_of_cons]%elem_of_cons; [done|done|].
    apply Hmax. by right.
Qed.

Lemma digits_value_acc acc s :
  digits_value acc s = acc * 10 ^ Z.of_nat (String.length s) + digits_value 0 s.
Proof.
  revert acc. induction s as [|c s IH]; intros acc; simpl digits_value.
  { simpl. lia. }
  rewrite IH, (IH (10 * 0 + _)).
  change (String.length (String c s)) with (S (String.length s)).
  rewrite Nat2Z.inj_succ, Z.pow_succ_r by lia. lia.
Qed.

Lemma is_digit_range c :
  PyStr.is_digit c = true → 0 ≤ Z.of_nat (nat_of_ascii c) - 48 ≤ 9.
Proof.
  unfold PyStr.is_digit. intros [H1 H2]%andb_true_iff.
  apply Nat.leb_le in H1, H2. lia.
Qed.

Lemma digits_value_bound s :
  PyStr.all_digits s = true →
  0 ≤ digits_value 0 s < 10 ^ Z.of_nat (String.length s).
Proof.
  induction s as [|c s IH]; [simpl; lia|].
  simpl PyStr.all_digits. intros [Hc Hs]%andb_true_iff.
  simpl digits_value. rewrite digits_value_acc.
  change (String.length (String c s)) with (S (String.length s)).
  rewrite Nat2Z.inj_succ, Z.pow_succ_r by lia.
  pose proof (is_digit_range c Hc). specialize (IH Hs). nia.
Qed.

Lemma str_lt_digits a b :
  PyStr.all_digits a = true → PyStr.all_digits b = true →
  String.length a = String.length b →
  str_lt a b = false → digits_value 0 b ≤ digits_value 0 a.
Proof.
  revert b. induction a as [|x a IH]; intros [|y b]; try done.
  simpl PyStr.all_digits. intros [Hx Ha]%andb_true_iff [Hy Hb]%andb_true_iff.
  intros [= Hlen]. simpl str_lt. simpl digits_value.
  rewrite (digits_value_acc _ a), (digits_value_acc _ b), Hlen.
  pose proof (is_digit_range x Hx). pose proof (is_digit_range y Hy).
  pose proof (digits_value_bound a Ha) as Hba.
  pose proof (digits_value_bound b Hb) as Hbb. rewrite Hlen in Hba.
  destruct (Nat.ltb_spec (nat_of_ascii x) (nat_of_ascii y)); [done|].
  destruct (Nat.ltb_spec (nat_of_ascii y) (nat_of_ascii x)).
  - intros _. nia.
  - intros Hlt. specialize (IH b Ha Hb Hlen Hlt).
    assert (nat_of_ascii x = nat_of_ascii y) as -> by lia. lia.
Qed.

Lemma py_max_chosen names x :
  py_max (List.filter isdigit names) = Some x → chosen names x.
Proof.
  unfold py_max. destruct (List.filter isdigit names) as [|d ds] eqn:E; [done|].
  intros [= <-]. destruct (foldl_max d ds) as [Hin Hmax].
  set (x := foldl _ d ds) in *. rewrite <- E in Hin, Hmax.
  assert (∀ n, n ∈ List.filter isdigit names ↔ n ∈ names ∧ isdigit n = true) as Hf.
  { intros n. by rewrite !list_elem_of_In, filter_In. }
  apply Hf in Hin as [Hin Hx]. split_and!; [done|done|].
  intros n Hn Hd. assert (str_lt x n = false) as Hlt by (apply Hmax, Hf; done).
  split; [done|]. intros Hdn Hdx Hlen. unfold int_of_digits.
  by apply str_lt_digits.
Qed.

(** X24. The directory the dashboard calls the latest is
    [<root>/<y>/<m>/<d>] where, at each level, the name is one of the
    listed names that [str.isdigit] accepts and none of these is greater
    as a string; of the names written with the digits [0] to [9], none
    of the same length as the chosen one writes a greater number. *)
Theorem latest_directory_is_greatest p :
  get_latest_data_dir = Ok (Some p) →
  ∃ years months days y m d,
    listdir CLEAN_DATA_ROOT = Ok years
    ∧ listdir (os_path_join CLEAN_DATA_ROOT y) = Ok months
    ∧ listdir (os_path_join (os_path_join CLEAN_DATA_ROOT y) m) = Ok days
    ∧ chosen years y ∧ chosen months m ∧ chosen days d
    ∧ p = os_path_join (os_path_join (os_path_join CLEAN_DATA_ROOT y) m) d.
Proof.
  unfold DashboardData.get_latest_data_dir.
  destruct (exists_ CLEAN_DATA_ROOT); [|done]. simpl negb. cbv iota.
  unfold mbind, result_bind.
  destruct (listdir CLEAN_DATA_ROOT) as [years|]; [|done].
  destruct (py_max (List.filter isdigit years)) as [y|] eqn:Ey; [|done].
  destruct (listdir (os_path_join CLEAN_DATA_ROOT y)) as [months|] eqn:Lm; [|done].
  destruct (py_max (List.filter isdigit months)) as [m|] eqn:Em; [|done].
  destruct (listdir (os_path_join (os_path_join CLEAN_DATA_ROOT y) m))
    as [days|] eqn:Ld; [|done].
  destruct (py_max (List.filter isdigit days)) as [d|] eqn:Ed; [|done].
  intros [= <-]. exists years, months, days, y, m, d.
  split_and!; try done; by apply py_max_chosen.
Qed.

End DashboardTables.

(** * The claims on concrete inputs *)

(** C1 on the sample store: four rows after the title rows, two of them
    the footer; one of the two data rows has no amount. *)
Lemma revenue_drops_footer_and_incomplete_rows_witness :
  ∃ df w',
    Sample.clean_revenue_data Sample.raw_dir Sample.clean_dir Sample.world = (Some df, w')
    ∧ (length (rows df) ≤ 2)%nat
    ∧ ∀ r c, r ∈ rows df → c ∈ r → isna c = false.
Proof.
  eexists _, _. split; [vm_compute; reflexivity|].
  destruct (revenue_drops_footer_and_incomplete_rows
              Sample.pd_infer Sample.pd_to_datetime Sample.pd_to_numeric
              Sample.na_as_text Sample.repr Sample.csv_text
              Sample.raw_dir Sample.clean_dir Sample.world _ _ eq_refl)
    as (sheet & d & Hfs & _ & _ & Hall & _ & Hlen).
  split; [|exact Hall].
  apply Hlen. vm_compute in Hfs. injection Hfs as <-. reflexivity.
Defined.

(** C2 on the sample store: the checkup is kept, the vaccine is kept
    with quantity and cost missing, the collar without a price is not. *)
Lemma services_rows_follow_sale_price_witness :
  ∃ df w',
    Sample.clean_services_data Sample.raw_dir Sample.clean_dir Sample.world = (Some df, w')
    ∧ [Str "Clinic"; Str "Vaccine"; NaN; NaN; Int 90; Sample.day 20449] ∈ rows df
    ∧ [Str "Shop"; Str "Collar"; Int 1; Int 10; NaN; Sample.day 20450] ∉ rows df.
Proof.
  eexists _, _. split; [vm_compute; reflexivity|].
  destruct (services_rows_follow_sale_price
              Sample.pd_infer Sample.pd_to_datetime Sample.pd_to_numeric
              Sample.na_as_text Sample.repr Sample.csv_text
              Sample.raw_dir Sample.clean_dir Sample.world _ _ eq_refl)
    as (sheet & d & Hfs & Hd & _ & Hrow).
  vm_compute in Hfs. injection Hfs as <-.
  vm_compute in Hd. injection Hd as <-.
  split.
  - apply (Hrow 1%nat); reflexivity.
  - apply (Hrow 2%nat); reflexivity.
Defined.

(** C3 on the sample store: without the pets export the pets operation
    gives [None], and what [main] gives for pets is the same with and
    without the clients export. *)
Lemma missing_raw_file_is_no_data_witness :
  (Sample.clean_pets_data Sample.raw_dir Sample.clean_dir Sample.world_without_pets).1 = None
  ∧ ProcessData.main_result ProcessData.Pets
      (ProcessData.main Sample.pd_infer Sample.pd_to_datetime Sample.pd_to_numeric
        Sample.na_as_text Sample.repr
         Sample.csv_text "data" "20251227" Sample.world).1
    = ProcessData.main_result ProcessData.Pets
        (ProcessData.main Sample.pd_infer Sample.pd_to_datetime Sample.pd_to_numeric
          Sample.na_as_text Sample.repr
           Sample.csv_text "data" "20251227"
           (ProcessData.World
              (delete "data/raw/20251227/clients.xlsx" (ProcessData.fs Sample.world)) [])).1.
Proof.
  destruct (missing_raw_file_is_no_data
              Sample.pd_infer Sample.pd_to_datetime Sample.pd_to_numeric
              Sample.na_as_text Sample.repr Sample.csv_text
              ProcessData.Pets Sample.raw_dir Sample.clean_dir Sample.world_without_pets
              "data" "20251227" Sample.world
              (ProcessData.World
                 (delete "data/raw/20251227/clients.xlsx" (ProcessData.fs Sample.world)) [])
              ProcessData.Clients) as [Hnone Hmain].
  - reflexivity.
  - discriminate.
  - intros p Hp. simpl. symmetry. apply lookup_delete_ne. exact (not_eq_sym Hp).
  - split; [|exact Hmain].
    change (Sample.clean_pets_data Sample.raw_dir Sample.clean_dir Sample.world_without_pets)
      with (ProcessData.cleaner Sample.pd_infer Sample.pd_to_datetime Sample.pd_to_numeric
        Sample.na_as_text Sample.repr
              Sample.csv_text ProcessData.Pets Sample.raw_dir Sample.clean_dir
              Sample.world_without_pets).
    rewrite Hnone. reflexivity.
Defined.

(** C5 as stated fails: a phone typed as text with a plus sign and
    spaces comes out as it went in. *)
Lemma phone_need_not_be_digits :
  ∃ df w' row,
    Sample.clean_clients_data Sample.raw_dir Sample.clean_dir Sample.world = (Some df, w')
    ∧ row ∈ rows df
    ∧ Pd.at_col 2 row = Str "+20 100 200 3000"
    ∧ PyStr.all_digits "+20 100 200 3000" = false.
Proof.
  eexists _, _, [Str "Omar"; Str "C-2"; Str "+20 100 200 3000"; Sample.day 20450; Str "Inactive"].
  split; [vm_compute; reflexivity|].
  split; [|split; reflexivity].
  simpl. apply list_elem_of_In. right. left. reflexivity.
Defined.

(** C5 as amended, on the sample store: the third client, whose phone
    is the text ["201234567.0"], comes out third with ["201234567"]; and
    on a pets export whose phones are all digits typed as text, which
    are read as numbers, ["01001234567"] comes out as ["1001234567"]. *)
Lemma phone_is_text_before_first_dot_witness :
  (∃ df w' row,
     Examples.cleaner ProcessData.Clients Sample.raw_dir Sample.clean_dir Sample.world
     = (Some df, w')
     ∧ rows df !! 2%nat = Some row
     ∧ Pd.at_col 2 row = Str "201234567")
  ∧ (∃ df w' row,
       Examples.cleaner ProcessData.Pets Sample.raw_dir Sample.clean_dir
         Examples.world_text_phones
       = (Some df, w')
       ∧ rows df !! 0%nat = Some row
       ∧ Pd.at_col 5 row = Str "1001234567").
Proof.
  split.
  - destruct (Examples.cleaner ProcessData.Clients Sample.raw_dir Sample.clean_dir
                Sample.world) as [[df|] w'] eqn:E; [|vm_compute in E; discriminate E].
    destruct (phone_is_text_before_first_dot
                Sample.pd_infer Sample.pd_to_datetime Sample.pd_to_numeric
                Sample.na_as_text Sample.repr Sample.csv_text
                ProcessData.Clients 2%nat Sample.raw_dir Sample.clean_dir Sample.world
                df w' (or_introl eq_refl) eq_refl E)
      as (sheet & Hfs & _ & Hrows).
    vm_compute in Hfs. injection Hfs as <-.
    destruct (Hrows 2%nat _ eq_refl) as (row & Hrow & _ & _ & _ & Hcut & _).
    exists df, w', row. split; [reflexivity|]. split; [exact Hrow|].
    apply Hcut; vm_compute; reflexivity.
  - destruct (Examples.cleaner ProcessData.Pets Sample.raw_dir Sample.clean_dir
                Examples.world_text_phones) as [[df|] w'] eqn:E;
      [|vm_compute in E; discriminate E].
    destruct (phone_is_text_before_first_dot
                Sample.pd_infer Sample.pd_to_datetime Sample.pd_to_numeric
                Sample.na_as_text Sample.repr Sample.csv_text
                ProcessData.Pets 5%nat Sample.raw_dir Sample.clean_dir
                Examples.world_text_phones df w' (or_intror eq_refl) eq_refl E)
      as (sheet & Hfs & _ & Hrows).
    vm_compute in Hfs. injection Hfs as <-.
    destruct (Hrows 0%nat _ eq_refl) as (row & Hrow & _ & _ & Htext & _).
    exists df, w', row. split; [reflexivity|]. split; [exact Hrow|].
    rewrite Htext by (left; vm_compute; reflexivity). vm_compute; reflexivity.
Defined.

(** C8 as stated fails: the sheet is read and typed, a plain file sits
    where the clean directory should be, and the operation returns
    [None], not the table. *)
Lemma persistence_failure_loses_table :
  ∃ df,
    ProcessData.fs Sample.world_clean_is_file
      !! ProcessData.raw_path Sample.raw_dir ProcessData.Clients
    = Some (ProcessData.Workbook Sample.clients_sheet)
    ∧ ProcessData.typed_clients Sample.pd_infer Sample.pd_to_datetime Sample.na_as_text
        Sample.repr Sample.clients_sheet = Ok df
    ∧ (Sample.clean_clients_data Sample.raw_dir Sample.clean_dir Sample.world_clean_is_file).1
      = None.
Proof.
  eexists. split; [vm_compute; reflexivity|].
  split; vm_compute; reflexivity.
Defined.

(** C8 as amended, on the sample store: the table is returned and the
    CSV is in place. *)
Lemma persistence_failure_gives_no_data_witness :
  ∃ df,
    ProcessData.typed_clients Sample.pd_infer Sample.pd_to_datetime Sample.na_as_text
        Sample.repr Sample.clients_sheet = Ok df
    ∧ (Sample.clean_clients_data Sample.raw_dir Sample.clean_dir Sample.world).1 = Some df
    ∧ ProcessData.fs
        (Sample.clean_clients_data Sample.raw_dir Sample.clean_dir Sample.world).2
        !! "data/clean/20251227/clients.csv"
      = Some (ProcessData.Blob (Sample.csv_text df)).
Proof.
  eexists. split; [vm_compute; reflexivity|].
  destruct (persistence_failure_gives_no_data
              Sample.pd_infer Sample.pd_to_datetime Sample.pd_to_numeric
              Sample.na_as_text Sample.repr Sample.csv_text
              ProcessData.Clients Sample.raw_dir Sample.clean_dir Sample.world
              Sample.clients_sheet _ eq_refl eq_refl)
    as [(Hres & Hcsv & _)|(Hres & _)].
  - split; [exact Hres|exact Hcsv].
  - vm_compute in Hres. discriminate Hres.
Defined.

(** C4 as stated fails: status 200, declared type JSON, a body that is
    an HTML page and does not decode: the fetch returns [None], not a
    structured payload. *)
Lemma json_label_without_json_body :
  ∃ resp,
    Sample.vendor_error_page
      (IngestData.Request "" [] []) = Ok resp
    ∧ IngestData.status_code resp = 200
    ∧ PyStr.startswith "PK" (IngestData.content resp) = false
    ∧ PyStr.contains "json"
        (IngestData.headers_get "Content-Type" "" (IngestData.headers resp)) = true
    ∧ (IngestData.fetch_data Sample.vendor_error_page "token" "clients" [] Sample.store).1
      = None.
Proof.
  eexists. split; [reflexivity|].
  split_and!; vm_compute; reflexivity.
Defined.

(** C4 as amended, on a workbook that the vendor labels as JSON. *)
Lemma ok_response_classification_witness :
  (IngestData.fetch_data Sample.vendor_workbook "token" "clients"
     [("CreatedAtFrom", "2025-12-01"); ("CreatedAtTo", "2025-12-27")] Sample.store).1
  = Some (IngestData.FilePackage "PK-workbook").
Proof.
  destruct (IngestData.fetch_data Sample.vendor_workbook "token" "clients"
              [("CreatedAtFrom", "2025-12-01"); ("CreatedAtTo", "2025-12-27")] Sample.store)
    as [o s'] eqn:E.
  pose proof (ok_response_classification Sample.vendor_workbook "token" "clients"
                [("CreatedAtFrom", "2025-12-01"); ("CreatedAtTo", "2025-12-27")]
                Sample.store) as H.
  rewrite E in H. simpl in H. simpl.
  assert (∃ req, last (IngestData.sent s') = Some req) as [req Hreq].
  { vm_compute in E. injection E as _ <-. eexists. reflexivity. }
  exact (H _ req _ eq_refl Hreq eq_refl eq_refl).
Defined.

(** C9 on the clients endpoint: the caller's dates replace the default
    dates, [IsActive] keeps its default, the stored defaults stay. *)
Lemma fetch_params_are_defaults_updated_witness :
  ∃ req,
    IngestData.sent
      (IngestData.fetch_data Sample.vendor_workbook "token" "clients"
         [("CreatedAtFrom", "2025-12-01"); ("CreatedAtTo", "2025-12-27")] Sample.store).2
    = [req]
    ∧ IngestData.dict_get "CreatedAtFrom" (IngestData.req_params req) = Some "2025-12-01"
    ∧ IngestData.dict_get "IsActive" (IngestData.req_params req) = Some "true"
    ∧ IngestData.heap
        (IngestData.fetch_data Sample.vendor_workbook "token" "clients"
           [("CreatedAtFrom", "2025-12-01"); ("CreatedAtTo", "2025-12-27")] Sample.store).2
        !! 0%nat
      = IngestData.constants_heap !! 0%nat.
Proof.
  destruct (fetch_params_are_defaults_updated Sample.vendor_workbook "token" "clients"
              [("CreatedAtFrom", "2025-12-01"); ("CreatedAtTo", "2025-12-27")]
              Sample.store _ eq_refl)
    as (req & Hsent & _ & Hget & Hframe).
  - apply NoDup_cons. split.
    + intros [H|H]%elem_of_cons; [discriminate H|by apply elem_of_nil in H].
    + apply NoDup_cons. split; [apply not_elem_of_nil|apply NoDup_nil_2].
  - exists req. split; [exact Hsent|].
    split; [rewrite Hget; reflexivity|].
    split; [rewrite Hget; reflexivity|].
    apply Hframe. apply elem_of_dom. eexists. reflexivity.
Defined.

(** C10 on a key that [ENDPOINTS] does not have. *)
Lemma unknown_endpoint_sends_nothing_witness :
  (IngestData.fetch_data Sample.vendor_workbook "token" "inventory" [] Sample.store).1 = None
  ∧ IngestData.sent
      (IngestData.fetch_data Sample.vendor_workbook "token" "inventory" [] Sample.store).2
    = [].
Proof.
  destruct (unknown_endpoint_sends_nothing Sample.vendor_workbook "token" "inventory" []
              Sample.store) as (Hres & Hsent & _).
  - intros H. repeat (apply elem_of_cons in H as [H|H]; [discriminate H|]).
    by apply elem_of_nil in H.
  - split; [rewrite Hres; reflexivity|exact Hsent].
Defined.

(** C6 on three rows dated 2025-12-09, 2025-12-10 and 2025-12-20 (the
    last one a second before midnight) with the range 2025-12-10 to
    2025-12-20: the last two are returned. *)
Lemma date_filter_is_inclusive_witness :
  ∃ out,
    Dashboard.filter_df 20432 20442 Sample.clean_clients "creation_date" = Ok out
    ∧ rows out = drop 1 (rows Sample.clean_clients).
Proof.
  destruct (date_filter_is_inclusive 20432 20442 Sample.clean_clients "creation_date")
    as (out & Hout & _ & Hrows).
  - intros j r [= <-] Hr.
    repeat (apply elem_of_cons in Hr as [->|Hr]; [reflexivity|]).
    by apply elem_of_nil in Hr.
  - exists out. split; [exact Hout|].
    destruct (Hrows eq_refl 3%nat eq_refl) as (_ & -> & _). reflexivity.
Defined.

(** * The further properties on concrete inputs *)

(** Going through the directories on the way to a concrete path. *)
Ltac each_dir Hp :=
  apply list_elem_of_In in Hp; vm_compute in Hp;
  repeat (destruct Hp as [<-|Hp]); [..|destruct Hp].

Ltac is_dir_of := apply list_elem_of_In; vm_compute; tauto.

(** X1 on the sample store: the pets table has the six columns of its
    schema and six values in every row. *)
Lemma clean_table_has_schema_witness :
  ∃ df w',
    Examples.cleaner ProcessData.Pets Sample.raw_dir Sample.clean_dir Sample.world
    = (Some df, w')
    ∧ columns df = Layout.schema ProcessData.Pets
    ∧ ∀ row, row ∈ rows df → length row = length (columns df).
Proof.
  eexists _, _. split; [vm_compute; reflexivity|].
  exact (clean_table_has_schema
           Sample.pd_infer Sample.pd_to_datetime Sample.pd_to_numeric
           Sample.na_as_text Sample.repr Sample.csv_text
           ProcessData.Pets Sample.raw_dir Sample.clean_dir Sample.world _ _ eq_refl).
Defined.

(** X2 on the sample store: the pets sheet has two rows after its four
    title rows, and so has the table. *)
Lemma clients_and_pets_keep_every_row_witness :
  ∃ df w',
    Examples.cleaner ProcessData.Pets Sample.raw_dir Sample.clean_dir Sample.world
    = (Some df, w')
    ∧ length (rows df) = 2%nat.
Proof.
  eexists _, _. split; [vm_compute; reflexivity|].
  destruct (clients_and_pets_keep_every_row
              Sample.pd_infer Sample.pd_to_datetime Sample.pd_to_numeric
              Sample.na_as_text Sample.repr Sample.csv_text
              ProcessData.Pets Sample.raw_dir Sample.clean_dir Sample.world _ _
              (or_intror eq_refl) eq_refl) as (sheet & Hfs & Hlen).
  vm_compute in Hfs. injection Hfs as <-. exact Hlen.
Defined.

(** X3 on a clients export with the date ["yesterday"] in its second
    row: no table, and the two records in the log. *)
Lemma unparseable_date_loses_report_witness :
  Examples.cleaner ProcessData.Clients Sample.raw_dir Sample.clean_dir
    Examples.world_bad_date
  = (None,
     ProcessData.World (ProcessData.fs Examples.world_bad_date)
       [(ProcessData.INFO, ProcessData.Loading (ProcessData.title ProcessData.Clients));
        (ProcessData.ERROR,
         ProcessData.ErrorLoading (ProcessData.key ProcessData.Clients) DateParseError)]).
Proof.
  apply (unparseable_date_loses_report
           Sample.pd_infer Sample.pd_to_datetime Sample.pd_to_numeric
           Sample.na_as_text Sample.repr Sample.csv_text
           ProcessData.Clients Sample.raw_dir Sample.clean_dir Examples.world_bad_date
           Examples.clients_sheet_bad_date); vm_compute; reflexivity.
Defined.

(** X4 on the sample store: the clients export is cleaned and stored,
    and [data/clean], which was not there, is a directory afterwards. *)
Lemma readable_sheet_is_cleaned_witness :
  ∃ df,
    (Examples.cleaner ProcessData.Clients Sample.raw_dir Sample.clean_dir Sample.world).1
    = Some df
    ∧ ProcessData.fs
        (Examples.cleaner ProcessData.Clients Sample.raw_dir Sample.clean_dir Sample.world).2
        !! ProcessData.clean_path Sample.clean_dir ProcessData.Clients
      = Some (ProcessData.Blob (Sample.csv_text df))
    ∧ ProcessData.fs
        (Examples.cleaner ProcessData.Clients Sample.raw_dir Sample.clean_dir Sample.world).2
        !! "data/clean"
      = Some ProcessData.Dir.
Proof.
  destruct (readable_sheet_is_cleaned
              Sample.pd_infer Sample.pd_to_datetime Sample.pd_to_numeric
              Sample.na_as_text Sample.repr Sample.csv_text
              ProcessData.Clients Sample.raw_dir Sample.clean_dir Sample.world
              Sample.clients_sheet
              [Sample.day 20449; Sample.day 20450; Sample.day 20451])
    as (df & Hres & Hcsv & Hdirs).
  - vm_compute; reflexivity.
  - vm_compute; reflexivity.
  - vm_compute; reflexivity.
  - discriminate.
  - intros p Hp. each_dir Hp; left; vm_compute; reflexivity.
  - vm_compute. discriminate.
  - exists df. split; [exact Hres|]. split; [exact Hcsv|].
    apply Hdirs. is_dir_of.
Defined.

(** X5 on a raw directory without exports: no revenue table, and the
    store as it was. *)
Lemma nothing_written_unless_typed_witness :
  (Examples.cleaner ProcessData.Revenue Sample.raw_dir Sample.clean_dir
     Examples.world_no_exports).1 = None
  ∧ ProcessData.fs
      (Examples.cleaner ProcessData.Revenue Sample.raw_dir Sample.clean_dir
         Examples.world_no_exports).2
    = ProcessData.fs Examples.world_no_exports.
Proof.
  apply (nothing_written_unless_typed
           Sample.pd_infer Sample.pd_to_datetime Sample.pd_to_numeric
           Sample.na_as_text Sample.repr Sample.csv_text
           ProcessData.Revenue Sample.raw_dir Sample.clean_dir Examples.world_no_exports).
  intros sheet df Hfs. vm_compute in Hfs. discriminate Hfs.
Defined.


(** X7 on a revenue export with the two footer rows only: a table of
    ten columns and no row. *)
Lemma revenue_footer_only_is_empty_table_witness :
  (Sample.clean_revenue_data Sample.raw_dir Sample.clean_dir Examples.world_footer_only).1
  = Some (DataFrame (Layout.schema ProcessData.Revenue) []).
Proof.
  apply (revenue_footer_only_is_empty_table
           Sample.pd_infer Sample.pd_to_datetime Sample.pd_to_numeric
           Sample.na_as_text Sample.repr Sample.csv_text
           Sample.raw_dir Sample.clean_dir Examples.world_footer_only
           Examples.revenue_sheet_footer_only []).
  - vm_compute; reflexivity.
  - vm_compute; reflexivity.
  - vm_compute. lia.
  - reflexivity.
  - discriminate.
  - intros p Hp. each_dir Hp; left; vm_compute; reflexivity.
  - vm_compute. discriminate.
Defined.

(** X25 on the sample store with a plain file at [data/clean]: the
    clients are read and typed and then lost, and nothing is created. *)
Lemma file_on_the_way_loses_report_witness :
  ∃ e,
    (e = NotADirectoryError ∨ e = FileExistsError)
    ∧ Examples.cleaner ProcessData.Clients Sample.raw_dir Sample.clean_dir
        Examples.world_file_above_clean
      = (None,
         ProcessData.World (ProcessData.fs Examples.world_file_above_clean)
           (ProcessData.log Examples.world_file_above_clean
            ++ [(ProcessData.INFO, ProcessData.Loading (ProcessData.title ProcessData.Clients));
                (ProcessData.ERROR,
                 ProcessData.ErrorLoading (ProcessData.key ProcessData.Clients) e)])).
Proof.
  destruct (Examples.cleaner ProcessData.Clients Sample.raw_dir Sample.clean_dir
              Sample.world) as [[df|] w'] eqn:E; [|vm_compute in E; discriminate E].
  destruct (cleaner_returns_inv
              Sample.pd_infer Sample.pd_to_datetime Sample.pd_to_numeric
              Sample.na_as_text Sample.repr Sample.csv_text
              ProcessData.Clients Sample.raw_dir Sample.clean_dir Sample.world df w' E)
    as (sheet & Hfs & Hty & _).
  vm_compute in Hfs. injection Hfs as <-.
  apply (file_on_the_way_loses_report
           Sample.pd_infer Sample.pd_to_datetime Sample.pd_to_numeric
           Sample.na_as_text Sample.repr Sample.csv_text
           ProcessData.Clients Sample.raw_dir Sample.clean_dir
           Examples.world_file_above_clean Sample.clients_sheet df
           "data/clean" (ProcessData.Blob "not a directory")).
  - vm_compute; reflexivity.
  - exact Hty.
  - discriminate.
  - is_dir_of.
  - vm_compute; reflexivity.
  - discriminate.
Defined.

(** X8 on the sample store, the day after: the raw directory of
    2025-12-28 is not there. *)
Lemma main_without_raw_directory_witness :
  Examples.main "data" "20251228" Sample.world
  = (Raise FileNotFoundError,
     ProcessData.World (ProcessData.fs Sample.world)
       (ProcessData.log Sample.world
        ++ [(ProcessData.ERROR,
             ProcessData.DirectoryNotFound (os_path_join "data" ("raw/" +:+ "20251228")));
            (ProcessData.INFO, ProcessData.RunFetchFirst)])).
Proof.
  apply (main_without_raw_directory
           Sample.pd_infer Sample.pd_to_datetime Sample.pd_to_numeric
           Sample.na_as_text Sample.repr Sample.csv_text
           "data" "20251228" Sample.world).
  vm_compute; reflexivity.
Defined.

(** X9 on the sample store: [main] returns and the log ends with the
    summary. *)
Lemma main_returns_with_summary_witness :
  ∃ c p s v w' before,
    Examples.main "data" "20251227" Sample.world = (Ok (c, p, s, v, None, None), w')
    ∧ ProcessData.log w' = before ++ Layout.summary c p s v.
Proof.
  apply (main_returns_with_summary
           Sample.pd_infer Sample.pd_to_datetime Sample.pd_to_numeric
           Sample.na_as_text Sample.repr Sample.csv_text
           "data" "20251227" Sample.world).
  exists ProcessData.Dir. vm_compute; reflexivity.
Defined.

(** X10 on the store of [Constants.py]: the clients request carries the
    token and no content type, and still accepts what [HEADERS] accepts. *)
Lemma fetch_headers_carry_token_witness :
  ∃ req,
    IngestData.sent
      (IngestData.fetch_data Sample.vendor_workbook "t0k3n" "clients" [] Sample.store).2
    = IngestData.sent Sample.store ++ [req]
    ∧ IngestData.dict_get "Authorization" (IngestData.req_headers req)
      = Some ("Bearer " +:+ "t0k3n")
    ∧ IngestData.dict_get "Content-Type" (IngestData.req_headers req) = None.
Proof.
  destruct (fetch_headers_carry_token Sample.vendor_workbook "t0k3n" "clients" []
              Sample.store _
              [("Content-Type", "application/json");
               ("Accept", "application/json, application/vnd.openxmlformats-officedocument.spreadsheetml.sheet")]
              eq_refl)
    as (req & Hsent & Hauth & Htype & _).
  - vm_compute; reflexivity.
  - apply (bool_decide_unpack _). vm_compute; reflexivity.
  - exists req. split; [exact Hsent|]. split; [exact Hauth|exact Htype].
Defined.

(** X11 on the vendor that answers with a workbook: the payload is the
    content of an answer with status 200. *)
Lemma payload_only_from_ok_response_witness :
  ∃ resp,
    (IngestData.fetch_data Sample.vendor_workbook "t0k3n" "pets" [] Sample.store).1
    = Some (IngestData.FilePackage (IngestData.content resp))
    ∧ IngestData.status_code resp = 200.
Proof.
  destruct (payload_only_from_ok_response Sample.vendor_workbook "t0k3n" "pets" []
              Sample.store (IngestData.FilePackage "PK-workbook"))
    as (req & resp & _ & _ & H200 & Hbytes).
  - vm_compute; reflexivity.
  - exists resp. split; [|exact H200]. rewrite <- Hbytes. vm_compute; reflexivity.
Defined.

(** X12 on a payload with a number under ["records"] and two records
    under ["data"]. *)
Lemma data_list_decides_records_witness :
  IngestRun.records_of (IngestData.JObject Examples.payload_members)
  = [IngestData.JString "a"; IngestData.JString "b"]
  ∧ IngestRun.records_of (IngestData.JObject Examples.payload_members) ≠ [].
Proof.
  exact (data_list_decides_records Examples.payload_members
           [IngestData.JString "a"; IngestData.JString "b"] eq_refl).
Defined.


(** X26 on a disk where [data/raw] is a plain file. *)
Lemma save_data_refused_by_file_on_the_way_witness :
  (Examples.save_data (Some (IngestData.FilePackage "PK-bytes")) "clients"
     Examples.run_file_at_raw).1 = None
  ∧ IngestRun.disk
      (Examples.save_data (Some (IngestData.FilePackage "PK-bytes")) "clients"
         Examples.run_file_at_raw).2
    = IngestRun.disk Examples.run_file_at_raw.
Proof.
  apply (save_data_refused_by_file_on_the_way Examples.records_sheet
           "2025" "12" "27" "data" (IngestData.FilePackage "PK-bytes") "clients"
           Examples.run_file_at_raw "data/raw" (ProcessData.Blob "x")).
  - vm_compute. discriminate.
  - is_dir_of.
  - vm_compute; reflexivity.
  - discriminate.
Defined.

(** X14 on a structured payload of two records: the path is returned,
    and the workbook of the two records is there. *)
Lemma save_data_path_means_stored_witness :
  IngestRun.disk
    (Examples.save_data
       (Some (IngestData.JsonPackage (IngestData.JObject Examples.payload_members)))
       "pets" Examples.run).2
    !! "data/raw/2025/12/27/pets.xlsx"
  = Some (ProcessData.Workbook [[Str "record"]; [Str "record"]]).
Proof.
  destruct (save_data_path_means_stored Examples.records_sheet "2025" "12" "27" "data"
              (Some (IngestData.JsonPackage (IngestData.JObject Examples.payload_members)))
              "pets" Examples.run "data/raw/2025/12/27/pets.xlsx")
    as (payload & Hpkg & _ & Hstored).
  - vm_compute; reflexivity.
  - injection Hpkg as <-. destruct Hstored as (sheet & Hsheet & Hdisk).
    vm_compute in Hsheet. injection Hsheet as <-. exact Hdisk.
Defined.

(** X15 on 2025-12-27: the clients file of the fetch step is not the
    clients file of the normalizer. *)
Lemma saved_file_is_not_where_main_reads_witness :
  os_path_join (IngestRun.target_dir "2025" "12" "27" "data") ("clients" +:+ ".xlsx")
  = "data/raw/2025/12/27/clients.xlsx"
  ∧ ProcessData.raw_path (os_path_join "data" ("raw/" +:+ ("2025" +:+ "12" +:+ "27")))
      ProcessData.Clients
    = "data/raw/20251227/clients.xlsx"
  ∧ os_path_join (IngestRun.target_dir "2025" "12" "27" "data") ("clients" +:+ ".xlsx")
    ≠ ProcessData.raw_path (os_path_join "data" ("raw/" +:+ ("2025" +:+ "12" +:+ "27")))
        ProcessData.Clients.
Proof.
  destruct (saved_file_is_not_where_main_reads "2025" "12" "27" "data" "clients"
              ProcessData.Clients eq_refl eq_refl eq_refl eq_refl)
    as (root & _ & _ & Hne).
  split; [reflexivity|]. split; [reflexivity|exact Hne].
Defined.

(** X16 on the vendor that gives a token: five requests, with the dates
    of the run. *)
Lemma batch_requests_five_reports_witness :
  ∃ reqs,
    IngestData.sent (IngestRun.store (Examples.ingest_data Examples.post_token Examples.run).2)
    = reqs
    ∧ length reqs = 5%nat
    ∧ Forall (λ req, IngestData.dict_get "CreatedAtFrom" (IngestData.req_params req)
                     = Some "2025-12-20"
                     ∧ IngestData.dict_get "CreatedAtTo" (IngestData.req_params req)
                       = Some "2025-12-27") reqs.
Proof.
  destruct (batch_requests_five_reports Sample.vendor_workbook Examples.post_token
              Examples.getenv Examples.records_sheet Examples.str_of_json
              "2025" "12" "27" "2025-12-20" "2025-12-27" "data" Examples.run
              _ _ _ eq_refl eq_refl eq_refl eq_refl eq_refl)
    as (_ & reqs & Hsent & Hurl & Hdates).
  exists reqs. split; [exact Hsent|]. split; [|exact Hdates].
  rewrite <- (length_fmap IngestData.url), Hurl. reflexivity.
Defined.

(** X17 on the vendor that gives a token: requests were sent, so the
    login answer had the token. *)
Lemma fetch_only_with_token_witness :
  ∃ members data tok,
    (IngestRun.sign_in Examples.post_token Examples.getenv Examples.run).1
    = Some (IngestData.JObject members)
    ∧ IngestRun.truthy_opt (IngestRun.members_get "success" members) = true
    ∧ IngestRun.members_get "data" members = Some (IngestData.JObject data)
    ∧ IngestRun.members_get "token" data = Some tok
    ∧ IngestRun.truthy tok = true.
Proof.
  apply (fetch_only_with_token Sample.vendor_workbook Examples.post_token
           Examples.getenv Examples.records_sheet Examples.str_of_json
           "2025" "12" "27" "2025-12-20" "2025-12-27" "data" Examples.run).
  left. vm_compute. discriminate.
Defined.

(** X18 on the vendor that answers success with a null under ["data"]. *)
Lemma login_without_data_object_raises_witness :
  (Examples.ingest_data Examples.post_null_data Examples.run).1 = Raise AttributeError
  ∧ IngestData.sent
      (IngestRun.store (Examples.ingest_data Examples.post_null_data Examples.run).2)
    = IngestData.sent (IngestRun.store Examples.run)
  ∧ IngestRun.notes (Examples.ingest_data Examples.post_null_data Examples.run).2
    = IngestRun.notes
        (IngestRun.sign_in Examples.post_null_data Examples.getenv Examples.run).2.
Proof.
  apply (login_without_data_object_raises Sample.vendor_workbook Examples.post_null_data
           Examples.getenv Examples.records_sheet Examples.str_of_json
           "2025" "12" "27" "2025-12-20" "2025-12-27" "data" Examples.run
           _ IngestData.JNull eq_refl eq_refl eq_refl).
  discriminate.
Defined.

(** X20 on the three clean rows, for 9 and 10 December. *)
Lemma filter_df_twice_witness :
  ∃ out,
    Dashboard.filter_df 20431 20432 Sample.clean_clients "creation_date" = Ok out
    ∧ Dashboard.filter_df 20431 20432 out "creation_date" = Ok out.
Proof.
  eexists. split; [vm_compute; reflexivity|].
  apply (filter_df_twice 20431 20432 Sample.clean_clients).
  vm_compute; reflexivity.
Defined.

(** X21 on the three clean rows, from 20 December to 9 December. *)
Lemma inverted_range_keeps_no_row_witness :
  ∃ out,
    Dashboard.filter_df 20442 20431 Sample.clean_clients "creation_date" = Ok out
    ∧ out = DataFrame (columns Sample.clean_clients) [].
Proof.
  eexists. split; [vm_compute; reflexivity|].
  apply (inverted_range_keeps_no_row 20442 20431 Sample.clean_clients "creation_date").
  - lia.
  - reflexivity.
  - apply list_elem_of_In. vm_compute. tauto.
  - vm_compute; reflexivity.
Defined.

(** The [pd.to_datetime] of [Sample] gives one datetime value for each
    value it is given. *)
Lemma sample_dates_are_datetimes (c d : list cell) :
  Sample.pd_to_datetime c = Some d →
  length d = length c ∧ forallb Dashboard.datetimelike d = true.
Proof.
  unfold Sample.pd_to_datetime. intros H%mapM_Some.
  induction H as [|x y c d Hxy _ [IHl IHd]]; [done|]. simpl. split; [by rewrite IHl|].
  rewrite IHd, andb_true_r. by destruct x; simplify_eq/=.
Qed.

(** X22 on the clients table of a CSV with one missing date. *)
Lemma loaded_table_can_be_filtered_witness :
  ∃ loaded out,
    Examples.load_table "clients" (Some Examples.clients_csv) = Ok loaded
    ∧ Dashboard.filter_df 20431 20442 loaded "creation_date" = Ok out
    ∧ columns out = columns Examples.clients_csv.
Proof.
  destruct (Examples.load_table "clients" (Some Examples.clients_csv))
    as [loaded|e] eqn:Hload; [|vm_compute in Hload; discriminate Hload].
  destruct (loaded_table_can_be_filtered 20431 20442 Sample.pd_to_datetime "clients"
              Examples.clients_csv loaded sample_dates_are_datetimes)
    as (out & Hout & Hcols).
  - intros r Hr. apply list_elem_of_In in Hr. simpl in Hr.
    destruct Hr as [<-|[<-|[]]]; reflexivity.
  - apply list_elem_of_In. vm_compute. tauto.
  - exact Hload.
  - exists loaded, out. split; [reflexivity|]. split; [exact Hout|exact Hcols].
Defined.

(** X23 on an expenses table with both date columns. *)
Lemma expenses_with_both_date_columns_raise_witness :
  ∃ loaded,
    Examples.load_table "expenses" (Some Examples.expenses_csv) = Ok loaded
    ∧ DashboardData.expenses_filtered 20431 20442 loaded = Raise AttributeError.
Proof.
  eexists. split; [vm_compute; reflexivity|].
  apply (expenses_with_both_date_columns_raise 20431 20442 Sample.pd_to_datetime
           Examples.expenses_csv _ 1%nat
           [Int 1766793600000000000; Str "2025-12-27"; Int 120]).
  - apply list_elem_of_In. vm_compute. tauto.
  - reflexivity.
  - apply list_elem_of_In. left. reflexivity.
  - reflexivity.
  - vm_compute; reflexivity.
Defined.

(** X24 on a clean tree of two years: the latest directory is that of
    27 December 2025, and the names that are not digits are passed over. *)
Lemma latest_directory_is_greatest_witness :
  ∃ years months days y m d,
    Examples.listdir "clean" = Ok years
    ∧ Examples.listdir (os_path_join "clean" y) = Ok months
    ∧ Examples.listdir (os_path_join (os_path_join "clean" y) m) = Ok days
    ∧ DashboardData.chosen Examples.isdigit years y
    ∧ DashboardData.chosen Examples.isdigit months m
    ∧ DashboardData.chosen Examples.isdigit days d
    ∧ "clean/2025/12/27" = os_path_join (os_path_join (os_path_join "clean" y) m) d.
Proof.
  apply (latest_directory_is_greatest Examples.exists_ Examples.listdir
           Examples.isdigit "clean").
  vm_compute; reflexivity.
Defined.
